(** * H1SDR: streaming DSP pipeline, supervisor and acquisition queue

    A shallow embedding of the processing core of the H1SDR WebSDR
    (src/web_sdr/...), together with the proofs of its specified
    properties.

    Conventions of the embedding.
    - numpy float and complex arrays are lists over the real numbers [R]
      (complex samples are pairs of reals); floating-point rounding,
      infinities and NaN are outside the model.
    - A Python [try: ... except Exception] is a match on a result of type
      [res], whose [Raise] constructor carries the exception.  Exceptions
      are the instances of Python's [Exception] class.
    - Mutable objects are explicit states threaded through the calls.
    - scipy's filter design, filtering and resampling routines are not code of
      this repository; they are taken as an interface ([Scipy]). *)

From Stdlib Require Import Reals Lra Lia ZArith List String Bool.
From stdpp Require Import gmap strings list.

Set Default Proof Using "Type".

(** ** Results and exceptions *)

Inductive res (E A : Type) : Type :=
| Ok (a : A)
| Raise (e : E).
Arguments Ok {E A} a.
Arguments Raise {E A} e.

Definition res_bind {E A B} (m : res E A) (k : A -> res E B) : res E B :=
  match m with
  | Ok a => k a
  | Raise e => Raise e
  end.

(** [try_except body handler] is [try: body except Exception as e: handler e]. *)
Definition try_except {E A} (body : res E A) (handler : E -> res E A) : res E A :=
  match body with
  | Ok a => Ok a
  | Raise e => handler e
  end.

Declare Scope res_scope.
Delimit Scope res_scope with res.
Notation "x <- m ;;; k" := (res_bind m (fun x => k))
  (at level 100, m at next level, right associativity) : res_scope.

(** The Python exceptions that the modelled code raises or meets. *)
Inductive PyExn : Type :=
| ValueError (msg : string)
| ZeroDivisionError
| IndexError
| Full
| Empty.

(** ** pipeline/plugin_supervisor.py *)

Module Supervisor.
Section Supervisor.

(** [Data] is the chunk handed to every plugin, [Payload] what a plugin
    returns, [Exn] the exceptions a plugin may raise.  [World] is everything
    the plugins may read and change (their own counters and buffers, the
    shared spectrum processor, the event-loop clock).  The results that
    [asyncio.gather] returns are in task order, whatever the interleaving;
    the model runs the tasks in that order, each as one step on [World]. *)
Context {Data Payload Exn World : Type}.

(** [asyncio.get_event_loop().time()] *)
Variable loop_time : World -> R.

Inductive outcome : Type :=
| Returns (v : Payload)
| Raises (e : Exn).

Record Plugin : Type := {
  name : string;
  process : Data -> World -> outcome * World
}.

Record PluginResult : Type := {
  plugin_name : string;
  success : bool;
  data : option Payload;
  error : option Exn;
  execution_time_ms : R
}.

(** One entry of [plugin_stats]: [{'success': n, 'failure': m}]. *)
Record Stats : Type := { stat_success : nat; stat_failure : nat }.

Record PluginSupervisor : Type := {
  plugins : list Plugin;
  total_executions : nat;
  total_failures : nat;
  plugin_stats : gmap string Stats
}.

(** [{p.name: {'success': 0, 'failure': 0} for p in plugins}]: a later
    plugin of the same name overwrites the entry. *)
Definition fresh_stats (ps : list Plugin) : gmap string Stats :=
  fold_left (fun m p => <[name p := {| stat_success := 0; stat_failure := 0 |}]> m) ps ∅.

Definition init (ps : list Plugin) : PluginSupervisor :=
  {| plugins := ps; total_executions := 0; total_failures := 0;
     plugin_stats := fresh_stats ps |}.

Definition _safe_execute (plugin : Plugin) (d : Data) (w : World)
  : PluginResult * World :=
  let start_time := loop_time w in
  match process plugin d w with
  | (Returns result, w') =>
      let execution_time := ((loop_time w' - start_time) * 1000)%R in
      ({| plugin_name := name plugin; success := true; data := Some result;
          error := None; execution_time_ms := execution_time |}, w')
  | (Raises e, w') =>
      let execution_time := ((loop_time w' - start_time) * 1000)%R in
      ({| plugin_name := name plugin; success := false; data := None;
          error := Some e; execution_time_ms := execution_time |}, w')
  end.

(** [asyncio.gather] with [return_exceptions=True] over the tasks
    [_safe_execute(plugin, data)]: one item per task, in task order, an
    item being the task's value or the exception that escaped it. *)
Fixpoint gather (ps : list Plugin) (d : Data) (w : World)
  : list (PluginResult + Exn) * World :=
  match ps with
  | [] => ([], w)
  | p :: ps' =>
      let '(r, w1) := _safe_execute p d w in
      let '(rs, w2) := gather ps' d w1 in
      (inl r :: rs, w2)
  end.

Definition bump_success (s : Stats) : Stats :=
  {| stat_success := S (stat_success s); stat_failure := stat_failure s |}.
Definition bump_failure (s : Stats) : Stats :=
  {| stat_success := stat_success s; stat_failure := S (stat_failure s) |}.

(** The loop [for result in results] of [run_with_supervision].
    [self.plugin_stats[name]] raises [KeyError name] for a missing key;
    the exception leaves the loop with the counters as they are then. *)
Fixpoint analyze (results : list (PluginResult + Exn)) (sup : PluginSupervisor)
  : res string unit * PluginSupervisor :=
  match results with
  | [] => (Ok tt, sup)
  | inl result :: rest =>
      match plugin_stats sup !! plugin_name result with
      | None => (Raise (plugin_name result), sup)
      | Some s =>
          if success result then
            analyze rest
              {| plugins := plugins sup;
                 total_executions := total_executions sup;
                 total_failures := total_failures sup;
                 plugin_stats := <[plugin_name result := bump_success s]> (plugin_stats sup) |}
          else
            analyze rest
              {| plugins := plugins sup;
                 total_executions := total_executions sup;
                 total_failures := S (total_failures sup);
                 plugin_stats := <[plugin_name result := bump_failure s]> (plugin_stats sup) |}
      end
  | inr _ :: rest =>
      analyze rest
        {| plugins := plugins sup;
           total_executions := total_executions sup;
           total_failures := S (total_failures sup);
           plugin_stats := plugin_stats sup |}
  end.

(** [run_with_supervision]: the value is the list [results] that the
    method returns, or the exception that leaves it. *)
Definition run_with_supervision (sup : PluginSupervisor) (d : Data) (w : World)
  : res string (list (PluginResult + Exn)) * PluginSupervisor * World :=
  let sup1 := {| plugins := plugins sup;
                 total_executions := S (total_executions sup);
                 total_failures := total_failures sup;
                 plugin_stats := plugin_stats sup |} in
  let '(results, w') := gather (plugins sup1) d w in
  match analyze results sup1 with
  | (Ok _, sup2) => (Ok results, sup2, w')
  | (Raise k, sup2) => (Raise k, sup2, w')
  end.

(** Repeated dispatch cycles, one per chunk, as the caller's loop
    [for ...: results = await supervisor.run_with_supervision(chunk)];
    an exception out of a cycle ends the loop. *)
Fixpoint run_cycles (ds : list Data) (sup : PluginSupervisor) (w : World)
  : res string unit * PluginSupervisor * World :=
  match ds with
  | [] => (Ok tt, sup, w)
  | d :: ds' =>
      match run_with_supervision sup d w with
      | (Ok _, sup', w') => run_cycles ds' sup' w'
      | (Raise k, sup', w') => (Raise k, sup', w')
      end
  end.

(** [get_stats()['plugin_stats'][nm]['success']] and ['failure'] *)
Definition success_count (sup : PluginSupervisor) (nm : string) : option nat :=
  stat_success <$> plugin_stats sup !! nm.
Definition failure_count (sup : PluginSupervisor) (nm : string) : option nat :=
  stat_failure <$> plugin_stats sup !! nm.

Definition always_raises (p : Plugin) : Prop :=
  forall d w, exists e w', process p d w = (Raises e, w').
Definition always_returns (p : Plugin) : Prop :=
  forall d w, exists v w', process p d w = (Returns v, w').

(** What [_safe_execute] makes of a plugin's outcome. *)
Definition result_of (p : Plugin) (o : outcome) (elapsed_ms : R) : PluginResult :=
  match o with
  | Returns v => {| plugin_name := name p; success := true; data := Some v;
                    error := None; execution_time_ms := elapsed_ms |}
  | Raises e => {| plugin_name := name p; success := false; data := None;
                   error := Some e; execution_time_ms := elapsed_ms |}
  end.

(** The relation between a plugin and its item in the list that
    [run_with_supervision] returns: the item is the [PluginResult] made from
    the outcome of one call of the plugin's [process] on the chunk. *)
Definition item_of (d : Data) (p : Plugin) (item : PluginResult + Exn) : Prop :=
  exists wa wb o, process p d wa = (o, wb) /\
    item = inl (result_of p o ((loop_time wb - loop_time wa) * 1000)%R).

(** Number of successful, and of failed, results carrying the name [nm]
    in one cycle's result list. *)
Fixpoint tally_success (nm : string) (results : list (PluginResult + Exn)) : nat :=
  match results with
  | [] => 0
  | inl r :: rest =>
      (if decide (plugin_name r = nm) then if success r then 1 else 0 else 0)
      + tally_success nm rest
  | inr _ :: rest => tally_success nm rest
  end.

Fixpoint tally_failure (nm : string) (results : list (PluginResult + Exn)) : nat :=
  match results with
  | [] => 0
  | inl r :: rest =>
      (if decide (plugin_name r = nm) then if success r then 0 else 1 else 0)
      + tally_failure nm rest
  | inr _ :: rest => tally_failure nm rest
  end.

Definition add_tally (s f : nat) (st : Stats) : Stats :=
  {| stat_success := stat_success st + s; stat_failure := stat_failure st + f |}.

End Supervisor.

(** The three example plugins at the end of plugin_supervisor.py and the
    list that its [main] supervises.  The world is the event-loop clock:
    [await asyncio.sleep(t)] advances it by [t]. *)
Definition SpectrumPlugin : @Plugin string string string R :=
  {| name := "SpectrumPlugin";
     process := fun _ now => (Returns "spectrum: computed", (now + 0.001)%R) |}.

Definition WaterfallPlugin : @Plugin string string string R :=
  {| name := "WaterfallPlugin";
     process := fun _ now => (Returns "waterfall: updated", (now + 0.0005)%R) |}.

Definition FaultyPlugin : @Plugin string string string R :=
  {| name := "FaultyPlugin";
     process := fun _ now => (Raises "RuntimeError: Simulated plugin failure", now) |}.

Definition demo_plugins : list (@Plugin string string string R) :=
  [SpectrumPlugin; WaterfallPlugin; FaultyPlugin].

Definition demo_clock (now : R) : R := now.

End Supervisor.

(** ** numpy

    The array operations of numpy that the DSP code uses, on lists over [R].
    Sizes and indices are Python integers ([Z]); [//] on integers is
    [Z.div]. *)

Module Np.
Local Open Scope R_scope.

(** complex64/complex128 *)
Definition C : Type := R * R.
Definition Czero : C := (0, 0).
Definition Cadd (a b : C) : C := (fst a + fst b, snd a + snd b).
Definition Csub (a b : C) : C := (fst a - fst b, snd a - snd b).
Definition Cmul (a b : C) : C :=
  (fst a * fst b - snd a * snd b, fst a * snd b + snd a * fst b).
(** complex times real, complex divided by real *)
Definition Cscale (z : C) (r : R) : C := (fst z * r, snd z * r).
Definition Cdiv_real (z : C) (r : R) : C := (fst z / r, snd z / r).
(** [np.real], [np.imag], [np.conj], [np.abs] *)
Definition real (z : C) : R := fst z.
Definition imag (z : C) : R := snd z.
Definition conj (z : C) : C := (fst z, - snd z).
Definition Cabs (z : C) : R := sqrt (fst z * fst z + snd z * snd z).

Definition log10 (x : R) : R := ln x / ln 10.

(** [a < b] as a truth value. *)
Definition Rltb (a b : R) : bool := if Rlt_dec a b then true else false.

(** [int(x)]: truncation towards zero. *)
Definition py_int (x : R) : Z := if Rle_dec 0 x then Zfloor x else Zceil x.

(** [a / b] on Python floats. *)
Definition py_div (a b : R) : res PyExn R :=
  if Req_dec_T b 0 then Raise ZeroDivisionError else Ok (a / b).

(** [a // b] on Python integers. *)
Definition py_floordiv (a b : Z) : res PyExn Z :=
  if (b =? 0)%Z then Raise ZeroDivisionError else Ok (a / b)%Z.

(** [np.zeros(n)] and [np.ones(n)] *)
Definition full {A} (v : A) (n : Z) : res PyExn (list A) :=
  if (n <? 0)%Z then Raise (ValueError "negative dimensions are not allowed")
  else Ok (replicate (Z.to_nat n) v).

(** [np.arange(lo, hi)] on integers. *)
Definition arange (lo hi : Z) : list Z :=
  map (fun k => (lo + Z.of_nat k)%Z) (seq 0 (Z.to_nat (hi - lo))).

(** A binary operation on two one-dimensional arrays, with numpy's
    broadcasting: equal lengths, or one operand of length one. *)
Definition broadcast {A B D} (f : A -> B -> D) (a : list A) (b : list B)
  : res PyExn (list D) :=
  if decide (length a = length b) then Ok (zip_with f a b)
  else match a, b with
       | [x], _ => Ok (map (f x) b)
       | _, [y] => Ok (map (fun x => f x y) a)
       | _, _ => Raise (ValueError "operands could not be broadcast together")
       end.

(** [acc += x]: the result must have the shape of [acc]. *)
Definition iadd (acc x : list R) : res PyExn (list R) :=
  if decide (length x = length acc) then Ok (zip_with Rplus acc x)
  else match x with
       | [y] => Ok (map (fun a => a + y) acc)
       | _ => Raise (ValueError "non-broadcastable output operand")
       end.

(** [padded[:len(samples)] = samples] *)
Definition assign_prefix {A} (padded samples : list A) : res PyExn (list A) :=
  let k := Nat.min (length samples) (length padded) in
  if decide (length samples = k) then Ok (samples ++ drop k padded)
  else match samples with
       | [x] => Ok (replicate k x ++ drop k padded)
       | _ => Raise (ValueError "could not broadcast input array")
       end.

(** [l[start:stop]]: a negative index counts from the end, indices are
    clipped to the array. *)
Definition norm_index (len : nat) (i : Z) : nat :=
  if (i <? 0)%Z then Z.to_nat (Z.max 0 (i + Z.of_nat len))
  else Nat.min (Z.to_nat i) len.

Definition slice {A} (l : list A) (start stop : Z) : list A :=
  let s := norm_index (length l) start in
  let e := norm_index (length l) stop in
  take (e - s) (drop s l).

(** [np.mean] of a real array (of a non-empty one; numpy gives nan for the
    empty array, which the model does not have: here 0/0). *)
Definition Rsum (l : list R) : R := foldr Rplus 0 l.
Definition mean (l : list R) : R := Rsum l / INR (length l).
Definition Csum (l : list C) : C := foldr Cadd Czero l.
Definition Cmean (l : list C) : C := Cdiv_real (Csum l) (INR (length l)).

(** [np.fft.fft]: the discrete Fourier transform
    [X[k] = sum_n x[n] * exp(-2 pi i k n / N)]. *)
Definition cis (t : R) : C := (cos t, sin t).

Definition dft_bin (x : list C) (k : nat) : C :=
  Csum (imap (fun n xn =>
                Cmul xn (cis (- (2 * PI * INR k * INR n / INR (length x))))) x).

Definition fft (x : list C) : res PyExn (list C) :=
  match x with
  | [] => Raise (ValueError "Invalid number of FFT data points (0) specified.")
  | _ => Ok (map (dft_bin x) (seq 0 (length x)))
  end.

(** [np.fft.fftshift]: rotation to the right by [n // 2]. *)
Definition fftshift {A} (x : list A) : list A :=
  let n := length x in
  drop (n - n / 2) x ++ take (n - n / 2) x.

(** [np.fft.fftfreq(n, d)] *)
Definition fftfreq (n : Z) (d : R) : res PyExn (list R) :=
  if Req_dec_T (IZR n * d) 0 then Raise ZeroDivisionError
  else if (n <? 0)%Z then Raise (ValueError "negative dimensions are not allowed")
  else
    let val := 1 / (IZR n * d) in
    Ok (map (fun k => IZR k * val)
          (arange 0 ((n - 1) / 2 + 1) ++ arange (- (n / 2)) 0)).

(** The window functions.  [np.hanning(M)] and its siblings evaluate
    [n = arange(1 - M, M, 2)], that is [1 - M + 2 k] for [k < M]. *)
Definition window_grid (M : Z) : list Z :=
  map (fun k => (1 - M + 2 * Z.of_nat k)%Z) (seq 0 (Z.to_nat M)).

Definition hanning (M : Z) : list R :=
  if (M <? 1)%Z then [] else if (M =? 1)%Z then [1]
  else map (fun n => 0.5 + 0.5 * cos (PI * IZR n / IZR (M - 1))) (window_grid M).

Definition hamming (M : Z) : list R :=
  if (M <? 1)%Z then [] else if (M =? 1)%Z then [1]
  else map (fun n => 0.54 + 0.46 * cos (PI * IZR n / IZR (M - 1))) (window_grid M).

Definition blackman (M : Z) : list R :=
  if (M <? 1)%Z then [] else if (M =? 1)%Z then [1]
  else map (fun n => 0.42 + 0.5 * cos (PI * IZR n / IZR (M - 1))
                     + 0.08 * cos (2 * PI * IZR n / IZR (M - 1)))
           (window_grid M).

(** [np.kaiser(M, beta)]; [i0] is numpy's modified Bessel function of
    order zero, a parameter of the model. *)
Definition kaiser (i0 : R -> R) (M : Z) (beta : R) : list R :=
  if (M =? 1)%Z then [1]
  else
    let alpha := IZR (M - 1) / 2 in
    map (fun n => i0 (beta * sqrt (1 - ((IZR n - alpha) / alpha) ^ 2)) / i0 beta)
        (arange 0 M).

End Np.

(** ** dsp/spectrum_processor.py *)

Module Spectrum.
Import Np.
Local Open Scope R_scope.

Record SpectrumProcessor : Type := {
  fft_size : Z;
  sample_rate : R;
  overlap : R;
  window_type : string;
  center_frequency : R;
  window : list R;
  frequencies : list R;
  overlap_samples : Z;
  overlap_buffer : list C;
  use_fftw : bool;
  enable_smoothing : bool;
  smoothing_factor : R;
  previous_spectrum : option (list R)
}.

(** Attribute assignments. *)
Definition set_sample_rate (st : SpectrumProcessor) (v : R) : SpectrumProcessor :=
  {| fft_size := fft_size st; sample_rate := v; overlap := overlap st;
     window_type := window_type st; center_frequency := center_frequency st;
     window := window st; frequencies := frequencies st;
     overlap_samples := overlap_samples st; overlap_buffer := overlap_buffer st;
     use_fftw := use_fftw st; enable_smoothing := enable_smoothing st;
     smoothing_factor := smoothing_factor st;
     previous_spectrum := previous_spectrum st |}.

Definition set_center_frequency (st : SpectrumProcessor) (v : R) : SpectrumProcessor :=
  {| fft_size := fft_size st; sample_rate := sample_rate st; overlap := overlap st;
     window_type := window_type st; center_frequency := v;
     window := window st; frequencies := frequencies st;
     overlap_samples := overlap_samples st; overlap_buffer := overlap_buffer st;
     use_fftw := use_fftw st; enable_smoothing := enable_smoothing st;
     smoothing_factor := smoothing_factor st;
     previous_spectrum := previous_spectrum st |}.

Definition set_fft_size (st : SpectrumProcessor) (v : Z) : SpectrumProcessor :=
  {| fft_size := v; sample_rate := sample_rate st; overlap := overlap st;
     window_type := window_type st; center_frequency := center_frequency st;
     window := window st; frequencies := frequencies st;
     overlap_samples := overlap_samples st; overlap_buffer := overlap_buffer st;
     use_fftw := use_fftw st; enable_smoothing := enable_smoothing st;
     smoothing_factor := smoothing_factor st;
     previous_spectrum := previous_spectrum st |}.

Definition set_window (st : SpectrumProcessor) (v : list R) : SpectrumProcessor :=
  {| fft_size := fft_size st; sample_rate := sample_rate st; overlap := overlap st;
     window_type := window_type st; center_frequency := center_frequency st;
     window := v; frequencies := frequencies st;
     overlap_samples := overlap_samples st; overlap_buffer := overlap_buffer st;
     use_fftw := use_fftw st; enable_smoothing := enable_smoothing st;
     smoothing_factor := smoothing_factor st;
     previous_spectrum := previous_spectrum st |}.

Definition set_frequencies (st : SpectrumProcessor) (v : list R) : SpectrumProcessor :=
  {| fft_size := fft_size st; sample_rate := sample_rate st; overlap := overlap st;
     window_type := window_type st; center_frequency := center_frequency st;
     window := window st; frequencies := v;
     overlap_samples := overlap_samples st; overlap_buffer := overlap_buffer st;
     use_fftw := use_fftw st; enable_smoothing := enable_smoothing st;
     smoothing_factor := smoothing_factor st;
     previous_spectrum := previous_spectrum st |}.

Definition set_overlap_samples (st : SpectrumProcessor) (v : Z) : SpectrumProcessor :=
  {| fft_size := fft_size st; sample_rate := sample_rate st; overlap := overlap st;
     window_type := window_type st; center_frequency := center_frequency st;
     window := window st; frequencies := frequencies st;
     overlap_samples := v; overlap_buffer := overlap_buffer st;
     use_fftw := use_fftw st; enable_smoothing := enable_smoothing st;
     smoothing_factor := smoothing_factor st;
     previous_spectrum := previous_spectrum st |}.

Definition set_overlap_buffer (st : SpectrumProcessor) (v : list C) : SpectrumProcessor :=
  {| fft_size := fft_size st; sample_rate := sample_rate st; overlap := overlap st;
     window_type := window_type st; center_frequency := center_frequency st;
     window := window st; frequencies := frequencies st;
     overlap_samples := overlap_samples st; overlap_buffer := v;
     use_fftw := use_fftw st; enable_smoothing := enable_smoothing st;
     smoothing_factor := smoothing_factor st;
     previous_spectrum := previous_spectrum st |}.

Definition set_previous_spectrum (st : SpectrumProcessor) (v : option (list R))
  : SpectrumProcessor :=
  {| fft_size := fft_size st; sample_rate := sample_rate st; overlap := overlap st;
     window_type := window_type st; center_frequency := center_frequency st;
     window := window st; frequencies := frequencies st;
     overlap_samples := overlap_samples st; overlap_buffer := overlap_buffer st;
     use_fftw := use_fftw st; enable_smoothing := enable_smoothing st;
     smoothing_factor := smoothing_factor st;
     previous_spectrum := v |}.

Section WithBessel.

(** [np.i0], used by the Kaiser window only. *)
Variable i0 : R -> R.

Definition _create_window (window_type : string) (fft_size : Z)
  : res PyExn (list R) :=
  if String.eqb window_type "hann" then Ok (hanning fft_size)
  else if String.eqb window_type "hamming" then Ok (hamming fft_size)
  else if String.eqb window_type "blackman" then Ok (blackman fft_size)
  else if String.eqb window_type "kaiser" then Ok (kaiser i0 fft_size 8.6)
  else full 1 fft_size.

Definition _update_frequency_array (st : SpectrumProcessor)
  : res PyExn SpectrumProcessor :=
  (d <- py_div 1 (sample_rate st) ;;;
   freq_bins <- fftfreq (fft_size st) d ;;;
   Ok (set_frequencies st
         (map (fun f => f + center_frequency st) (fftshift freq_bins))))%res.

(** [SpectrumProcessor(fft_size, sample_rate, overlap, window_type)];
    [pyfftw_installed] tells whether [import pyfftw] succeeds.  The pyfftw
    calls themselves are modelled as succeeding.  An exception out of the
    constructor leaves no object. *)
Definition SpectrumProcessor_init (fft_size : Z) (sample_rate overlap : R)
    (window_type : string) (pyfftw_installed : bool)
  : res PyExn SpectrumProcessor :=
  (window <- _create_window window_type fft_size ;;;
   let st0 :=
     {| fft_size := fft_size; sample_rate := sample_rate; overlap := overlap;
        window_type := window_type; center_frequency := 100e6;
        window := window; frequencies := [];
        overlap_samples := 0; overlap_buffer := [];
        use_fftw := false; enable_smoothing := true;
        smoothing_factor := 0.3; previous_spectrum := None |} in
   st1 <- _update_frequency_array st0 ;;;
   let overlap_samples := py_int (IZR fft_size * overlap) in
   overlap_buffer <- full Czero overlap_samples ;;;
   Ok {| fft_size := fft_size; sample_rate := sample_rate; overlap := overlap;
         window_type := window_type; center_frequency := 100e6;
         window := window; frequencies := frequencies st1;
         overlap_samples := overlap_samples; overlap_buffer := overlap_buffer;
         use_fftw := pyfftw_installed; enable_smoothing := true;
         smoothing_factor := 0.3; previous_spectrum := None |})%res.

(** The block of [update_config] under
    [if fft_size is not None and fft_size != self.fft_size]; the state that
    comes with [Raise] is the one the exception leaves behind. *)
Definition update_fft_size (st : SpectrumProcessor) (n : Z)
  : res PyExn unit * SpectrumProcessor :=
  let st1 := set_fft_size st n in
  match _create_window (window_type st1) n with
  | Raise e => (Raise e, st1)
  | Ok w =>
      let st2 := set_window st1 w in
      let st3 := set_overlap_samples st2 (py_int (IZR n * overlap st2)) in
      match full Czero (overlap_samples st3) with
      | Raise e => (Raise e, st3)
      | Ok buf => (Ok tt, set_overlap_buffer st3 buf)
      end
  end.

Definition update_config (st : SpectrumProcessor)
    (new_sample_rate new_center_frequency : option R) (new_fft_size : option Z)
  : res PyExn unit * SpectrumProcessor :=
  let '(st1, updated1) :=
    match new_sample_rate with
    | Some sr => if Req_dec_T sr (sample_rate st) then (st, false)
                 else (set_sample_rate st sr, true)
    | None => (st, false)
    end in
  let '(st2, updated2) :=
    match new_center_frequency with
    | Some cf => if Req_dec_T cf (center_frequency st1) then (st1, updated1)
                 else (set_center_frequency st1 cf, true)
    | None => (st1, updated1)
    end in
  let '(r3, st3, updated3) :=
    match new_fft_size with
    | Some n => if (n =? fft_size st2)%Z then (Ok tt, st2, updated2)
                else let '(r, st') := update_fft_size st2 n in (r, st', true)
    | None => (Ok tt, st2, updated2)
    end in
  match r3 with
  | Raise e => (Raise e, st3)
  | Ok _ =>
      if updated3 then
        match _update_frequency_array st3 with
        | Raise e => (Raise e, st3)
        | Ok st4 => (Ok tt, st4)
        end
      else (Ok tt, st3)
  end.

End WithBessel.

(** [10 * np.log10(np.maximum(power, 1e-10))] *)
Definition to_db (power : list R) : list R :=
  map (fun p => 10 * log10 (Rmax p 1e-10)) power.

(** [np.abs(x) ** 2] *)
Definition power_of (x : list C) : list R := map (fun z => Cabs z ^ 2) x.

(** The transform: [np.fft.fft(windowed)], or with pyfftw the plan of size
    [fft_size] executed on its input buffer after
    [self.fftw_input[:] = windowed]; the plan computes the same transform. *)
Definition run_fft (st : SpectrumProcessor) (windowed : list C)
  : res PyExn (list C) :=
  if use_fftw st then
    (buffer0 <- full Czero (fft_size st) ;;;
     buffer <- (if decide (length windowed = length buffer0) then Ok windowed
                else match windowed with
                     | [x] => Ok (replicate (length buffer0) x)
                     | _ => Raise (ValueError "could not broadcast input array")
                     end) ;;;
     fft buffer)%res
  else fft windowed.

(** The smoothing step:
    [if self.enable_smoothing and self.previous_spectrum is not None:
       spectrum_db = self.smoothing_factor * spectrum_db
                     + (1 - self.smoothing_factor) * self.previous_spectrum] *)
Definition smooth (st : SpectrumProcessor) (spectrum_db : list R)
  : res PyExn (list R) :=
  match enable_smoothing st, previous_spectrum st with
  | true, Some previous =>
      broadcast Rplus
        (map (fun x => smoothing_factor st * x) spectrum_db)
        (map (fun x => (1 - smoothing_factor st) * x) previous)
  | _, _ => Ok spectrum_db
  end.

(** Lines 138-165 of [process_samples]: one frame of [fft_size] samples. *)
Definition process_frame (st : SpectrumProcessor) (samples : list C)
  : res PyExn ((list R * list R) * SpectrumProcessor) :=
  (windowed <- broadcast Cscale samples (window st) ;;;
   fft_result <- run_fft st windowed ;;;
   let fft_shifted := fftshift fft_result in
   let power_spectrum := power_of fft_shifted in
   let spectrum_db := to_db power_spectrum in
   spectrum_db <- smooth st spectrum_db ;;;
   Ok ((frequencies st, spectrum_db),
       set_previous_spectrum st (Some spectrum_db)))%res.

(** The loop [for i in range(num_frames)] of [_process_long_sequence],
    over the remaining values of [i]. *)
Fixpoint frame_loop (st : SpectrumProcessor) (samples : list C)
    (hop_size total_length : Z) (indices : list Z)
    (power_accumulator : list R) (frame_count : Z)
  : res PyExn (list R * Z) :=
  match indices with
  | [] => Ok (power_accumulator, frame_count)
  | i :: rest =>
      let start_idx := (i * hop_size)%Z in
      let end_idx := (start_idx + fft_size st)%Z in
      if (total_length <? end_idx)%Z then Ok (power_accumulator, frame_count)
      else
        let frame := slice samples start_idx end_idx in
        (windowed <- broadcast Cscale frame (window st) ;;;
         fft_result <- run_fft st windowed ;;;
         power_accumulator <- iadd power_accumulator (power_of fft_result) ;;;
         frame_loop st samples hop_size total_length rest
           power_accumulator (frame_count + 1))%res
  end.

(** [_process_long_sequence]; [self_process_samples] stands for the call
    [self.process_samples(padded)] of its fallback branch. *)
Definition _process_long_sequence
    (self_process_samples :
       SpectrumProcessor -> list C -> (list R * list R) * SpectrumProcessor)
    (st : SpectrumProcessor) (samples : list C)
  : res PyExn ((list R * list R) * SpectrumProcessor) :=
  let hop_size := (fft_size st - overlap_samples st)%Z in
  let total_length := Z.of_nat (length samples) in
  (num_frames <- py_floordiv (total_length - overlap_samples st) hop_size ;;;
   if (num_frames <=? 0)%Z then
     padded <- full Czero (fft_size st) ;;;
     padded <- assign_prefix padded samples ;;;
     Ok (self_process_samples st padded)
   else
     power_accumulator <- full 0 (fft_size st) ;;;
     loop <- frame_loop st samples hop_size total_length (arange 0 num_frames)
               power_accumulator 0 ;;;
     let '(power_accumulator, frame_count) := loop in
     if (0 <? frame_count)%Z then
       let power_spectrum := map (fun p => p / IZR frame_count) power_accumulator in
       let power_shifted := fftshift power_spectrum in
       let spectrum_db := to_db power_shifted in
       spectrum_db <- smooth st spectrum_db ;;;
       Ok ((frequencies st, spectrum_db),
           set_previous_spectrum st (Some spectrum_db))
     else Ok (([], []), st))%res.

(** The body of [process_samples], with the method's recursive occurrence
    (reached through [_process_long_sequence] only) as a parameter.  Any
    exception in the [try] block gives two empty arrays; no attribute has
    been assigned when one is raised. *)
Definition process_samples_body
    (self_process_samples :
       SpectrumProcessor -> list C -> (list R * list R) * SpectrumProcessor)
    (st : SpectrumProcessor) (samples : list C)
  : (list R * list R) * SpectrumProcessor :=
  let attempt :=
    if (Z.of_nat (length samples) <? fft_size st)%Z then
      (padded <- full Czero (fft_size st) ;;;
       padded <- assign_prefix padded samples ;;;
       process_frame st padded)%res
    else if (fft_size st <? Z.of_nat (length samples))%Z then
      _process_long_sequence self_process_samples st samples
    else process_frame st samples in
  match attempt with
  | Ok r => r
  | Raise _ => (([], []), st)
  end.

(** [process_samples].  The recursion is at most two calls deep: the
    fallback of [_process_long_sequence] passes an array of [fft_size]
    samples, which takes the last branch ([process_samples_fix] below shows
    that this definition satisfies the method's recursive equation). *)
Definition process_samples (st : SpectrumProcessor) (samples : list C)
  : (list R * list R) * SpectrumProcessor :=
  process_samples_body
    (process_samples_body (fun st' _ => (([], []), st'))) st samples.

(** *** The specification of the long-chunk path, in the spec's words:
    frames of [fft_size] samples every [hop] samples, one periodogram per
    windowed frame, the mean of the periodograms in linear power, then one
    conversion to dB. *)
Definition welch_frames (N hop : nat) (samples : list C) : list (list C) :=
  map (fun k => take N (drop (k * hop) samples))
      (seq 0 ((length samples - (N - hop)) / hop)).

Definition periodogram (w : list R) (frame : list C) : list R :=
  match fft (zip_with Cscale frame w) with
  | Ok X => power_of X
  | Raise _ => []
  end.

(** The mean of [N]-bin power spectra: their sum, bin by bin, over their
    number. *)
Definition vadd (a b : list R) : list R := zip_with Rplus a b.

Definition mean_power (N : nat) (ps : list (list R)) : list R :=
  map (fun s => s / INR (length ps)) (foldr vadd (replicate N 0) ps).

Definition welch_db (N hop : nat) (w : list R) (samples : list C) : list R :=
  to_db (fftshift (mean_power N (map (periodogram w) (welch_frames N hop samples)))).

(** A chunk of at most [N] samples: zero-padded on the right to [N]
    samples, one windowed transform, shifted, in dB. *)
Definition pad (N : nat) (samples : list C) : list C :=
  samples ++ replicate (N - length samples) Czero.

Definition frame_db (w : list R) (frame : list C) : list R :=
  to_db (fftshift (periodogram w frame)).

(** The raw (unsmoothed) spectrum of a chunk. *)
Definition raw_spectrum (N hop : nat) (w : list R) (samples : list C) : list R :=
  if decide (length samples <= N)%nat then frame_db w (pad N samples)
  else welch_db N hop w samples.

(** The raw spectrum for the configuration held in [st]. *)
Definition raw_of (st : SpectrumProcessor) (samples : list C) : list R :=
  raw_spectrum (Z.to_nat (fft_size st))
    (Z.to_nat (fft_size st - overlap_samples st)) (window st) samples.

(** Exponential smoothing of equal-length spectra, in the spec's words:
    [alpha * new + (1 - alpha) * previous]. *)
Definition exp_smooth (alpha : R) (new previous : list R) : list R :=
  zip_with (fun n p => alpha * n + (1 - alpha) * p) new previous.

(** The spectrum that a cycle reports for the raw spectrum [raw]:
    smoothed against the previous cycle's output when there is one (and
    smoothing is enabled), [raw] itself otherwise. *)
Definition smoothed_of (st : SpectrumProcessor) (raw : list R) : list R :=
  match enable_smoothing st, previous_spectrum st with
  | true, Some previous => exp_smooth (smoothing_factor st) raw previous
  | _, _ => raw
  end.

(** What the constructor and the methods maintain between calls. *)
Record consistent (st : SpectrumProcessor) : Prop := {
  cons_size : (0 < fft_size st)%Z;
  cons_rate : sample_rate st <> 0;
  cons_window : length (window st) = Z.to_nat (fft_size st);
  cons_freqs : _update_frequency_array st = Ok st;
  cons_overlap : (0 <= overlap_samples st < fft_size st)%Z;
  cons_overlap_factor : 0 <= overlap st < 1;
  cons_overlap_samples : overlap_samples st = py_int (IZR (fft_size st) * overlap st)
}.

(** The frequency axis for the configuration held in [st]: bins
    [-(N // 2) .. N - N // 2 - 1] times the bin width, around the centre. *)
Definition frequency_axis (st : SpectrumProcessor) : list R :=
  map (fun k => IZR k * (sample_rate st / IZR (fft_size st)) + center_frequency st)
      (arange (- (fft_size st / 2)) (fft_size st - fft_size st / 2)).

(** The frequency of output bin [i], in the spec's words. *)
Definition bin_frequency (st : SpectrumProcessor) (i : nat) : R :=
  center_frequency st
  + (INR i - IZR (fft_size st) / 2) * (sample_rate st / IZR (fft_size st)).

(** The smoothing state fits the current FFT size. *)
Definition previous_fits (st : SpectrumProcessor) : Prop :=
  match previous_spectrum st with
  | None => True
  | Some previous => length previous = Z.to_nat (fft_size st)
  end.

(** Inputs for the examples: a stand-in for [np.i0] (the examples use the
    Hann window, which does not call it), a chunk of silence, and a chunk of
    four samples with one unit sample. *)
Definition i0_unused (x : R) : R := 1.
Definition silence (n : nat) : list C := replicate n Czero.
Definition impulse4 : list C := [Czero; (1, 0); Czero; Czero].

(** *** The raw spectrum once more, in the spec's terms and without the
    helpers of the code: the power of a bin is [|X|^2], written out as
    [re^2 + im^2]; a periodogram is the power of every bin of the transform
    of the windowed frame; decibels are [10 * log10 (max (power, 1e-10))]. *)
Definition spec_power (X : C) : R := fst X * fst X + snd X * snd X.

Definition spec_db (power : R) : R := 10 * (ln (Rmax power 1e-10) / ln 10).

Definition spec_periodogram (w : list R) (frame : list C) : list R :=
  let x := zip_with Cscale frame w in
  map (fun k => spec_power (dft_bin x k)) (seq 0 (length x)).

(** A long chunk: the mean of the periodograms of its frames, bin by bin,
    shifted, then converted to decibels. *)
Definition spec_welch_db (N hop : nat) (w : list R) (samples : list C) : list R :=
  map spec_db
    (fftshift (mean_power N (map (spec_periodogram w) (welch_frames N hop samples)))).

(** One frame: its periodogram, shifted, in decibels. *)
Definition spec_frame_db (w : list R) (frame : list C) : list R :=
  map spec_db (fftshift (spec_periodogram w frame)).

(** A chunk of eight samples with one unit sample: with frames of four
    samples every two samples, the unit sample lies in the first frame
    only. *)
Definition impulse8 : list C :=
  [Czero; (1, 0); Czero; Czero; Czero; Czero; Czero; Czero].

End Spectrum.

(** ** dsp/demodulators.py *)

Module Demod.
Import Np.
Local Open Scope R_scope.

(** Real numbers have a (classical) decidable equality; it decides the
    equality of filter-cache keys. *)
#[local] Instance R_eq_dec : EqDecision R := Req_dec_T.

(** *** The scipy.signal interface *)

(** [Wn] and [btype] of [scipy.signal.butter]. *)
Inductive band : Type :=
| lowpass (wn : R)
| bandpass (low high : R).

(** Second-order sections: an array of rows of six coefficients. *)
Definition SOS : Type := list (list R).

Record Scipy : Type := {
  (** [butter(order, Wn, btype=..., output='sos')] *)
  butter_sos : nat -> band -> res PyExn SOS;
  (** [butter(order, Wn, btype=...)], returning [(b, a)] *)
  butter_ba : nat -> band -> res PyExn (list R * list R);
  (** [sosfilt(sos, x)] *)
  sosfilt : SOS -> list R -> res PyExn (list R);
  (** [filtfilt(b, a, x)] *)
  filtfilt : list R -> list R -> list R -> res PyExn (list R);
  (** [resample(x, num)] *)
  resample : list R -> Z -> res PyExn (list R)
}.

(** *** The demodulator object *)

(** The cache key [f"{filter_type}_{sample_rate}_{bandwidth}_{low_cutoff}_{high_cutoff}"]:
    the formatted string determines the five values, which stand for it. *)
Definition FilterKey : Type := string * R * R * option R * option R.

Record AudioDemodulators : Type := {
  audio_sample_rate : R;
  _audio_filter_cache : FilterKey -> option SOS
}.

Definition AudioDemodulators_init (audio_sample_rate : R) : AudioDemodulators :=
  {| audio_sample_rate := audio_sample_rate;
     _audio_filter_cache := fun _ => None |}.

Definition cache_insert (st : AudioDemodulators) (key : FilterKey) (sos : SOS)
  : AudioDemodulators :=
  {| audio_sample_rate := audio_sample_rate st;
     _audio_filter_cache :=
       fun k => if decide (k = key) then Some sos else _audio_filter_cache st k |}.

(** [x or d] on an optional number: [d] when [x] is [None] or zero. *)
Definition or_default (x : option R) (d : R) : R :=
  match x with
  | Some v => if Req_dec_T v 0 then d else v
  | None => d
  end.

(** [np.clip(x, lo, hi)] on one element. *)
Definition clip (lo hi x : R) : R := Rmin (Rmax x lo) hi.

(** [np.max] of a real array. *)
Definition np_max (l : list R) : res PyExn R :=
  match l with
  | [] => Raise (ValueError "zero-size array to reduction operation maximum")
  | x :: rest => Ok (foldr Rmax x rest)
  end.

(** [np.diff(x, prepend=x0)] *)
Definition diff_prepend (x0 : R) (x : list R) : list R :=
  zip_with (fun previous current => current - previous) (x0 :: x) x.

(** [str.lower] on ASCII strings. *)
Definition ascii_lower (c : Ascii.ascii) : Ascii.ascii :=
  let n := Ascii.nat_of_ascii c in
  if (65 <=? n)%nat && (n <=? 90)%nat then Ascii.ascii_of_nat (n + 32) else c.

Fixpoint lower (s : string) : string :=
  match s with
  | EmptyString => EmptyString
  | String c rest => String (ascii_lower c) (lower rest)
  end.

Section WithScipy.
Variable sp : Scipy.

(** The filter design of [_apply_audio_filter] on a cache miss; [None]
    stands for the branch [return audio  # Unknown filter type]. *)
Definition design_filter (sample_rate bandwidth : R) (filter_type : string)
    (low_cutoff high_cutoff : option R) : res PyExn (option SOS) :=
  let nyquist := sample_rate / 2 in
  if String.eqb filter_type "lowpass" then
    (let cutoff := Rmin bandwidth (nyquist * 0.95) in
     wn <- py_div cutoff nyquist ;;;
     sos <- butter_sos sp 6 (lowpass wn) ;;;
     Ok (Some sos))%res
  else if String.eqb filter_type "bandpass" then
    (low <- py_div (Rmax (or_default low_cutoff 300) 1) nyquist ;;;
     high <- py_div (Rmin (or_default high_cutoff bandwidth) (nyquist * 0.95)) nyquist ;;;
     sos <- (if Rlt_dec low high then butter_sos sp 4 (bandpass low high)
             else butter_sos sp 6 (lowpass high)) ;;;
     Ok (Some sos))%res
  else Ok None.

(** [_apply_audio_filter]: on any exception the unfiltered audio is
    returned; a filter designed before the exception stays in the cache. *)
Definition _apply_audio_filter (st : AudioDemodulators) (audio : list R)
    (sample_rate bandwidth : R) (filter_type : string)
    (low_cutoff high_cutoff : option R) : list R * AudioDemodulators :=
  let filter_key := (filter_type, sample_rate, bandwidth, low_cutoff, high_cutoff) in
  match _audio_filter_cache st filter_key with
  | Some sos =>
      match sosfilt sp sos audio with
      | Ok filtered => (filtered, st)
      | Raise _ => (audio, st)
      end
  | None =>
      match design_filter sample_rate bandwidth filter_type low_cutoff high_cutoff with
      | Raise _ => (audio, st)
      | Ok None => (audio, st)
      | Ok (Some sos) =>
          let st' := cache_insert st filter_key sos in
          match sosfilt sp sos audio with
          | Ok filtered => (filtered, st')
          | Raise _ => (audio, st')
          end
      end
  end.

Definition _apply_deemphasis (audio : list R) (sample_rate time_constant : R)
  : list R :=
  let attempt :=
    (cutoff_freq <- py_div 1 (2 * PI * time_constant) ;;;
     let nyquist := sample_rate / 2 in
     cutoff_norm <- py_div cutoff_freq nyquist ;;;
     if Rle_dec 1 cutoff_norm then Ok audio
     else
       ba <- butter_ba sp 1 (lowpass cutoff_norm) ;;;
       filtfilt sp ba.1 ba.2 audio)%res in
  match attempt with
  | Ok deemphasized => deemphasized
  | Raise _ => audio
  end.

Definition _resample_audio (audio : list R) (input_rate output_rate : R)
  : list R :=
  let attempt :=
    if Req_dec_T input_rate output_rate then Ok audio
    else
      (resample_ratio <- py_div output_rate input_rate ;;;
       let output_length := py_int (INR (length audio) * resample_ratio) in
       resample sp audio output_length)%res in
  match attempt with
  | Ok resampled => resampled
  | Raise _ => audio
  end.

(** The [try] block of [_apply_agc]. *)
Definition agc_main (audio : list R) (target_level : R) : res PyExn (list R) :=
  match audio with
  | [] => Ok audio
  | _ =>
      let window_size := Z.max 1 (py_int (INR (length audio) * 0.01)) in
      let abs_audio := map Rabs audio in
      (envelope <-
         (if (window_size <? Z.of_nat (length abs_audio))%Z then
            (ones <- full 1 window_size ;;;
             filtfilt sp (map (fun o => o / IZR window_size) ones) [1] abs_audio)
          else Ok (map (fun o => mean abs_audio * o) (map (fun _ => 1) abs_audio))) ;;;
       let gain := map (fun _ => 1) audio in
       let nonzero_mask := map (fun e => Rltb 1e-10 e) envelope in
       audio <-
         (if existsb (fun b : bool => b) nonzero_mask then
            (_ <- (if decide (length nonzero_mask = length gain) then Ok tt
                   else Raise IndexError) ;;;
             let gain :=
               zip_with (fun g e => if Rltb 1e-10 e then target_level / e else g)
                        gain envelope in
             let gain := map (clip 0.1 10) gain in
             broadcast Rmult audio gain)
          else Ok audio) ;;;
       Ok (map (clip (-1) 1) audio))%res
  end.

(** [_apply_agc], with the fallback of its [except] branch.  The method
    does not use its [attack_time] and [release_time] arguments. *)
Definition _apply_agc (audio : list R) (target_level attack_time release_time : R)
  : res PyExn (list R) :=
  match agc_main audio target_level with
  | Ok out => Ok out
  | Raise _ =>
      (max_val <- np_max (map Rabs audio) ;;;
       if Rlt_dec 0 max_val
       then Ok (map (fun a => a / max_val * target_level) audio)
       else Ok audio)%res
  end.

(** The tail common to the demodulators: resample to the audio rate if
    the rates differ, then AGC. *)
Definition resample_and_agc (st : AudioDemodulators) (audio : list R)
    (sample_rate target_level attack_time release_time : R) : res PyExn (list R) :=
  let audio :=
    if Req_dec_T sample_rate (audio_sample_rate st) then audio
    else _resample_audio audio sample_rate (audio_sample_rate st) in
  _apply_agc audio target_level attack_time release_time.

(** The end of every demodulator: [return audio.astype(np.float32)], or in
    the [except] branch [np.zeros(len(iq_samples))]. *)
Definition finish (n : nat) (body : res PyExn (list R)) : res PyExn (list R) :=
  try_except body (fun _ => Ok (replicate n 0)).

Definition am_demodulate (st : AudioDemodulators) (iq_samples : list C)
    (sample_rate : R) (bandwidth : option R)
  : res PyExn (list R) * AudioDemodulators :=
  let amplitude := map Cabs iq_samples in
  let audio := map (fun a => a - mean amplitude) amplitude in
  let '(audio, st1) :=
    match bandwidth with
    | Some bw =>
        if Rlt_dec bw (sample_rate / 2)
        then _apply_audio_filter st audio sample_rate bw "lowpass" None None
        else (audio, st)
    | None => (audio, st)
    end in
  (finish (length iq_samples)
     (resample_and_agc st1 audio sample_rate 0.3 0.01 0.1), st1).

Definition fm_demodulate (st : AudioDemodulators) (iq_samples : list C)
    (sample_rate : R) (bandwidth : option R) (deviation : R)
  : res PyExn (list R) * AudioDemodulators :=
  let iq_samples := map (fun z => Csub z (Cmean iq_samples)) iq_samples in
  let magnitude := map Cabs iq_samples in
  let magnitude := map (fun m => if Rlt_dec m 1e-10 then 1e-10 else m) magnitude in
  let limited_samples := zip_with Cdiv_real iq_samples magnitude in
  let I := map real limited_samples in
  let Q := map imag limited_samples in
  match I, Q with
  | I0 :: _, Q0 :: _ =>
      let dI := diff_prepend I0 I in
      let dQ := diff_prepend Q0 Q in
      let discriminator_out :=
        zip_with Rminus (zip_with Rmult I dQ) (zip_with Rmult Q dI) in
      let audio := map (fun x => x * sample_rate / (2 * PI)) discriminator_out in
      let audio := map (fun x => x / deviation) audio in
      let '(audio, st1) :=
        match bandwidth with
        | Some bw =>
            let pre_filter_bw := Rmin (bw * 2) (sample_rate * 0.4) in
            _apply_audio_filter st audio sample_rate pre_filter_bw "lowpass" None None
        | None => (audio, st)
        end in
      let audio :=
        if Rle_dec 50000 deviation then _apply_deemphasis audio sample_rate 75e-6
        else audio in
      let '(audio, st2) :=
        match bandwidth with
        | Some bw => _apply_audio_filter st1 audio sample_rate bw "lowpass" None None
        | None => (audio, st1)
        end in
      (finish (length iq_samples)
         (resample_and_agc st2 audio sample_rate 0.4 0.001 0.1), st2)
  | _, _ =>
      (** [I[0]] on an empty array *)
      (finish (length iq_samples) (Raise IndexError), st)
  end.

Definition ssb_demodulate (st : AudioDemodulators) (iq_samples : list C)
    (mode : string) (sample_rate : R) (bandwidth : option R)
  : res PyExn (list R) * AudioDemodulators :=
  let mode := lower mode in
  if negb (String.eqb mode "usb" || String.eqb mode "lsb") then
    (finish (length iq_samples)
       (Raise (ValueError "SSB mode must be 'usb' or 'lsb'")), st)
  else
    let audio :=
      if String.eqb mode "usb" then map real iq_samples
      else map (fun z => real (conj z)) iq_samples in
    let bandwidth := match bandwidth with Some bw => bw | None => 2700 end in
    let '(audio, st1) :=
      _apply_audio_filter st audio sample_rate bandwidth "bandpass"
        (Some 300) (Some bandwidth) in
    (finish (length iq_samples)
       (resample_and_agc st1 audio sample_rate 0.4 0.001 0.1), st1).

Definition cw_demodulate (st : AudioDemodulators) (iq_samples : list C)
    (sample_rate tone_frequency bandwidth : R)
  : res PyExn (list R) * AudioDemodulators :=
  let t := map (fun n => INR n / sample_rate) (seq 0 (length iq_samples)) in
  let bfo := map (fun tn => (cos (2 * PI * tone_frequency * tn),
                             sin (2 * PI * tone_frequency * tn))) t in
  let mixed := zip_with (fun z b => Cmul z (conj b)) iq_samples bfo in
  let audio := map real mixed in
  let '(audio, st1) :=
    _apply_audio_filter st audio sample_rate bandwidth "bandpass"
      (Some (tone_frequency - bandwidth / 2))
      (Some (tone_frequency + bandwidth / 2)) in
  (finish (length iq_samples)
     (resample_and_agc st1 audio sample_rate 0.5 0.0001 0.1), st1).

End WithScipy.

(** The four demodulators under one signature, for statements about all of
    them.  [bandwidth = None] selects each method's default. *)
Inductive demodulator : Type :=
| AM
| FM (deviation : R)
| SSB (mode : string)
| CW (tone_frequency : R).

Definition demodulate (sp : Scipy) (d : demodulator) (st : AudioDemodulators)
    (iq_samples : list C) (sample_rate : R) (bandwidth : option R)
  : res PyExn (list R) * AudioDemodulators :=
  match d with
  | AM => am_demodulate sp st iq_samples sample_rate bandwidth
  | FM deviation => fm_demodulate sp st iq_samples sample_rate bandwidth deviation
  | SSB mode => ssb_demodulate sp st iq_samples mode sample_rate bandwidth
  | CW tone_frequency =>
      cw_demodulate sp st iq_samples sample_rate tone_frequency
        (match bandwidth with Some bw => bw | None => 500 end)
  end.



(** The resampled length that a chunk of [n] samples is expected to have. *)
Definition expected_length (n : nat) (sample_rate audio_rate : R) : nat :=
  if Req_dec_T sample_rate audio_rate then n
  else Z.to_nat (py_int (INR n * (audio_rate / sample_rate))).

(** The assumptions on scipy for silent input: a filter that returns maps
    silence to silence of the same length; the resampler, when it returns,
    maps silence to silence of the requested length, and it returns when the
    input is not empty and at least one output sample is requested.  Nothing
    is assumed of [resample(x, 0)]. *)
Record silence_preserving (sp : Scipy) : Prop := {
  sosfilt_silence : forall sos n y,
    sosfilt sp sos (replicate n 0) = Ok y -> y = replicate n 0;
  filtfilt_silence : forall b a n y,
    filtfilt sp b a (replicate n 0) = Ok y -> y = replicate n 0;
  resample_silence : forall n m y,
    resample sp (replicate n 0) m = Ok y -> y = replicate (Z.to_nat m) 0;
  resample_returns : forall n m,
    n <> 0%nat -> (0 < m)%Z -> exists y, resample sp (replicate n 0) m = Ok y
}.

(** A stand-in for scipy in the examples: filters that pass their input
    through, a resampler that truncates or pads with zeros. *)
Definition scipy_stub : Scipy :=
  {| butter_sos := fun _ _ => Ok [];
     butter_ba := fun _ _ => Ok ([1], [1]);
     sosfilt := fun _ x => Ok x;
     filtfilt := fun _ _ x => Ok x;
     resample := fun x num =>
       if (num <? 0)%Z then Raise (ValueError "num must be non-negative")
       else Ok (take (Z.to_nat num) x
                ++ replicate (Z.to_nat num - length x) 0) |}.



End Demod.

(** ** controllers/sdr_controller_v2.py *)

Module Controller.

(** [queue.Queue]: [maxsize <= 0] means unbounded. *)
Record Queue (A : Type) : Type := { maxsize : Z; items : list A }.
Arguments maxsize {A} _.
Arguments items {A} _.

Definition Queue_new {A} (maxsize : Z) : Queue A :=
  {| maxsize := maxsize; items := [] |}.

Definition qsize {A} (q : Queue A) : nat := length (items q).

(** [put_nowait]: raises [Full] when the queue is bounded and holds
    [maxsize] items, appends on the right otherwise. *)
Definition put_nowait {A} (q : Queue A) (x : A) : res PyExn unit * Queue A :=
  if (0 <? maxsize q)%Z && (maxsize q <=? Z.of_nat (qsize q))%Z
  then (Raise Full, q)
  else (Ok tt, {| maxsize := maxsize q; items := items q ++ [x] |}).

(** [get_nowait]: raises [Empty] on an empty queue, pops on the left
    otherwise. *)
Definition get_nowait {A} (q : Queue A) : res PyExn A * Queue A :=
  match items q with
  | [] => (Raise Empty, q)
  | x :: rest => (Ok x, {| maxsize := maxsize q; items := rest |})
  end.

(** One entry of [DEMOD_MODES] (config.py). *)
Record ModeConfig : Type := {
  bandwidth_default : Z;
  bandwidth_min : Z;
  bandwidth_max : Z
}.

Definition DEMOD_MODES : gmap string ModeConfig :=
  <["AM" := {| bandwidth_default := 6000; bandwidth_min := 2000; bandwidth_max := 15000 |}]>
  (<["FM" := {| bandwidth_default := 15000; bandwidth_min := 8000; bandwidth_max := 200000 |}]>
  (<["USB" := {| bandwidth_default := 2700; bandwidth_min := 1500; bandwidth_max := 4000 |}]>
  (<["LSB" := {| bandwidth_default := 2700; bandwidth_min := 1500; bandwidth_max := 4000 |}]>
  (<["CW" := {| bandwidth_default := 500; bandwidth_min := 100; bandwidth_max := 1000 |}]>
  (<["SPECTRUM" := {| bandwidth_default := 2400000; bandwidth_min := 10000;
                      bandwidth_max := 2400000 |}]> ∅))))).

(** The fields of [DemodulatorPlugin] that [set_demodulation] touches. *)
Record DemodulatorPlugin : Type := {
  enabled : bool;
  mode : string;
  bandwidth : Z
}.

(** [DemodulatorPlugin.set_mode(mode, bandwidth)] *)
Definition set_mode (p : DemodulatorPlugin) (m : string) (bw : option Z)
  : DemodulatorPlugin :=
  {| enabled := enabled p; mode := m;
     bandwidth := match bw with Some b => b | None => bandwidth p end |}.

(** The part of [WebSDRControllerV2] that the modelled methods use. *)
Record WebSDRControllerV2 (Chunk : Type) : Type := {
  demod_config_mode : string;
  demod_config_bandwidth : Z;
  demod_plugin : DemodulatorPlugin;
  data_queue : Queue Chunk;
  samples_processed : nat
}.
Arguments demod_config_mode {Chunk} _.
Arguments demod_config_bandwidth {Chunk} _.
Arguments demod_plugin {Chunk} _.
Arguments data_queue {Chunk} _.
Arguments samples_processed {Chunk} _.

(** The fields as [__init__] sets them. *)
Definition WebSDRControllerV2_init (Chunk : Type) : WebSDRControllerV2 Chunk :=
  {| demod_config_mode := "SPECTRUM";
     demod_config_bandwidth := 2400000;
     demod_plugin := {| enabled := false; mode := "FM"; bandwidth := 15000 |};
     data_queue := Queue_new 10;
     samples_processed := 0 |}.

(** What [set_demodulation] returns: mode, bandwidth, audio_enabled. *)
Record DemodReply : Type := {
  reply_mode : string;
  reply_bandwidth : Z;
  reply_audio_enabled : bool
}.

Definition set_demodulation {Chunk} (c : WebSDRControllerV2 Chunk)
    (m : string) (bw : option Z)
  : res PyExn DemodReply * WebSDRControllerV2 Chunk :=
  match DEMOD_MODES !! m with
  | None => (Raise (ValueError "Invalid demodulation mode"), c)
  | Some mode_config =>
      let checked :=
        match bw with
        | None => Ok (bandwidth_default mode_config)
        | Some b =>
            if negb ((bandwidth_min mode_config <=? b)%Z
                     && (b <=? bandwidth_max mode_config)%Z)
            then Raise (ValueError "Bandwidth is outside range")
            else Ok b
        end in
      match checked with
      | Raise e => (Raise e, c)
      | Ok b =>
          let plugin :=
            if String.eqb m "SPECTRUM"
            then {| enabled := false; mode := mode (demod_plugin c);
                    bandwidth := bandwidth (demod_plugin c) |}
            else set_mode {| enabled := true; mode := mode (demod_plugin c);
                             bandwidth := bandwidth (demod_plugin c) |} m (Some b) in
          (Ok {| reply_mode := m; reply_bandwidth := b;
                 reply_audio_enabled := negb (String.eqb m "SPECTRUM") |},
           {| demod_config_mode := m;
              demod_config_bandwidth := b;
              demod_plugin := plugin;
              data_queue := data_queue c;
              samples_processed := samples_processed c |})
      end
  end.

(** The hand-over of one chunk in [_acquisition_worker]:
    [put_nowait]; if that raises, [get_nowait] then [put_nowait], where
    [Empty] is passed over and any other exception leaves the block. *)
Definition enqueue {A} (q : Queue A) (samples : A) : res PyExn unit * Queue A :=
  match put_nowait q samples with
  | (Ok _, q1) => (Ok tt, q1)
  | (Raise _, q1) =>
      match get_nowait q1 with
      | (Ok _, q2) =>
          match put_nowait q2 samples with
          | (Ok _, q3) => (Ok tt, q3)
          | (Raise Empty, q3) => (Ok tt, q3)
          | (Raise e, q3) => (Raise e, q3)
          end
      | (Raise Empty, q2) => (Ok tt, q2)
      | (Raise e, q2) => (Raise e, q2)
      end
  end.

(** The loop of [_acquisition_worker] over the chunks that
    [self.sdr.read_samples] delivers while [is_running] holds, with no
    consumer taking chunks in between.  An exception in the loop body is
    logged and ends the loop ([break]). *)
Fixpoint _acquisition_worker {Chunk} (len : Chunk -> nat) (reads : list Chunk)
    (c : WebSDRControllerV2 Chunk) : WebSDRControllerV2 Chunk :=
  match reads with
  | [] => c
  | samples :: rest =>
      match enqueue (data_queue c) samples with
      | (Ok _, q) =>
          _acquisition_worker len rest
            {| demod_config_mode := demod_config_mode c;
               demod_config_bandwidth := demod_config_bandwidth c;
               demod_plugin := demod_plugin c;
               data_queue := q;
               samples_processed := samples_processed c + len samples |}
      | (Raise _, q) =>
          {| demod_config_mode := demod_config_mode c;
             demod_config_bandwidth := demod_config_bandwidth c;
             demod_plugin := demod_plugin c;
             data_queue := q;
             samples_processed := samples_processed c |}
      end
  end.

End Controller.

(** ** pipeline/plugin_supervisor.py: statistics *)

Module SupervisorStats.
Import Supervisor.
Section SupervisorStats.
Context {Data Payload Exn World : Type}.

(** What [get_stats] returns. *)
Record StatsReport : Type := {
  report_total_executions : nat;
  report_total_failures : nat;
  report_failure_rate : R;
  report_plugin_stats : gmap string Stats
}.

(** [get_stats]: [failure_rate] is
    [self.total_failures / max(self.total_executions, 1)]. *)
Definition get_stats (sup : @PluginSupervisor Data Payload Exn World)
  : res PyExn StatsReport :=
  (failure_rate <- Np.py_div (INR (total_failures sup))
                     (INR (Nat.max (total_executions sup) 1)) ;;;
   Ok {| report_total_executions := total_executions sup;
         report_total_failures := total_failures sup;
         report_failure_rate := failure_rate;
         report_plugin_stats := plugin_stats sup |})%res.

Definition reset_stats (sup : @PluginSupervisor Data Payload Exn World)
  : @PluginSupervisor Data Payload Exn World :=
  {| plugins := plugins sup; total_executions := 0; total_failures := 0;
     plugin_stats := fresh_stats (plugins sup) |}.

(** The items of one cycle's result list that [run_with_supervision]
    counts in [total_failures]: the results with [success == False] and the
    exceptions. *)
Definition counts_as_failure (item : @PluginResult Payload Exn + Exn) : bool :=
  match item with
  | inl r => negb (success r)
  | inr _ => true
  end.

Definition failed_results (results : list (@PluginResult Payload Exn + Exn)) : nat :=
  length (List.filter counts_as_failure results).

End SupervisorStats.
End SupervisorStats.

(** ** dsp/spectrum_processor.py: the display and query methods *)

Module SpectrumViews.
Import Np Spectrum.
Local Open Scope R_scope.

(** [np.min] of a real array. *)
Definition np_min (l : list R) : res PyExn R :=
  match l with
  | [] => Raise (ValueError "zero-size array to reduction operation minimum")
  | x :: rest => Ok (foldr Rmin x rest)
  end.

(** [np.argmin]: the index of the first occurrence of the minimum.
    [argmin_from] scans the rest of the array, [i] being the index of its
    head and [best] the least value so far, found at [best_index]. *)
Fixpoint argmin_from (best_index : nat) (best : R) (i : nat) (l : list R) : nat :=
  match l with
  | [] => best_index
  | x :: rest =>
      if Rlt_dec x best then argmin_from i x (S i) rest
      else argmin_from best_index best (S i) rest
  end.

Definition argmin (l : list R) : res PyExn Z :=
  match l with
  | [] => Raise (ValueError "attempt to get argmin of an empty sequence")
  | x :: rest => Ok (Z.of_nat (argmin_from 0 x 1 rest))
  end.

(** [x.astype(np.uint8)] on one element: the fraction is dropped.  The
    cast is defined for values in [[0, 256)]. *)
Definition astype_uint8 (x : R) : Z := py_int x.

(** [10 ** x] *)
Definition pow10 (x : R) : R := Rpower 10 x.

(** [process_waterfall_data]; the method has no [try] of its own. *)
Definition process_waterfall_data (st : SpectrumProcessor) (samples : list C)
  : res PyExn (list Z) * SpectrumProcessor :=
  let '((_, spectrum_db), st') := process_samples st samples in
  match spectrum_db with
  | [] => (Ok [], st')
  | _ =>
      let spectrum_linear := map (fun x => pow10 (x / 10)) spectrum_db in
      ((hi <- Demod.np_max spectrum_linear ;;;
        lo <- np_min spectrum_linear ;;;
        normalized <-
          (if Rlt_dec lo hi then
             (lo <- np_min spectrum_linear ;;;
              let normalized := map (fun x => x - lo) spectrum_linear in
              peak <- Demod.np_max normalized ;;;
              Ok (map (fun x => x / peak * 255) normalized))
           else Ok (map (fun _ => 0) spectrum_linear)) ;;;
        Ok (map astype_uint8 normalized))%res, st')
  end.

(** [get_bin_frequency] *)
Definition get_bin_frequency (st : SpectrumProcessor) (bin_index : Z)
  : res PyExn R :=
  if (0 <=? bin_index)%Z && (bin_index <? Z.of_nat (length (frequencies st)))%Z
  then match frequencies st !! Z.to_nat bin_index with
       | Some f => Ok f
       | None => Raise IndexError
       end
  else Ok 0.

(** [get_frequency_bin] *)
Definition get_frequency_bin (st : SpectrumProcessor) (frequency : R)
  : res PyExn Z :=
  match frequencies st with
  | [] => Ok 0%Z
  | _ =>
      let freq_diff := map (fun f => Rabs (f - frequency)) (frequencies st) in
      argmin freq_diff
  end.

(** What [get_spectrum_info] returns. *)
Record SpectrumInfo : Type := {
  info_fft_size : Z;
  info_sample_rate : R;
  info_center_frequency : R;
  info_frequency_resolution : R;
  info_frequency_span : R;
  info_window_type : string;
  info_overlap : R;
  info_smoothing_enabled : bool;
  info_smoothing_factor : R;
  info_using_fftw : bool;
  info_frequency_min : R;
  info_frequency_max : R
}.

Definition get_spectrum_info (st : SpectrumProcessor) : res PyExn SpectrumInfo :=
  (frequency_resolution <- py_div (sample_rate st) (IZR (fft_size st)) ;;;
   lo <- np_min (frequencies st) ;;;
   hi <- Demod.np_max (frequencies st) ;;;
   Ok {| info_fft_size := fft_size st;
         info_sample_rate := sample_rate st;
         info_center_frequency := center_frequency st;
         info_frequency_resolution := frequency_resolution;
         info_frequency_span := sample_rate st;
         info_window_type := window_type st;
         info_overlap := overlap st;
         info_smoothing_enabled := enable_smoothing st;
         info_smoothing_factor := smoothing_factor st;
         info_using_fftw := use_fftw st;
         info_frequency_min := lo;
         info_frequency_max := hi |})%res.

(** The caller's loop over the chunks of a stream: one [process_samples]
    call per chunk, the outputs in order. *)
Fixpoint process_chunks (st : SpectrumProcessor) (chunks : list (list C))
  : list (list R * list R) * SpectrumProcessor :=
  match chunks with
  | [] => ([], st)
  | samples :: rest =>
      let '(out, st1) := process_samples st samples in
      let '(outs, st2) := process_chunks st1 rest in
      (out :: outs, st2)
  end.

End SpectrumViews.

(** ** scipy: array shapes *)

Module ScipyShapes.
Import Demod.

(** What scipy documents of the shapes of its results: [sosfilt] and
    [filtfilt] return an array of the shape of their input, and
    [resample(x, num)] returns [num] samples; [resample] returns when the
    input is not empty and [num] is positive.  Nothing is said of the
    values, and the filters may raise. *)
Record length_respecting (sp : Scipy) : Prop := {
  sosfilt_length : forall sos x y, sosfilt sp sos x = Ok y -> length y = length x;
  filtfilt_length : forall b a x y, filtfilt sp b a x = Ok y -> length y = length x;
  resample_length : forall x m y, resample sp x m = Ok y -> length y = Z.to_nat m;
  resample_defined : forall x m,
    x <> [] -> (0 < m)%Z -> exists y, resample sp x m = Ok y
}.

End ScipyShapes.

(** ** plugins/base_plugin.py *)

Module PluginBase.
Import Np.
Local Open Scope R_scope.

Record BasePlugin : Type := {
  name : string;
  enabled : bool;
  call_count : nat;
  success_count : nat;
  failure_count : nat;
  total_processing_time : R
}.

Definition BasePlugin_init (name : string) (enabled : bool) : BasePlugin :=
  {| name := name; enabled := enabled; call_count := 0; success_count := 0;
     failure_count := 0; total_processing_time := 0 |}.

Definition set_enabled (b : BasePlugin) (v : bool) : BasePlugin :=
  {| name := name b; enabled := v; call_count := call_count b;
     success_count := success_count b; failure_count := failure_count b;
     total_processing_time := total_processing_time b |}.

Definition enable (b : BasePlugin) : BasePlugin := set_enabled b true.
Definition disable (b : BasePlugin) : BasePlugin := set_enabled b false.

(** [self.call_count += 1], [self.success_count += 1],
    [self.failure_count += 1], [self.total_processing_time += t] *)
Definition count_call (b : BasePlugin) : BasePlugin :=
  {| name := name b; enabled := enabled b; call_count := S (call_count b);
     success_count := success_count b; failure_count := failure_count b;
     total_processing_time := total_processing_time b |}.

Definition count_success (b : BasePlugin) : BasePlugin :=
  {| name := name b; enabled := enabled b; call_count := call_count b;
     success_count := S (success_count b); failure_count := failure_count b;
     total_processing_time := total_processing_time b |}.

Definition count_failure (b : BasePlugin) : BasePlugin :=
  {| name := name b; enabled := enabled b; call_count := call_count b;
     success_count := success_count b; failure_count := S (failure_count b);
     total_processing_time := total_processing_time b |}.

Definition add_processing_time (b : BasePlugin) (t : R) : BasePlugin :=
  {| name := name b; enabled := enabled b; call_count := call_count b;
     success_count := success_count b; failure_count := failure_count b;
     total_processing_time := total_processing_time b + t |}.

(** What [get_stats] returns. *)
Record PluginStats : Type := {
  stats_name : string;
  stats_enabled : bool;
  stats_call_count : nat;
  stats_success_count : nat;
  stats_failure_count : nat;
  stats_success_rate : R;
  stats_avg_processing_time_ms : R;
  stats_total_processing_time_s : R
}.

Definition get_stats (b : BasePlugin) : res PyExn PluginStats :=
  let total_calls := call_count b in
  (success_rate <-
     (if (0 <? total_calls)%nat
      then py_div (INR (success_count b)) (INR total_calls) else Ok 0) ;;;
   avg_time <-
     (if (0 <? total_calls)%nat
      then py_div (total_processing_time b) (INR total_calls) else Ok 0) ;;;
   Ok {| stats_name := name b;
         stats_enabled := enabled b;
         stats_call_count := call_count b;
         stats_success_count := success_count b;
         stats_failure_count := failure_count b;
         stats_success_rate := success_rate;
         stats_avg_processing_time_ms := avg_time * 1000;
         stats_total_processing_time_s := total_processing_time b |})%res.

Definition reset_stats (b : BasePlugin) : BasePlugin :=
  {| name := name b; enabled := enabled b; call_count := 0; success_count := 0;
     failure_count := 0; total_processing_time := 0 |}.

(** The dictionary that the controller hands to every plugin:
    [{'iq_samples': ..., 'demod_config': {'mode': ..., 'bandwidth': ...}}],
    any key of which may be missing; the waterfall plugin also looks for
    ['spectrum_db']. *)
Record DemodConfig : Type := {
  config_mode : option string;
  config_bandwidth : option Z
}.

Record PluginData : Type := {
  iq_samples : option (list C);
  spectrum_db : option (list R);
  demod_config : option DemodConfig
}.

(** One call of a plugin's [process]: the dictionary, and the two
    readings of the event-loop clock that the call takes. *)
Record Call : Type := {
  call_data : PluginData;
  start_time : R;
  end_time : R
}.

(** [times.append(t); if len(times) > 100: times.pop(0)] *)
Definition append_capped (times : list R) (t : R) : list R :=
  let times := times ++ [t] in
  if (100 <? length times)%nat then drop 1 times else times.

End PluginBase.

(** ** plugins/spectrum_plugin.py

    The plugins hold a reference to the controller's spectrum processor;
    the model passes the processor in and out of [process].  A call is one
    step: the executor thread that runs [process_samples] is not interleaved
    with other users of the processor. *)

Module SpectrumPlug.
Import Np Spectrum PluginBase.
Local Open Scope R_scope.

Record SpectrumPlugin : Type := {
  base : BasePlugin;
  latest_spectrum : option (list R);
  latest_frequencies : option (list R);
  processing_times : list R
}.

Definition SpectrumPlugin_init (name : string) : SpectrumPlugin :=
  {| base := BasePlugin_init name true; latest_spectrum := None;
     latest_frequencies := None; processing_times := [] |}.

Definition set_base (p : SpectrumPlugin) (b : BasePlugin) : SpectrumPlugin :=
  {| base := b; latest_spectrum := latest_spectrum p;
     latest_frequencies := latest_frequencies p;
     processing_times := processing_times p |}.

Record SpectrumMetadata : Type := {
  meta_fft_size : nat;
  meta_processing_time_ms : R;
  meta_peak_power_db : R;
  meta_mean_power_db : R
}.

(** The dictionary that [process] returns: [{'type': 'spectrum',
    'status': 'disabled'}] or the one with status ['success']. *)
Inductive SpectrumResult : Type :=
| Disabled
| Success (frequencies spectrum_db : list R) (metadata : SpectrumMetadata).

Definition process (p : SpectrumPlugin) (processor : SpectrumProcessor)
    (call : Call)
  : res PyExn SpectrumResult * SpectrumPlugin * SpectrumProcessor :=
  if negb (enabled (base p)) then (Ok Disabled, p, processor)
  else
    let p := set_base p (count_call (base p)) in
    match iq_samples (call_data call) with
    | None =>
        (Raise (ValueError "No IQ samples in data"),
         set_base p (count_failure (base p)), processor)
    | Some iq =>
        let '((frequencies, spectrum_db), processor') :=
          process_samples processor iq in
        let processing_time := end_time call - start_time call in
        let p :=
          {| base := count_success (add_processing_time (base p) processing_time);
             latest_spectrum := Some spectrum_db;
             latest_frequencies := Some frequencies;
             processing_times :=
               append_capped (processing_times p) processing_time |} in
        let result :=
          (peak <- (if (0 <? length spectrum_db)%nat
                    then Demod.np_max spectrum_db else Ok 0) ;;;
           let mean_power :=
             if (0 <? length spectrum_db)%nat then mean spectrum_db else 0 in
           Ok (Success frequencies spectrum_db
                 {| meta_fft_size := length spectrum_db;
                    meta_processing_time_ms := processing_time * 1000;
                    meta_peak_power_db := peak;
                    meta_mean_power_db := mean_power |}))%res in
        match result with
        | Ok r => (Ok r, p, processor')
        | Raise e => (Raise e, set_base p (count_failure (base p)), processor')
        end
    end.

Definition get_latest_spectrum (p : SpectrumPlugin)
  : option (list R) * option (list R) :=
  (latest_frequencies p, latest_spectrum p).

Definition get_average_processing_time (p : SpectrumPlugin) : res PyExn R :=
  match processing_times p with
  | [] => Ok 0
  | times =>
      (average <- py_div (Rsum times) (INR (length times)) ;;;
       Ok (average * 1000))%res
  end.

(** The supervisor's cycles as this plugin sees them: one [process] per
    call, an exception being the supervisor's business. *)
Fixpoint run (calls : list Call) (p : SpectrumPlugin) (processor : SpectrumProcessor)
  : SpectrumPlugin * SpectrumProcessor :=
  match calls with
  | [] => (p, processor)
  | call :: rest =>
      let '(_, p', processor') := process p processor call in
      run rest p' processor'
  end.

(** The durations of the calls that carry samples. *)
Definition durations (calls : list Call) : list R :=
  map (fun call => end_time call - start_time call)
      (List.filter (fun call => bool_decide (is_Some (iq_samples (call_data call))))
                   calls).

End SpectrumPlug.

(** ** plugins/waterfall_plugin.py *)

Module WaterfallPlug.
Import Np Spectrum PluginBase.
Local Open Scope R_scope.

Record WaterfallPlugin : Type := {
  base : BasePlugin;
  max_lines : Z;
  waterfall_buffer : list (list Z);
  min_db : R;
  max_db : R;
  auto_scale : bool
}.

(** [deque(maxlen=max_lines)] raises for a negative [maxlen]. *)
Definition WaterfallPlugin_init (max_lines : Z) (name : string)
  : res PyExn WaterfallPlugin :=
  if (max_lines <? 0)%Z then Raise (ValueError "maxlen must be non-negative")
  else Ok {| base := BasePlugin_init name true; max_lines := max_lines;
             waterfall_buffer := []; min_db := -80; max_db := 0;
             auto_scale := true |}.

Definition set_base (p : WaterfallPlugin) (b : BasePlugin) : WaterfallPlugin :=
  {| base := b; max_lines := max_lines p; waterfall_buffer := waterfall_buffer p;
     min_db := min_db p; max_db := max_db p; auto_scale := auto_scale p |}.

(** [deque.append] on a deque of bounded length: the item is added on the
    right, and if the deque is then longer than [maxlen] the leftmost item
    is discarded. *)
Definition deque_append {A} (maxlen : Z) (q : list A) (x : A) : list A :=
  let q := q ++ [x] in
  if (maxlen <? Z.of_nat (length q))%Z then drop 1 q else q.

Record WaterfallMetadata : Type := {
  meta_buffer_size : nat;
  meta_max_lines : Z;
  meta_min_db : R;
  meta_max_db : R;
  meta_auto_scale : bool;
  meta_processing_time_ms : R
}.

Inductive WaterfallResult : Type :=
| Disabled
| Success (waterfall_line : list Z) (metadata : WaterfallMetadata).

(** [np.clip(x, lo, hi)] then the scaling to 0..255 and the cast, on one
    value.  For [hi = lo] numpy divides by zero (nan or inf, with a warning),
    which the model does not have. *)
Definition normalize (lo hi x : R) : Z :=
  SpectrumViews.astype_uint8 ((Demod.clip lo hi x - lo) / (hi - lo) * 255).

Section WithPercentile.

(** [np.percentile(a, q)] on a non-empty array. *)
Variable percentile : list R -> R -> R.

Definition process (p : WaterfallPlugin) (processor : SpectrumProcessor)
    (call : Call)
  : res PyExn WaterfallResult * WaterfallPlugin * SpectrumProcessor :=
  if negb (enabled (base p)) then (Ok Disabled, p, processor)
  else
    let p := set_base p (count_call (base p)) in
    let spectrum :=
      match spectrum_db (call_data call) with
      | Some spectrum_db => Ok (spectrum_db, processor)
      | None =>
          match iq_samples (call_data call) with
          | None => Raise (ValueError "No spectrum_db or iq_samples in data")
          | Some iq =>
              let '((_, spectrum_db), processor') := process_samples processor iq in
              Ok (spectrum_db, processor')
          end
      end in
    match spectrum with
    | Raise e => (Raise e, set_base p (count_failure (base p)), processor)
    | Ok (spectrum_db, processor') =>
        let '(lo, hi) :=
          if auto_scale p && (0 <? length spectrum_db)%nat
          then (percentile spectrum_db 5, percentile spectrum_db 95)
          else (min_db p, max_db p) in
        let waterfall_line :=
          if (0 <? length spectrum_db)%nat then map (normalize lo hi) spectrum_db
          else [] in
        let buffer := deque_append (max_lines p) (waterfall_buffer p) waterfall_line in
        let processing_time := end_time call - start_time call in
        let p :=
          {| base := count_success (add_processing_time (base p) processing_time);
             max_lines := max_lines p; waterfall_buffer := buffer;
             min_db := lo; max_db := hi; auto_scale := auto_scale p |} in
        (Ok (Success waterfall_line
               {| meta_buffer_size := length buffer;
                  meta_max_lines := max_lines p;
                  meta_min_db := lo; meta_max_db := hi;
                  meta_auto_scale := auto_scale p;
                  meta_processing_time_ms := processing_time * 1000 |}),
         p, processor')
    end.

(** The lines that a sequence of calls produces, and the plugin after
    them. *)
Fixpoint run (calls : list Call) (p : WaterfallPlugin) (processor : SpectrumProcessor)
  : list (list Z) * WaterfallPlugin * SpectrumProcessor :=
  match calls with
  | [] => ([], p, processor)
  | call :: rest =>
      let '(r, p', processor') := process p processor call in
      let '(lines, p'', processor'') := run rest p' processor' in
      (match r with
       | Ok (Success line _) => line :: lines
       | _ => lines
       end, p'', processor'')
  end.

End WithPercentile.

Definition set_scale_range (p : WaterfallPlugin) (min_db max_db : R) : WaterfallPlugin :=
  {| base := base p; max_lines := max_lines p; waterfall_buffer := waterfall_buffer p;
     min_db := min_db; max_db := max_db; auto_scale := false |}.

Definition enable_auto_scale (p : WaterfallPlugin) : WaterfallPlugin :=
  {| base := base p; max_lines := max_lines p; waterfall_buffer := waterfall_buffer p;
     min_db := min_db p; max_db := max_db p; auto_scale := true |}.

Definition clear_buffer (p : WaterfallPlugin) : WaterfallPlugin :=
  {| base := base p; max_lines := max_lines p; waterfall_buffer := [];
     min_db := min_db p; max_db := max_db p; auto_scale := auto_scale p |}.

End WaterfallPlug.

(** ** plugins/demodulator_plugin.py *)

Module DemodPlug.
Import Np Demod PluginBase.
Local Open Scope R_scope.

Record DemodulatorPlugin : Type := {
  base : BasePlugin;
  audio_demodulator : AudioDemodulators;
  sample_rate : R;
  audio_sample_rate : Z;
  mode : string;
  bandwidth : Z;
  audio_buffer : list R;
  target_chunk_size : Z
}.

Definition DemodulatorPlugin_init (audio_demodulator : AudioDemodulators)
    (sample_rate : R) (audio_sample_rate : Z) (name : string) : DemodulatorPlugin :=
  {| base := set_enabled (BasePlugin_init name true) false;
     audio_demodulator := audio_demodulator;
     sample_rate := sample_rate;
     audio_sample_rate := audio_sample_rate;
     mode := "FM";
     bandwidth := 15000;
     audio_buffer := [];
     target_chunk_size := (audio_sample_rate / 10)%Z |}.

Definition set_base (p : DemodulatorPlugin) (b : BasePlugin) : DemodulatorPlugin :=
  {| base := b; audio_demodulator := audio_demodulator p;
     sample_rate := sample_rate p; audio_sample_rate := audio_sample_rate p;
     mode := mode p; bandwidth := bandwidth p; audio_buffer := audio_buffer p;
     target_chunk_size := target_chunk_size p |}.

Definition set_audio_demodulator (p : DemodulatorPlugin) (d : AudioDemodulators)
  : DemodulatorPlugin :=
  {| base := base p; audio_demodulator := d;
     sample_rate := sample_rate p; audio_sample_rate := audio_sample_rate p;
     mode := mode p; bandwidth := bandwidth p; audio_buffer := audio_buffer p;
     target_chunk_size := target_chunk_size p |}.

Definition set_audio_buffer (p : DemodulatorPlugin) (buffer : list R)
  : DemodulatorPlugin :=
  {| base := base p; audio_demodulator := audio_demodulator p;
     sample_rate := sample_rate p; audio_sample_rate := audio_sample_rate p;
     mode := mode p; bandwidth := bandwidth p; audio_buffer := buffer;
     target_chunk_size := target_chunk_size p |}.

(** [set_mode(mode, bandwidth)] *)
Definition set_mode (p : DemodulatorPlugin) (m : string) (bw : option Z)
  : DemodulatorPlugin :=
  {| base := base p; audio_demodulator := audio_demodulator p;
     sample_rate := sample_rate p; audio_sample_rate := audio_sample_rate p;
     mode := m; bandwidth := default (bandwidth p) bw;
     audio_buffer := audio_buffer p;
     target_chunk_size := target_chunk_size p |}.

Definition clear_buffer (p : DemodulatorPlugin) : DemodulatorPlugin :=
  set_audio_buffer p [].

Section WithScipy.
Variable sp : Scipy.

(** The call of the demodulator for the current mode; [None] is the
    branch [Unknown demod mode].  [cw_demodulate] is called as
    [cw_demodulate(iq_samples, 600, self.sample_rate)]: 600 is bound to its
    parameter [sample_rate] and the plugin's sample rate to
    [tone_frequency]. *)
Definition dispatch (p : DemodulatorPlugin) (iq : list C)
  : option (res PyExn (list R) * AudioDemodulators) :=
  let st := audio_demodulator p in
  if String.eqb (mode p) "AM" then
    Some (am_demodulate sp st iq (sample_rate p) None)
  else if String.eqb (mode p) "FM" then
    Some (fm_demodulate sp st iq (sample_rate p) None
            (if (100000 <? bandwidth p)%Z then 75000 else 3000))
  else if String.eqb (mode p) "USB" then
    Some (ssb_demodulate sp st iq "usb" (sample_rate p) None)
  else if String.eqb (mode p) "LSB" then
    Some (ssb_demodulate sp st iq "lsb" (sample_rate p) None)
  else if String.eqb (mode p) "CW" then
    Some (cw_demodulate sp st iq 600 (sample_rate p) 500)
  else None.

(** The rest of [_demodulate]'s [try] block: the plugin's own resampling,
    bandwidth filter and peak normalisation. *)
Definition post_process (p : DemodulatorPlugin) (audio : list R)
  : res PyExn (list R) :=
  (audio <-
     (if Req_dec_T (sample_rate p) (IZR (audio_sample_rate p)) then Ok audio
      else
        (length_ratio <- py_div (INR (length audio) * IZR (audio_sample_rate p))
                           (sample_rate p) ;;;
         resample sp audio (py_int length_ratio))) ;;;
   audio <-
     (if Rlt_dec (IZR (bandwidth p)) (IZR (audio_sample_rate p) / 2) then
        (let nyquist := IZR (audio_sample_rate p) / 2 in
         normalized_cutoff <- py_div (IZR (bandwidth p)) nyquist ;;;
         ba <- butter_ba sp 4 (lowpass normalized_cutoff) ;;;
         filtfilt sp ba.1 ba.2 audio)
      else Ok audio) ;;;
   if (0 <? length audio)%nat then
     (max_val <- np_max (map Rabs audio) ;;;
      if Rlt_dec 0 max_val then Ok (map (fun a => a / max_val * 0.5) audio)
      else Ok audio)
   else Ok audio)%res.

(** [_demodulate]: the audio or [None], and the demodulator object with
    the filters it has cached. *)
Definition _demodulate (p : DemodulatorPlugin) (iq : list C)
  : option (list R) * AudioDemodulators :=
  match dispatch p iq with
  | None => (None, audio_demodulator p)
  | Some (Raise _, st') => (None, st')
  | Some (Ok audio, st') =>
      match post_process p audio with
      | Ok audio => (Some audio, st')
      | Raise _ => (None, st')
      end
  end.

Record AudioMetadata : Type := {
  meta_sample_rate : Z;
  meta_bandwidth : Z;
  meta_buffer_size : nat;
  meta_processing_time_ms : R
}.

(** The dictionary that [process] returns, by its ['status']; the chunk is
    the entry ['audio_samples'], present when a chunk was ready. *)
Inductive AudioResult : Type :=
| Disabled
| NoOutput (mode : string)
| Success (mode : string) (metadata : AudioMetadata) (audio_samples : option (list R)).

(** The mode and bandwidth that a call's ['demod_config'] carries,
    assigned to the plugin; a missing entry leaves the attribute as it is. *)
Definition configure (p : DemodulatorPlugin) (call : Call) : DemodulatorPlugin :=
  match demod_config (call_data call) with
  | Some c => set_mode p (default (mode p) (config_mode c)) (config_bandwidth c)
  | None => p
  end.

Definition process (p : DemodulatorPlugin) (call : Call)
  : res PyExn AudioResult * DemodulatorPlugin :=
  if negb (enabled (base p)) then (Ok Disabled, p)
  else
    let p := set_base p (count_call (base p)) in
    match iq_samples (call_data call) with
    | None =>
        (Raise (ValueError "No IQ samples in data"),
         set_base p (count_failure (base p)))
    | Some iq =>
        let p := configure p call in
        let '(audio_samples, st') := _demodulate p iq in
        let p := set_audio_demodulator p st' in
        match audio_samples with
        | None | Some [] => (Ok (NoOutput (mode p)), p)
        | Some audio =>
            let buffer := audio_buffer p ++ audio in
            let '(audio_chunk, buffer) :=
              if (target_chunk_size p <=? Z.of_nat (length buffer))%Z
              then (Some (slice buffer 0 (target_chunk_size p)),
                    slice buffer (target_chunk_size p) (Z.of_nat (length buffer)))
              else (None, buffer) in
            let processing_time := end_time call - start_time call in
            let p :=
              set_base (set_audio_buffer p buffer)
                (count_success (add_processing_time (base p) processing_time)) in
            (Ok (Success (mode p)
                   {| meta_sample_rate := audio_sample_rate p;
                      meta_bandwidth := bandwidth p;
                      meta_buffer_size := length buffer;
                      meta_processing_time_ms := processing_time * 1000 |}
                   audio_chunk),
             p)
        end
    end.

(** The chunks that a sequence of calls hands out, in order, and the
    plugin after them. *)
Fixpoint run (calls : list Call) (p : DemodulatorPlugin)
  : list (list R) * DemodulatorPlugin :=
  match calls with
  | [] => ([], p)
  | call :: rest =>
      let '(r, p') := process p call in
      let '(chunks, p'') := run rest p' in
      (match r with
       | Ok (Success _ _ (Some chunk)) => chunk :: chunks
       | _ => chunks
       end, p'')
  end.

(** The audio that [_demodulate] returns in a call (nothing when the
    plugin is disabled, the samples are missing or [_demodulate] returns
    [None]), and the audio of a sequence of calls, in order. *)
Definition audio_of_call (p : DemodulatorPlugin) (call : Call) : list R :=
  if negb (enabled (base p)) then []
  else match iq_samples (call_data call) with
       | None => []
       | Some iq =>
           default []
             (_demodulate (configure (set_base p (count_call (base p))) call) iq).1
       end.

Fixpoint demodulated (calls : list Call) (p : DemodulatorPlugin) : list R :=
  match calls with
  | [] => []
  | call :: rest => audio_of_call p call ++ demodulated rest (process p call).2
  end.

(** The calls of a sequence that end with status ['no_output']. *)
Fixpoint no_output_count (calls : list Call) (p : DemodulatorPlugin) : nat :=
  match calls with
  | [] => 0
  | call :: rest =>
      (match (process p call).1 with
       | Ok (NoOutput _) => 1
       | _ => 0
       end + no_output_count rest (process p call).2)%nat
  end.

End WithScipy.

End DemodPlug.

(** ** controllers/sdr_controller_v2.py: statistics, tuning, consistency *)

Module ControllerOps.
Import Np Spectrum Controller.
Local Open Scope R_scope.

(** The entries of [self.stats] that [_update_performance_stats] uses. *)
Record PerformanceStats : Type := {
  fps : R;
  last_fps_time : R;
  processing_times : list R
}.

(** As [__init__] sets them, [now] being [time.time()] then. *)
Definition PerformanceStats_init (now : R) : PerformanceStats :=
  {| fps := 0; last_fps_time := now; processing_times := [] |}.

(** [_update_performance_stats(processing_time)]; [current_time] is what
    [time.time()] returns in the call. *)
Definition _update_performance_stats (s : PerformanceStats)
    (processing_time current_time : R) : PerformanceStats :=
  let times := PluginBase.append_capped (processing_times s) processing_time in
  if Rle_dec 1 (current_time - last_fps_time s) then
    let time_diff := current_time - last_fps_time s in
    let frame_count := length times in
    {| fps := if Rlt_dec 0 time_diff then INR frame_count / time_diff else 0;
       last_fps_time := current_time;
       processing_times := [] |}
  else {| fps := fps s; last_fps_time := last_fps_time s; processing_times := times |}.

(** A sequence of updates, each with its processing time and clock
    reading. *)
Definition update_all (s : PerformanceStats) (updates : list (R * R)) : PerformanceStats :=
  fold_left (fun s u => _update_performance_stats s u.1 u.2) updates s.

(** The read size of [_acquisition_worker]:
    [read_size = int(sample_rate * 0.1)] then
    [read_size = (read_size // 1024) * 1024]. *)
Definition read_size (sample_rate : R) : Z :=
  let read_size := py_int (sample_rate * 0.1) in
  (read_size / 1024 * 1024)%Z.

(** *** [tune]

    The RTL-SDR device is not code of this repository: assigning to its
    [center_freq] and [gain] attributes changes the device or raises. *)
Section WithDevice.
Context {Device DeviceExn : Type}.
Variable set_center_freq : Device -> R -> res DeviceExn Device.
Variable set_gain : Device -> R -> res DeviceExn Device.
Variable i0 : R -> R.

Inductive TuneExn : Type :=
| NotConnected
| OutOfRange
| DeviceError (e : DeviceExn)
| ProcessorError (e : PyExn).

(** The part of the controller that [tune] uses. *)
Record Tuner : Type := {
  sdr : Device;
  is_connected : bool;
  config_center_frequency : R;
  config_gain : R;
  spectrum_processor : SpectrumProcessor
}.

Record TuneReply : Type := { reply_frequency : R; reply_gain : R }.

Definition tune (c : Tuner) (frequency : R) (gain : option R)
  : res TuneExn TuneReply * Tuner :=
  if negb (is_connected c) then (Raise NotConnected, c)
  else if negb ((if Rle_dec 24e6 frequency then true else false)
                && (if Rle_dec frequency 1766e6 then true else false))
  then (Raise OutOfRange, c)
  else
    match set_center_freq (sdr c) frequency with
    | Raise e => (Raise (DeviceError e), c)
    | Ok dev =>
        let c1 := {| sdr := dev; is_connected := is_connected c;
                     config_center_frequency := frequency;
                     config_gain := config_gain c;
                     spectrum_processor := spectrum_processor c |} in
        let gain_set : res DeviceExn Tuner :=
          match gain with
          | None => Ok c1
          | Some g =>
              match set_gain (sdr c1) g with
              | Raise e => Raise e
              | Ok dev' =>
                  Ok {| sdr := dev'; is_connected := is_connected c1;
                        config_center_frequency := config_center_frequency c1;
                        config_gain := g;
                        spectrum_processor := spectrum_processor c1 |}
              end
          end in
        match gain_set with
        | Raise e => (Raise (DeviceError e), c1)
        | Ok c2 =>
            let '(r, processor) :=
              update_config i0 (spectrum_processor c2) None (Some frequency) None in
            let c3 := {| sdr := sdr c2; is_connected := is_connected c2;
                         config_center_frequency := config_center_frequency c2;
                         config_gain := config_gain c2;
                         spectrum_processor := processor |} in
            match r with
            | Raise e => (Raise (ProcessorError e), c3)
            | Ok _ =>
                (Ok {| reply_frequency := frequency;
                       reply_gain := default (config_gain c3) gain |}, c3)
            end
        end
    end.

End WithDevice.

(** *** Consistency of the demodulation settings

    What [set_demodulation] keeps between the controller's [demod_config]
    and the demodulator plugin: the mode is a key of [DEMOD_MODES] with the
    bandwidth in its range, the plugin is enabled exactly when the mode is
    not ['SPECTRUM'], and an enabled plugin has the controller's mode and
    bandwidth. *)
Definition demod_settings_agree {Chunk} (c : WebSDRControllerV2 Chunk) : Prop :=
  (exists cfg,
     DEMOD_MODES !! demod_config_mode c = Some cfg /\
     (bandwidth_min cfg <= demod_config_bandwidth c <= bandwidth_max cfg)%Z) /\
  enabled (demod_plugin c) = negb (String.eqb (demod_config_mode c) "SPECTRUM") /\
  (enabled (demod_plugin c) = true ->
   mode (demod_plugin c) = demod_config_mode c /\
   bandwidth (demod_plugin c) = demod_config_bandwidth c).

(** A sequence of [set_demodulation] requests; a request that raises
    leaves the controller to the next one. *)
Definition set_demodulations {Chunk} (c : WebSDRControllerV2 Chunk)
    (requests : list (string * option Z)) : WebSDRControllerV2 Chunk :=
  fold_left (fun c request => (set_demodulation c request.1 request.2).2) requests c.

End ControllerOps.

(** * Properties *)

(** ** Supervisor: error isolation *)

Section SupervisorFacts.
Import Supervisor.
Context {Data Payload Exn World : Type} (loop_time : World -> R).
Local Abbreviation Plugin := (@Supervisor.Plugin Data Payload Exn World).
Local Abbreviation PluginSupervisor := (@Supervisor.PluginSupervisor Data Payload Exn World).
Local Abbreviation PluginResult := (@Supervisor.PluginResult Payload Exn).
Local Abbreviation zero_stats := {| stat_success := 0; stat_failure := 0 |}.

Lemma fresh_stats_fold (ps : list Plugin) (m : gmap string Stats) (nm : string) :
  fold_left (fun m p => <[name p := zero_stats]> m) ps m !! nm =
  if decide (nm ∈ map name ps) then Some zero_stats else m !! nm.
Proof.
  revert m. induction ps as [|p ps IH]; intros m; simpl.
  - done.
  - rewrite IH. destruct (decide (nm ∈ map name ps)) as [Hin|Hnin].
    + rewrite decide_True; [done | by right].
    + destruct (decide (nm = name p)) as [->|Hne].
      * rewrite lookup_insert_eq. rewrite decide_True; [done | by left].
      * rewrite lookup_insert_ne by done.
        rewrite decide_False; [done |]. intros Hc. inversion Hc; subst; tauto.
Qed.

Lemma fresh_stats_lookup (ps : list Plugin) (p : Plugin) :
  p ∈ ps -> fresh_stats ps !! name p = Some zero_stats.
Proof.
  intros Hin. unfold fresh_stats. rewrite fresh_stats_fold.
  rewrite decide_True; [done |]. apply list_elem_of_fmap. eauto.
Qed.

Lemma add_tally_bump_success (a b : nat) (s : Stats) :
  add_tally a b (bump_success s) = add_tally (1 + a) b s.
Proof. unfold add_tally, bump_success; simpl. f_equal; lia. Qed.

Lemma add_tally_bump_failure (a b : nat) (s : Stats) :
  add_tally a b (bump_failure s) = add_tally a (1 + b) s.
Proof. unfold add_tally, bump_failure; simpl. f_equal; lia. Qed.

(** The counting loop ends without [KeyError] when every result's name has
    an entry, and then adds to each entry exactly the results of that name. *)
Lemma analyze_tally (rs : list (PluginResult + Exn)) (sup : PluginSupervisor) :
  (forall r, inl r ∈ rs -> is_Some (plugin_stats sup !! plugin_name r)) ->
  exists sup',
    analyze rs sup = (Ok tt, sup') /\
    plugins sup' = plugins sup /\
    total_executions sup' = total_executions sup /\
    forall nm, plugin_stats sup' !! nm =
               add_tally (tally_success nm rs) (tally_failure nm rs)
                 <$> plugin_stats sup !! nm.
Proof.
  revert sup. induction rs as [|[r|e] rs IH]; intros sup Hdom.
  - exists sup. repeat split; try done. intros nm.
    destruct (plugin_stats sup !! nm) as [[a b]|]; simpl; [|done].
    unfold add_tally; simpl. do 2 f_equal; lia.
  - destruct (Hdom r) as [s Hs]; [left|].
    cbn [analyze]. rewrite Hs.
    destruct (success r) eqn:Hr.
    + edestruct IH as (sup' & Ha & Hp & Ht & Hm); last first.
      { exists sup'. rewrite Ha. repeat split; [exact Hp | exact Ht |].
        intros nm. rewrite Hm. cbn [plugin_stats tally_success tally_failure].
        rewrite Hr. destruct (decide (plugin_name r = nm)) as [<-|Hne].
        - rewrite lookup_insert_eq, Hs. simpl. by rewrite add_tally_bump_success.
        - by rewrite lookup_insert_ne. }
      intros r' Hr'. cbn [plugin_stats]. apply lookup_insert_is_Some'.
      right. apply Hdom. by right.
    + edestruct IH as (sup' & Ha & Hp & Ht & Hm); last first.
      { exists sup'. rewrite Ha. repeat split; [exact Hp | exact Ht |].
        intros nm. rewrite Hm. cbn [plugin_stats tally_success tally_failure].
        rewrite Hr. destruct (decide (plugin_name r = nm)) as [<-|Hne].
        - rewrite lookup_insert_eq, Hs. simpl. by rewrite add_tally_bump_failure.
        - by rewrite lookup_insert_ne. }
      intros r' Hr'. cbn [plugin_stats]. apply lookup_insert_is_Some'.
      right. apply Hdom. by right.
  - edestruct IH as (sup' & Ha & Hp & Ht & Hm); last first.
    { exists sup'. cbn [analyze]. rewrite Ha. repeat split; [exact Hp | exact Ht |].
      intros nm. by rewrite Hm. }
    intros r' Hr'. cbn [plugin_stats]. apply Hdom. by right.
Qed.

(** [_safe_execute] turns the plugin's outcome, whichever it is, into a
    [PluginResult] with the plugin's name and the elapsed time. *)
Lemma safe_execute_result_of (p : Plugin) (d : Data) (w : World) :
  exists o w', process p d w = (o, w') /\
    _safe_execute loop_time p d w =
      (result_of p o ((loop_time w' - loop_time w) * 1000)%R, w').
Proof.
  unfold _safe_execute. destruct (process p d w) as [[v|e] w'] eqn:Hp;
    eexists _, _; (split; [reflexivity | done]).
Qed.

Lemma gather_items (ps : list Plugin) (d : Data) (w : World) :
  Forall2 (item_of loop_time d) ps (gather loop_time ps d w).1.
Proof.
  revert w. induction ps as [|p ps IH]; intros w; cbn [gather].
  - constructor.
  - destruct (safe_execute_result_of p d w) as (o & w1 & Hp & ->).
    specialize (IH w1). destruct (gather loop_time ps d w1) as [rs w2].
    constructor; [|exact IH]. by exists w, w1, o.
Qed.

Lemma result_of_name (p : Plugin) (o : outcome) (t : R) :
  plugin_name (result_of p o t) = name p.
Proof. by destruct o. Qed.

Lemma tally_absent (d : Data) (nm : string) (ps : list Plugin)
    (rs : list (PluginResult + Exn)) :
  Forall2 (item_of loop_time d) ps rs -> nm ∉ map name ps ->
  tally_success nm rs = 0 /\ tally_failure nm rs = 0.
Proof.
  induction 1 as [|p item ps rs (wa & wb & o & Hp & ->) _ IH]; intros Hnm; [done|].
  cbn [tally_success tally_failure map] in *. rewrite result_of_name.
  apply not_elem_of_cons in Hnm as [Hne Hnm].
  destruct (decide (name p = nm)) as [Heq|_]; [by subst|].
  destruct (IH Hnm) as [-> ->]. by split.
Qed.

(** With unique names, the entry of a plugin counts that plugin's own
    outcome and nothing else. *)
Lemma tally_own (d : Data) (p : Plugin) (ps : list Plugin)
    (rs : list (PluginResult + Exn)) :
  Forall2 (item_of loop_time d) ps rs -> NoDup (map name ps) -> p ∈ ps ->
  (always_raises p ->
     tally_success (name p) rs = 0 /\ tally_failure (name p) rs = 1) /\
  (always_returns p ->
     tally_success (name p) rs = 1 /\ tally_failure (name p) rs = 0).
Proof.
  induction 1 as [|p0 item ps rs (wa & wb & o & Hp & ->) Hrest IH]; intros Hnd Hin.
  { inversion Hin. }
  cbn [map] in Hnd. apply NoDup_cons in Hnd as [Hfresh Hnd].
  cbn [tally_success tally_failure].
  rewrite result_of_name.
  apply elem_of_cons in Hin as [->|Hin].
  - destruct (tally_absent d (name p0) ps rs Hrest) as [-> ->].
    { exact Hfresh. }
    destruct (decide (name p0 = name p0)) as [_|?]; [|done]. split.
    + intros Hr. destruct (Hr d wa) as (e & w' & He). rewrite Hp in He.
      injection He as -> _. done.
    + intros Hr. destruct (Hr d wa) as (v & w' & Hv). rewrite Hp in Hv.
      injection Hv as -> _. done.
  - destruct (decide (name p0 = name p)) as [Heq|_].
    + exfalso. apply Hfresh. rewrite Heq. apply list_elem_of_fmap. eauto.
    + destruct (IH Hnd Hin) as [IHr IHs]. split; intros Hb.
      * by destruct (IHr Hb) as [-> ->].
      * by destruct (IHs Hb) as [-> ->].
Qed.

(** The supervisor's invariant: every supervised plugin has its entry. *)
Lemma run_with_supervision_ok (ps : list Plugin) (sup : PluginSupervisor)
    (d : Data) (w : World) :
  plugins sup = ps ->
  (forall p, p ∈ ps -> is_Some (plugin_stats sup !! name p)) ->
  exists rs sup' w',
    run_with_supervision loop_time sup d w = (Ok rs, sup', w') /\
    plugins sup' = ps /\
    total_executions sup' = S (total_executions sup) /\
    Forall2 (item_of loop_time d) ps rs /\
    forall nm, plugin_stats sup' !! nm =
               add_tally (tally_success nm rs) (tally_failure nm rs)
                 <$> plugin_stats sup !! nm.
Proof.
  intros Hps Hdom. unfold run_with_supervision. cbn [plugins]. rewrite Hps.
  pose proof (gather_items ps d w) as Hitems.
  destruct (gather loop_time ps d w) as [rs w'] eqn:Hg. cbn [fst] in Hitems.
  edestruct (analyze_tally rs) as (sup' & Ha & Hp & Ht & Hm); last first.
  { rewrite Ha. exists rs, sup', w'. repeat split; done. }
  cbn [plugin_stats]. intros r Hr.
  apply list_elem_of_lookup in Hr as [i Hi].
  destruct (Forall2_lookup_r _ _ _ _ _ Hitems Hi) as (p & Hpi & wa & wb & o & _ & Heq).
  injection Heq as ->.
  rewrite result_of_name. apply Hdom. eapply list_elem_of_lookup_2; eauto.
Qed.

Lemma run_cycles_ok (ps : list Plugin) (ds : list Data) (sup : PluginSupervisor)
    (w : World) :
  plugins sup = ps ->
  (forall p, p ∈ ps -> is_Some (plugin_stats sup !! name p)) ->
  exists sup' w',
    run_cycles loop_time ds sup w = (Ok tt, sup', w') /\
    plugins sup' = ps /\
    (forall p, p ∈ ps -> is_Some (plugin_stats sup' !! name p)) /\
    total_executions sup' = total_executions sup + length ds /\
    (NoDup (map name ps) -> forall p s, p ∈ ps ->
       plugin_stats sup !! name p = Some s ->
       (always_raises p ->
          plugin_stats sup' !! name p = Some (add_tally 0 (length ds) s)) /\
       (always_returns p ->
          plugin_stats sup' !! name p = Some (add_tally (length ds) 0 s))).
Proof.
  revert sup w. induction ds as [|d ds IH]; intros sup w Hps Hdom.
  - exists sup, w. cbn [run_cycles length]. repeat split; try done; try lia.
    all: intros _; destruct s as [a b]; unfold add_tally; simpl;
      rewrite H1; do 2 f_equal; lia.
  - destruct (run_with_supervision_ok ps sup d w Hps Hdom)
      as (rs & sup1 & w1 & Hrun & Hps1 & Hte & Hitems & Hstats).
    assert (forall p, p ∈ ps -> is_Some (plugin_stats sup1 !! name p)) as Hdom1.
    { intros p Hp. rewrite Hstats. destruct (Hdom p Hp) as [s ->]. by eexists. }
    destruct (IH sup1 w1 Hps1 Hdom1) as (sup2 & w2 & Hrun2 & Hps2 & Hdom2 & Hte2 & Hcnt).
    exists sup2, w2. cbn [run_cycles]. rewrite Hrun.
    split; [exact Hrun2|]. split; [exact Hps2|]. split; [exact Hdom2|].
    split; [cbn [length]; lia|].
    intros Hnd p s Hp Hs.
    destruct (tally_own d p ps rs Hitems Hnd Hp) as [Hraise Hret].
    split; intros Hb.
    + destruct (Hraise Hb) as [Hts Htf].
      destruct (Hcnt Hnd p (add_tally 0 1 s) Hp) as [Hc _].
      { by rewrite Hstats, Hs, Hts, Htf. }
      rewrite (Hc Hb). f_equal. unfold add_tally; cbn. f_equal; lia.
    + destruct (Hret Hb) as [Hts Htf].
      destruct (Hcnt Hnd p (add_tally 1 0 s) Hp) as [_ Hc].
      { by rewrite Hstats, Hs, Hts, Htf. }
      rewrite (Hc Hb). f_equal. unfold add_tally; cbn. f_equal; lia.
Qed.

(** C1. Supervisor isolation.  For every list of plugins and every
    sequence of chunks already dispatched, the cycles return normally; one
    more [run_with_supervision] returns normally too, with a result list
    that has, plugin by plugin and in order, the [PluginResult] made from
    that plugin's outcome: for a plugin that raised, the failure carrying its
    name, the exception and the elapsed time.  And with unique plugin names,
    after [length ds] cycles a plugin that raises on every call has failure
    count [length ds] while every plugin that returns on every call has
    success count [length ds]. *)
Theorem supervisor_isolation (ps : list Plugin) (ds : list Data) (w : World) :
  exists sup w1,
    run_cycles loop_time ds (init ps) w = (Ok tt, sup, w1) /\
    total_executions sup = length ds /\
    (forall d, exists results sup' w2,
        run_with_supervision loop_time sup d w1 = (Ok results, sup', w2) /\
        Forall2 (item_of loop_time d) ps results) /\
    (NoDup (map name ps) -> forall p, p ∈ ps ->
       (always_raises p ->
          failure_count sup (name p) = Some (length ds) /\
          success_count sup (name p) = Some 0) /\
       (always_returns p ->
          success_count sup (name p) = Some (length ds) /\
          failure_count sup (name p) = Some 0)).
Proof.
  destruct (run_cycles_ok ps ds (init ps) w eq_refl)
    as (sup & w1 & Hrun & Hps & Hdom & Hte & Hcnt).
  { intros p Hp. cbn [init plugin_stats]. rewrite fresh_stats_lookup; eauto. }
  exists sup, w1. split; [exact Hrun|]. split; [exact Hte|]. split.
  - intros d.
    destruct (run_with_supervision_ok ps sup d w1 Hps Hdom)
      as (rs & sup' & w2 & Hr & _ & _ & Hitems & _).
    by exists rs, sup', w2.
  - intros Hnd p Hp. unfold failure_count, success_count.
    destruct (Hcnt Hnd p zero_stats Hp) as [Hraise Hret].
    { cbn [init plugin_stats]. by apply fresh_stats_lookup. }
    split; intros Hb.
    + by rewrite (Hraise Hb).
    + by rewrite (Hret Hb).
Qed.

End SupervisorFacts.

Lemma supervisor_isolation_witness :
  exists sup w1,
    Supervisor.run_cycles Supervisor.demo_clock (repeat "IQ"%string 10)
      (Supervisor.init Supervisor.demo_plugins) 0%R = (Ok tt, sup, w1) /\
    Supervisor.failure_count sup "FaultyPlugin" = Some 10 /\
    Supervisor.success_count sup "SpectrumPlugin" = Some 10 /\
    Supervisor.success_count sup "WaterfallPlugin" = Some 10.
Proof.
  destruct (supervisor_isolation Supervisor.demo_clock Supervisor.demo_plugins
              (repeat "IQ"%string 10) 0%R) as (sup & w1 & Hrun & _ & _ & Hcnt).
  assert (NoDup (map Supervisor.name Supervisor.demo_plugins)) as Hnd.
  { apply (bool_decide_unpack _). vm_compute. exact I. }
  exists sup, w1. split; [exact Hrun|].
  split; [|split].
  - apply (Hcnt Hnd Supervisor.FaultyPlugin).
    + unfold Supervisor.demo_plugins. do 2 right. left.
    + intros d now. eexists _, _. reflexivity.
  - apply (Hcnt Hnd Supervisor.SpectrumPlugin).
    + unfold Supervisor.demo_plugins. left.
    + intros d now. eexists _, _. reflexivity.
  - apply (Hcnt Hnd Supervisor.WaterfallPlugin).
    + unfold Supervisor.demo_plugins. right. left.
    + intros d now. eexists _, _. reflexivity.
Defined.

(** ** Acquisition queue: drop-oldest *)

Section QueueFacts.
Import Controller.
Context {Chunk : Type}.

(** One hand-over on a bounded queue that is not over-full: no exception
    leaves it, and the queue then holds the last [cap] chunks of the old
    contents followed by the new chunk. *)
Lemma enqueue_spec (q : Queue Chunk) (x : Chunk) (cap : nat) :
  maxsize q = Z.of_nat cap -> 0 < cap -> length (items q) <= cap ->
  enqueue q x =
    (Ok tt, {| maxsize := maxsize q;
               items := drop (length (items q ++ [x]) - cap) (items q ++ [x]) |}).
Proof.
  intros Hmax Hcap Hlen. unfold enqueue, put_nowait, qsize.
  rewrite length_app. cbn [length].
  destruct (decide (length (items q) = cap)) as [Hfull|Hroom].
  - rewrite Hmax.
    replace ((0 <? Z.of_nat cap)%Z && (Z.of_nat cap <=? Z.of_nat (length (items q)))%Z)
      with true by (symmetry; apply andb_true_iff; split; [apply Z.ltb_lt|apply Z.leb_le]; lia).
    unfold get_nowait. destruct (items q) as [|oldest rest] eqn:Hitems.
    { cbn [length] in Hfull. lia. }
    cbn [maxsize items length] in *. rewrite Hmax.
    replace ((0 <? Z.of_nat cap)%Z && (Z.of_nat cap <=? Z.of_nat (length rest))%Z)
      with false by (symmetry; apply andb_false_iff; right; apply Z.leb_gt; lia).
    replace (S (length rest) + 1 - cap) with 1 by lia. reflexivity.
  - replace ((0 <? maxsize q)%Z && (maxsize q <=? Z.of_nat (length (items q)))%Z)
      with false by (symmetry; apply andb_false_iff; right; apply Z.leb_gt; lia).
    replace (length (items q) + 1 - cap) with 0 by lia. reflexivity.
Qed.

Lemma worker_queue (len : Chunk -> nat) (cap : nat) (reads : list Chunk)
    (c : WebSDRControllerV2 Chunk) :
  maxsize (data_queue c) = Z.of_nat cap -> 0 < cap ->
  length (items (data_queue c)) <= cap ->
  let c' := _acquisition_worker len reads c in
  maxsize (data_queue c') = Z.of_nat cap /\
  items (data_queue c') =
    drop (length (items (data_queue c) ++ reads) - cap) (items (data_queue c) ++ reads).
Proof.
  intros Hmax Hcap. revert c Hmax. induction reads as [|x reads IH]; intros c Hmax Hlen.
  - cbn. split; [done|]. rewrite app_nil_r.
    replace (length (items (data_queue c)) - cap) with 0 by lia. reflexivity.
  - cbn [_acquisition_worker].
    rewrite (enqueue_spec _ x cap Hmax Hcap Hlen).
    set (L := items (data_queue c) ++ [x]).
    set (c1 := {| demod_config_mode := _ |}).
    assert (length L = S (length (items (data_queue c)))) as HL
      by (unfold L; rewrite length_app; cbn; lia).
    destruct (IH c1) as [Hm Hi]; [exact Hmax | cbn; rewrite length_drop; lia |].
    split; [exact Hm|]. rewrite Hi. cbn [c1 data_queue items].
    rewrite <- drop_app_le by lia. rewrite drop_drop.
    replace (items (data_queue c) ++ x :: reads) with (L ++ reads)
      by (unfold L; by rewrite <- app_assoc).
    f_equal. rewrite length_drop, !length_app. lia.
Qed.

(** C6. The queue between acquisition and processing has capacity 10; a
    hand-over to the full queue evicts exactly the oldest chunk and appends
    the new one; no hand-over raises or waits; and after more than 10
    hand-overs with no consumer the queue holds exactly the 10 most recent
    chunks, in arrival order. *)
Theorem queue_drop_oldest (len : Chunk -> nat) :
  maxsize (data_queue (WebSDRControllerV2_init Chunk)) = 10%Z /\
  (forall (q : Queue Chunk) (x : Chunk),
     maxsize q = 10%Z -> length (items q) = 10 ->
     exists oldest rest,
       items q = oldest :: rest /\
       enqueue q x = (Ok tt, {| maxsize := 10; items := rest ++ [x] |})) /\
  (forall (q : Queue Chunk) (x : Chunk),
     maxsize q = 10%Z -> length (items q) <= 10 ->
     exists q', enqueue q x = (Ok tt, q') /\ length (items q') <= 10) /\
  (forall reads : list Chunk,
     10 < length reads ->
     let c' := _acquisition_worker len reads (WebSDRControllerV2_init Chunk) in
     items (data_queue c') = drop (length reads - 10) reads /\
     length (items (data_queue c')) = 10).
Proof.
  split; [reflexivity|]. split; [|split].
  - intros q x Hmax Hlen.
    destruct (items q) as [|oldest rest] eqn:Hitems; [cbn in Hlen; lia|].
    exists oldest, rest. split; [done|].
    rewrite (enqueue_spec q x 10); [| done | lia | rewrite Hitems; lia].
    rewrite Hmax, Hitems. f_equal. f_equal.
    cbn [length] in Hlen. rewrite length_app. cbn [length app].
    replace (S (length rest) + 1 - 10) with 1 by lia. reflexivity.
  - intros q x Hmax Hlen. eexists. split.
    + apply (enqueue_spec q x 10); [done | lia | done].
    + cbn [items]. rewrite length_drop, length_app. cbn [length]. lia.
  - intros reads Hlen c'.
    destruct (worker_queue len 10 reads (WebSDRControllerV2_init Chunk))
      as [_ Hi]; [done | lia | cbn; lia |].
    fold c' in Hi. cbn [WebSDRControllerV2_init data_queue Queue_new items app] in Hi.
    split; [exact Hi|]. rewrite Hi, length_drop. lia.
Qed.

End QueueFacts.

Lemma queue_drop_oldest_witness :
  Controller.items (Controller.data_queue
    (Controller._acquisition_worker (fun n : nat => n) (seq 1 12)
       (Controller.WebSDRControllerV2_init nat))) = seq 3 10
  /\ exists q',
       Controller.enqueue {| Controller.maxsize := 10; Controller.items := seq 1 10 |} 11
         = (Ok tt, q').
Proof.
  split.
  - apply (proj2 (proj2 (proj2 (queue_drop_oldest (fun n : nat => n)))) (seq 1 12)).
    cbn. lia.
  - destruct (proj1 (proj2 (proj2 (queue_drop_oldest (fun n : nat => n))))
                {| Controller.maxsize := 10; Controller.items := seq 1 10 |} 11)
      as (q' & Hq & _); [reflexivity | cbn; lia |].
    exists q'. exact Hq.
Defined.

(** ** Spectrum processor *)

Section NumpyFacts.
Import Np.
Local Open Scope R_scope.

Lemma length_fftshift {A} (x : list A) : length (fftshift x) = length x.
Proof.
  unfold fftshift. rewrite length_app, length_drop, length_take.
  pose proof (Nat.Div0.div_le_upper_bound (length x) 2 (length x)). lia.
Qed.

Lemma fftshift_map {A B} (f : A -> B) (x : list A) :
  fftshift (map f x) = map f (fftshift x).
Proof.
  unfold fftshift. rewrite length_map, map_app.
  change (@map A B f) with (@fmap list _ A B f).
  by rewrite fmap_drop, fmap_take.
Qed.

Lemma fft_ok (x : list C) :
  x <> [] -> fft x = Ok (map (dft_bin x) (seq 0 (length x))).
Proof. by destruct x. Qed.

Lemma fft_length (x X : list C) : fft x = Ok X -> length X = length x.
Proof.
  destruct x as [|z x]; [done|]. intros [= <-].
  cbn [length]. by rewrite length_map, length_seq.
Qed.

Lemma broadcast_same {A B D} (f : A -> B -> D) (a : list A) (b : list B) :
  length a = length b -> broadcast f a b = Ok (zip_with f a b).
Proof. intros H. unfold broadcast. by rewrite decide_True. Qed.

Lemma broadcast_mismatch {A B D} (f : A -> B -> D) (a : list A) (b : list B) :
  length a <> length b -> length a <> 1%nat -> length b <> 1%nat ->
  exists e, broadcast f a b = Raise e.
Proof.
  intros Hne Ha Hb. unfold broadcast. rewrite decide_False by done.
  destruct a as [|x [|x' a]]; destruct b as [|y [|y' b]]; cbn in *;
    try done; by eexists.
Qed.

Lemma full_ok {A} (v : A) (n : Z) :
  (0 <= n)%Z -> full v n = Ok (replicate (Z.to_nat n) v).
Proof.
  intros H. unfold full. destruct (Z.ltb_spec n 0); [lia | done].
Qed.

Lemma assign_prefix_short {A} (padded samples : list A) :
  (length samples <= length padded)%nat ->
  assign_prefix padded samples = Ok (samples ++ drop (length samples) padded).
Proof.
  intros H. unfold assign_prefix.
  rewrite Nat.min_l by done. by rewrite decide_True.
Qed.

End NumpyFacts.

Section FrequencyAxis.
Import Np Spectrum.
Local Open Scope R_scope.

Lemma length_arange (lo hi : Z) : length (arange lo hi) = Z.to_nat (hi - lo).
Proof. unfold arange. by rewrite length_map, length_seq. Qed.

Lemma arange_app (lo mid hi : Z) :
  (lo <= mid <= hi)%Z -> arange lo mid ++ arange mid hi = arange lo hi.
Proof.
  intros H. unfold arange.
  replace (Z.to_nat (hi - lo)) with (Z.to_nat (mid - lo) + Z.to_nat (hi - mid))%nat by lia.
  rewrite seq_app, map_app. f_equal. cbn [Nat.add].
  rewrite <- (Nat.add_0_r (Z.to_nat (mid - lo))) at 1.
  rewrite <- fmap_add_seq.
  change (@fmap list _ nat nat) with (@map nat nat). rewrite map_map.
  apply map_ext. intros k. lia.
Qed.

Lemma arange_lookup (lo hi : Z) (i : nat) :
  (i < Z.to_nat (hi - lo))%nat -> arange lo hi !! i = Some (lo + Z.of_nat i)%Z.
Proof.
  intros H. unfold arange.
  change (@map nat Z) with (@fmap list _ nat Z).
  rewrite list_lookup_fmap, lookup_seq_lt by done. done.
Qed.

(** The bins of [fftfreq], once shifted, run from [-(n // 2)] upwards. *)
Lemma fftshift_bins (n : Z) :
  (0 < n)%Z ->
  fftshift (arange 0 ((n - 1) / 2 + 1) ++ arange (- (n / 2)) 0)
  = arange (- (n / 2)) (n - n / 2).
Proof.
  intros Hn.
  assert ((n - 1) / 2 + 1 = n - n / 2)%Z as Hhalf.
  { pose proof (Z.div_mod n 2 ltac:(lia)). pose proof (Z.mod_pos_bound n 2 ltac:(lia)).
    pose proof (Z.div_mod (n - 1) 2 ltac:(lia)).
    pose proof (Z.mod_pos_bound (n - 1) 2 ltac:(lia)). lia. }
  assert (0 <= n / 2 < n)%Z as Hq.
  { split; [apply Z.div_pos; lia | apply Z.div_lt; lia]. }
  rewrite Hhalf. unfold fftshift.
  set (A := arange 0 (n - n / 2)). set (B := arange (- (n / 2)) 0).
  assert (length A = Z.to_nat (n - n / 2)) as HA by (unfold A; rewrite length_arange; lia).
  assert (length B = Z.to_nat (n / 2)) as HB by (unfold B; rewrite length_arange; lia).
  assert ((length (A ++ B) - length (A ++ B) / 2)%nat = length A) as Hk.
  { rewrite length_app, HA, HB.
    replace (Z.to_nat (n - n / 2) + Z.to_nat (n / 2))%nat with (Z.to_nat n) by lia.
    replace (Z.to_nat n / 2)%nat with (Z.to_nat (n / 2)).
    - lia.
    - rewrite <- (Z2Nat.id n) at 1 by lia.
      change 2%Z with (Z.of_nat 2). rewrite <- Nat2Z.inj_div, Nat2Z.id. done. }
  rewrite Hk, drop_app_length, take_app_length.
  unfold A, B. apply arange_app. lia.
Qed.

Lemma update_frequency_array_spec (st : SpectrumProcessor) :
  (0 < fft_size st)%Z -> sample_rate st <> 0 ->
  _update_frequency_array st = Ok (set_frequencies st (frequency_axis st)).
Proof.
  intros Hn Hsr. unfold _update_frequency_array, py_div, fftfreq, frequency_axis.
  destruct (Req_dec_T (sample_rate st) 0) as [|_]; [done|]. cbn [res_bind].
  assert (IZR (fft_size st) <> 0) as HN by (apply not_0_IZR; lia).
  destruct (Req_dec_T (IZR (fft_size st) * (1 / sample_rate st)) 0) as [Hz|_].
  { exfalso. apply Rmult_integral in Hz as [Hz|Hz]; [done|].
    unfold Rdiv in Hz. rewrite Rmult_1_l in Hz.
    by apply (Rinv_neq_0_compat (sample_rate st)). }
  destruct (Z.ltb_spec (fft_size st) 0); [lia|]. cbn [res_bind].
  do 2 f_equal. rewrite fftshift_map, fftshift_bins by done.
  rewrite map_map. apply map_ext. intros k. f_equal. f_equal. by field.
Qed.

Lemma frequencies_up_to_date (st : SpectrumProcessor) :
  (0 < fft_size st)%Z -> sample_rate st <> 0 ->
  (_update_frequency_array st = Ok st <-> frequencies st = frequency_axis st).
Proof.
  intros Hn Hsr. rewrite update_frequency_array_spec by done. split.
  - intros [= H]. apply (f_equal frequencies) in H. by cbn in H.
  - intros H. f_equal. rewrite <- H. by destruct st.
Qed.

End FrequencyAxis.

Section SpectrumFacts.
Import Np Spectrum.
Local Open Scope R_scope.

Lemma length_to_db (p : list R) : length (to_db p) = length p.
Proof. unfold to_db. by rewrite length_map. Qed.

Lemma length_power_of (x : list C) : length (power_of x) = length x.
Proof. unfold power_of. by rewrite length_map. Qed.

Lemma run_fft_eq (st : SpectrumProcessor) (windowed : list C) :
  (0 <= fft_size st)%Z -> length windowed = Z.to_nat (fft_size st) ->
  run_fft st windowed = fft windowed.
Proof.
  intros Hn Hlen. unfold run_fft. destruct (use_fftw st); [|done].
  rewrite full_ok by done. cbn [res_bind].
  rewrite length_replicate, decide_True by done. done.
Qed.

Lemma periodogram_length (w : list R) (frame : list C) :
  frame <> [] -> length w = length frame ->
  length (periodogram w frame) = length frame.
Proof.
  intros Hne Hlen. unfold periodogram.
  destruct (fft (zip_with Cscale frame w)) as [X|e] eqn:HX.
  - rewrite length_power_of, (fft_length _ _ HX), length_zip_with. lia.
  - destruct frame as [|z frame]; [done|]. destruct w as [|r w]; [done|]. done.
Qed.

Lemma length_frame_db (w : list R) (frame : list C) :
  frame <> [] -> length w = length frame ->
  length (frame_db w frame) = length frame.
Proof.
  intros. unfold frame_db.
  by rewrite length_to_db, length_fftshift, periodogram_length.
Qed.

Lemma smooth_fits (st : SpectrumProcessor) (raw : list R) :
  previous_fits st -> length raw = Z.to_nat (fft_size st) ->
  smooth st raw = Ok (smoothed_of st raw).
Proof.
  unfold previous_fits, smooth, smoothed_of. intros Hfit Hraw.
  destruct (enable_smoothing st); [|done].
  destruct (previous_spectrum st) as [previous|]; [|done].
  rewrite broadcast_same by (rewrite !length_map; congruence).
  f_equal. unfold exp_smooth.
  change (@map R R) with (@fmap list _ R R).
  by rewrite zip_with_fmap_l, zip_with_fmap_r.
Qed.

(** The defect: a previous spectrum of another length makes the smoothing
    step raise. *)
Lemma smooth_stale (st : SpectrumProcessor) (raw previous : list R) :
  enable_smoothing st = true -> previous_spectrum st = Some previous ->
  length raw <> length previous -> length raw <> 1%nat ->
  length previous <> 1%nat ->
  exists e, smooth st raw = Raise e.
Proof.
  intros Hen Hprev Hne Hr Hp. unfold smooth. rewrite Hen, Hprev.
  apply broadcast_mismatch; by rewrite !length_map.
Qed.

Lemma smoothed_of_length (st : SpectrumProcessor) (raw : list R) :
  previous_fits st -> length raw = Z.to_nat (fft_size st) ->
  length (smoothed_of st raw) = Z.to_nat (fft_size st).
Proof.
  unfold previous_fits, smoothed_of. intros Hfit Hraw.
  destruct (enable_smoothing st); [|done].
  destruct (previous_spectrum st) as [previous|]; [|done].
  unfold exp_smooth. rewrite length_zip_with. lia.
Qed.

(** One frame of [fft_size] samples. *)
Lemma process_frame_spec (st : SpectrumProcessor) (frame : list C) :
  consistent st -> length frame = Z.to_nat (fft_size st) ->
  process_frame st frame =
    (spectrum_db <- smooth st (frame_db (window st) frame) ;;;
     Ok ((frequencies st, spectrum_db),
         set_previous_spectrum st (Some spectrum_db)))%res.
Proof.
  intros [Hn Hsr Hw Hf Ho Hor Hos] Hlen. unfold process_frame.
  rewrite broadcast_same by congruence. cbn [res_bind].
  rewrite run_fft_eq by (rewrite ?length_zip_with; lia).
  unfold frame_db, periodogram.
  assert (zip_with Cscale frame (window st) <> []) as Hne.
  { intros Hnil. apply (f_equal length) in Hnil.
    rewrite length_zip_with in Hnil. cbn in Hnil. lia. }
  rewrite (fft_ok _ Hne). cbn [res_bind].
  unfold power_of. by rewrite !fftshift_map.
Qed.

Lemma assign_prefix_length {A} (padded samples r : list A) :
  assign_prefix padded samples = Ok r -> length r = length padded.
Proof.
  unfold assign_prefix.
  set (k := Nat.min (length samples) (length padded)).
  assert (k <= length padded)%nat by lia.
  destruct (decide (length samples = k)) as [Hk|Hk].
  - intros [= <-]. rewrite length_app, length_drop. lia.
  - destruct samples as [|x [|x' samples]]; try done.
    intros [= <-]. rewrite length_app, length_replicate, length_drop. lia.
Qed.

(** A chunk of at most [fft_size] samples is padded and goes through
    [process_frame]; the recursive occurrence is not used. *)
Lemma process_samples_body_le F (st : SpectrumProcessor) (samples : list C) :
  (0 <= fft_size st)%Z -> (length samples <= Z.to_nat (fft_size st))%nat ->
  process_samples_body F st samples =
    match process_frame st (pad (Z.to_nat (fft_size st)) samples) with
    | Ok r => r
    | Raise _ => (([], []), st)
    end.
Proof.
  intros Hn Hlen. unfold process_samples_body, pad.
  destruct (Z.ltb_spec (Z.of_nat (length samples)) (fft_size st)) as [Hlt|Hge].
  - rewrite full_ok by done. cbn [res_bind].
    rewrite assign_prefix_short by (rewrite length_replicate; lia).
    cbn [res_bind]. by rewrite drop_replicate.
  - destruct (Z.ltb_spec (fft_size st) (Z.of_nat (length samples))); [lia|].
    replace (Z.to_nat (fft_size st) - length samples)%nat with 0%nat by lia.
    cbn [replicate]. by rewrite app_nil_r.
Qed.

Lemma long_sequence_ext F G (st : SpectrumProcessor) (samples : list C) :
  (forall st' p, (0 <= fft_size st')%Z -> length p = Z.to_nat (fft_size st') ->
                 F st' p = G st' p) ->
  _process_long_sequence F st samples = _process_long_sequence G st samples.
Proof.
  intros HFG. unfold _process_long_sequence.
  destruct (py_floordiv _ _) as [num_frames|e]; [|done]. cbn [res_bind].
  destruct (num_frames <=? 0)%Z; [|done].
  destruct (full Czero (fft_size st)) as [padded0|e] eqn:Hfull; [|done].
  unfold full in Hfull. destruct (Z.ltb_spec (fft_size st) 0) as [|Hn]; [done|].
  injection Hfull as <-. cbn [res_bind].
  destruct (assign_prefix _ samples) as [padded|e] eqn:Hp; [|done].
  cbn [res_bind]. rewrite HFG; [done | done |].
  apply assign_prefix_length in Hp. by rewrite Hp, length_replicate.
Qed.

(** [process_samples] satisfies the recursive equation of the method. *)
Lemma process_samples_fix (st : SpectrumProcessor) (samples : list C) :
  process_samples st samples = process_samples_body process_samples st samples.
Proof.
  unfold process_samples at 1. unfold process_samples_body at 1 3.
  destruct (Z.of_nat (length samples) <? fft_size st)%Z; [done|].
  destruct (fft_size st <? Z.of_nat (length samples))%Z; [|done].
  erewrite long_sequence_ext; [reflexivity|].
  intros st' p Hn Hp. unfold process_samples.
  rewrite !process_samples_body_le by lia. done.
Qed.

Lemma process_samples_le (st : SpectrumProcessor) (samples : list C) :
  (0 <= fft_size st)%Z -> (length samples <= Z.to_nat (fft_size st))%nat ->
  process_samples st samples =
    match process_frame st (pad (Z.to_nat (fft_size st)) samples) with
    | Ok r => r
    | Raise _ => (([], []), st)
    end.
Proof. intros. unfold process_samples. by apply process_samples_body_le. Qed.

Lemma length_pad (N : nat) (samples : list C) :
  (length samples <= N)%nat -> length (pad N samples) = N.
Proof. intros. unfold pad. rewrite length_app, length_replicate. lia. Qed.

(** Chunks of at most [fft_size] samples: one frame, zero-padded on the
    right when shorter. *)
Lemma process_samples_short (st : SpectrumProcessor) (samples : list C) :
  consistent st ->
  (length samples <= Z.to_nat (fft_size st))%nat ->
  process_samples st samples =
    match smooth st (frame_db (window st) (pad (Z.to_nat (fft_size st)) samples)) with
    | Ok s => ((frequencies st, s), set_previous_spectrum st (Some s))
    | Raise _ => (([], []), st)
    end.
Proof.
  intros Hc Hlen. pose proof Hc as [Hn Hsr Hw Hf Ho Hor Hos].
  rewrite process_samples_le by (done || lia).
  rewrite process_frame_spec by (done || by apply length_pad).
  by destruct (smooth st _).
Qed.

Lemma slice_frame {A} (l : list A) (k hop N : nat) :
  (k * hop + N <= length l)%nat ->
  slice l (Z.of_nat k * Z.of_nat hop) (Z.of_nat k * Z.of_nat hop + Z.of_nat N)
  = take N (drop (k * hop) l).
Proof.
  intros H. unfold slice, norm_index.
  destruct (Z.ltb_spec (Z.of_nat k * Z.of_nat hop) 0); [lia|].
  destruct (Z.ltb_spec (Z.of_nat k * Z.of_nat hop + Z.of_nat N) 0); [lia|].
  replace (Z.to_nat (Z.of_nat k * Z.of_nat hop)) with (k * hop)%nat by lia.
  replace (Z.to_nat (Z.of_nat k * Z.of_nat hop + Z.of_nat N)) with (k * hop + N)%nat by lia.
  rewrite !Nat.min_l by lia. f_equal. lia.
Qed.

Lemma vadd_comm (a b : list R) : vadd a b = vadd b a.
Proof.
  unfold vadd. revert b. induction a as [|x a IH]; intros [|y b]; cbn; try done.
  by rewrite Rplus_comm, IH.
Qed.

Lemma vadd_assoc (a b c : list R) : vadd a (vadd b c) = vadd (vadd a b) c.
Proof.
  unfold vadd. revert b c.
  induction a as [|x a IH]; intros [|y b] [|z c]; cbn; try done.
  by rewrite Rplus_assoc, IH.
Qed.

Lemma length_vadd (a b : list R) :
  length a = length b -> length (vadd a b) = length a.
Proof. intros H. unfold vadd. rewrite length_zip_with. lia. Qed.

Lemma length_foldr_vadd (N : nat) (ps : list (list R)) :
  Forall (fun p => length p = N) ps ->
  length (foldr vadd (replicate N 0) ps) = N.
Proof.
  induction 1 as [|p ps Hp _ IH]; cbn [foldr].
  - apply length_replicate.
  - rewrite length_vadd; congruence.
Qed.

Lemma length_mean_power (N : nat) (ps : list (list R)) :
  Forall (fun p => length p = N) ps -> length (mean_power N ps) = N.
Proof. intros. unfold mean_power. by rewrite length_map, length_foldr_vadd. Qed.

(** The frame loop never takes its [break]: it adds one periodogram per
    index to the accumulator. *)
Lemma frame_loop_spec (st : SpectrumProcessor) (samples : list C)
    (hop a m : nat) (acc : list R) (cnt : Z) :
  consistent st ->
  length acc = Z.to_nat (fft_size st) ->
  (forall k, (k < a + m)%nat ->
             (k * hop + Z.to_nat (fft_size st) <= length samples)%nat) ->
  frame_loop st samples (Z.of_nat hop) (Z.of_nat (length samples))
    (map Z.of_nat (seq a m)) acc cnt
  = Ok (fold_left vadd
          (map (fun k => periodogram (window st)
                           (take (Z.to_nat (fft_size st)) (drop (k * hop) samples)))
               (seq a m)) acc,
        (cnt + Z.of_nat m)%Z).
Proof.
  intros Hc. pose proof Hc as [Hn Hsr Hw Hf Ho Hor Hos].
  revert a acc cnt. induction m as [|m IH]; intros a acc cnt Hacc Hin.
  - cbn. do 2 f_equal. lia.
  - cbn [seq map frame_loop fold_left].
    pose proof (Hin a ltac:(lia)) as Ha.
    destruct (Z.ltb_spec (Z.of_nat (length samples))
                (Z.of_nat a * Z.of_nat hop + fft_size st)); [lia|].
    rewrite <- (Z2Nat.id (fft_size st)) at 1 by lia.
    rewrite slice_frame by done.
    set (frame := take (Z.to_nat (fft_size st)) (drop (a * hop) samples)).
    assert (length frame = Z.to_nat (fft_size st)) as Hframe.
    { unfold frame. rewrite length_take, length_drop. lia. }
    rewrite broadcast_same by congruence. cbn [res_bind].
    rewrite run_fft_eq by (rewrite ?length_zip_with; lia).
    assert (zip_with Cscale frame (window st) <> []) as Hne.
    { intros Hnil. apply (f_equal length) in Hnil.
      rewrite length_zip_with in Hnil. cbn in Hnil. lia. }
    assert (length (periodogram (window st) frame) = Z.to_nat (fft_size st)) as Hplen.
    { rewrite periodogram_length; [done | | congruence].
      intros Hnil. rewrite Hnil in Hframe. cbn in Hframe. lia. }
    assert (fft (zip_with Cscale frame (window st))
            = Ok (map (dft_bin (zip_with Cscale frame (window st)))
                    (seq 0 (length (zip_with Cscale frame (window st)))))) as Hfft
      by (by apply fft_ok).
    assert (periodogram (window st) frame
            = power_of (map (dft_bin (zip_with Cscale frame (window st)))
                          (seq 0 (length (zip_with Cscale frame (window st)))))) as Hper
      by (unfold periodogram; by rewrite Hfft).
    rewrite Hfft. cbn [res_bind]. rewrite <- Hper.
    unfold iadd. rewrite decide_True by congruence. cbn [res_bind].
    fold (vadd acc (periodogram (window st) frame)).
    rewrite IH.
    + f_equal. f_equal. lia.
    + rewrite length_vadd; congruence.
    + intros k Hk. apply Hin. lia.
Qed.

Lemma fold_left_vadd (ps : list (list R)) (acc : list R) :
  fold_left vadd ps acc = foldr vadd acc ps.
Proof.
  apply fold_symmetric.
  - intros x y z. apply vadd_assoc.
  - intros y. apply vadd_comm.
Qed.

(** The frames of a chunk longer than [N], [hop] apart, all lie inside it. *)
Lemma frames_in_range (N ov len : Z) (k : nat) :
  (0 <= ov < N)%Z -> (N < len)%Z ->
  (Z.of_nat k < (len - ov) / (N - ov))%Z ->
  (Z.of_nat k * (N - ov) + N <= len)%Z.
Proof.
  intros Hov Hlen Hk.
  pose proof (Z.mul_div_le (len - ov) (N - ov) ltac:(lia)). nia.
Qed.

(** Chunks longer than [fft_size]: the averaged periodogram. *)
Lemma process_samples_long (st : SpectrumProcessor) (samples : list C) :
  consistent st ->
  (Z.to_nat (fft_size st) < length samples)%nat ->
  process_samples st samples =
    match smooth st (welch_db (Z.to_nat (fft_size st))
                       (Z.to_nat (fft_size st - overlap_samples st))
                       (window st) samples) with
    | Ok s => ((frequencies st, s), set_previous_spectrum st (Some s))
    | Raise _ => (([], []), st)
    end.
Proof.
  intros Hc Hlen. pose proof Hc as [Hn Hsr Hw Hf Ho Hor Hos].
  set (N := Z.to_nat (fft_size st)) in *.
  set (hop := Z.to_nat (fft_size st - overlap_samples st)) in *.
  set (q := ((Z.of_nat (length samples) - overlap_samples st)
             / (fft_size st - overlap_samples st))%Z).
  assert (1 <= q)%Z as Hq by (apply Z.div_le_lower_bound; lia).
  assert (forall k, (k < 0 + Z.to_nat q)%nat -> (k * hop + N <= length samples)%nat) as Hin.
  { intros k Hk.
    pose proof (frames_in_range (fft_size st) (overlap_samples st)
                  (Z.of_nat (length samples)) k Ho ltac:(lia) ltac:(fold q; lia)).
    unfold hop, N. nia. }
  unfold process_samples, process_samples_body.
  destruct (Z.ltb_spec (Z.of_nat (length samples)) (fft_size st)); [lia|].
  destruct (Z.ltb_spec (fft_size st) (Z.of_nat (length samples))); [|lia].
  unfold _process_long_sequence, py_floordiv.
  destruct (Z.eqb_spec (fft_size st - overlap_samples st) 0); [lia|].
  cbn [res_bind]. fold q.
  destruct (Z.leb_spec q 0); [lia|].
  rewrite full_ok by lia. cbn [res_bind]. fold N.
  replace (arange 0 q) with (map Z.of_nat (seq 0 (Z.to_nat q)))
    by (unfold arange; rewrite Z.sub_0_r; apply map_ext; intros; lia).
  replace (fft_size st - overlap_samples st)%Z with (Z.of_nat hop) by (unfold hop; lia).
  rewrite (frame_loop_spec st samples hop 0 (Z.to_nat q)); [| done | | done].
  2:{ rewrite length_replicate. done. }
  cbn [res_bind]. destruct (Z.ltb_spec 0 (0 + Z.of_nat (Z.to_nat q))); [|lia].
  fold N.
  set (ps := map (fun k => periodogram (window st) (take N (drop (k * hop) samples)))
                 (seq 0 (Z.to_nat q))).
  assert (Forall (fun p => length p = N) ps) as Hps.
  { unfold ps. apply Forall_forall. intros p Hp.
    apply list_elem_of_In, in_map_iff in Hp as (k & <- & Hk).
    apply in_seq in Hk.
    assert (length (take N (drop (k * hop) samples)) = N) as Hfr.
    { rewrite length_take, length_drop. pose proof (Hin k ltac:(lia)). lia. }
    rewrite periodogram_length; [done | | congruence].
    intros Hnil. rewrite Hnil in Hfr. cbn in Hfr. lia. }
  assert (welch_db N hop (window st) samples
          = to_db (fftshift (map (fun p => p / IZR (0 + Z.of_nat (Z.to_nat q)))
                               (fold_left vadd ps (replicate N 0))))) as Hw'.
  { unfold welch_db, mean_power, welch_frames. rewrite map_map. fold N.
    replace ((length samples - (N - hop)) / hop)%nat with (Z.to_nat q).
    - fold ps. rewrite fold_left_vadd. do 2 f_equal.
      apply map_ext. intros p. f_equal.
      unfold ps. rewrite length_map, length_seq, INR_IZR_INZ. f_equal.
    - unfold q. replace (N - hop)%nat with (Z.to_nat (overlap_samples st))
        by (unfold N, hop; lia).
      rewrite <- (Nat2Z.id ((length samples - Z.to_nat (overlap_samples st)) / hop)).
      f_equal. rewrite Nat2Z.inj_div. f_equal; unfold hop; lia. }
  rewrite <- Hw'. by destruct (smooth st _).
Qed.

Lemma length_raw_of (st : SpectrumProcessor) (samples : list C) :
  consistent st -> length (raw_of st samples) = Z.to_nat (fft_size st).
Proof.
  intros Hc. pose proof Hc as [Hn Hsr Hw Hf Ho Hor Hos].
  unfold raw_of, raw_spectrum.
  destruct (decide (length samples <= Z.to_nat (fft_size st))%nat) as [Hle|Hgt].
  - rewrite length_frame_db; rewrite ?length_pad; try done.
    intros Hnil. apply (f_equal length) in Hnil. rewrite length_pad in Hnil by done.
    cbn in Hnil. lia.
  - unfold welch_db. rewrite length_to_db, length_fftshift, length_mean_power; [done|].
    apply Forall_forall. intros p Hp.
    apply list_elem_of_In, in_map_iff in Hp as (fr & <- & Hfr).
    unfold welch_frames in Hfr. apply in_map_iff in Hfr as (k & <- & Hk).
    apply in_seq in Hk.
    set (N := Z.to_nat (fft_size st)) in *.
    set (hop := Z.to_nat (fft_size st - overlap_samples st)) in *.
    assert (N - hop = Z.to_nat (overlap_samples st))%nat as Hov by (unfold N, hop; lia).
    rewrite Hov in Hk.
    assert (k * hop + N <= length samples)%nat as Hin.
    { assert (S k * hop <= length samples - Z.to_nat (overlap_samples st))%nat.
      { etrans; [|apply (Nat.Div0.mul_div_le _ hop)].
        rewrite (Nat.mul_comm hop). apply Nat.mul_le_mono_r. lia. }
      unfold N, hop in *. lia. }
    assert (length (take N (drop (k * hop) samples)) = N) as Hfr
      by (rewrite length_take, length_drop; lia).
    rewrite periodogram_length; [done | | congruence].
    intros Hnil. rewrite Hnil in Hfr. cbn in Hfr. unfold N in Hfr. lia.
Qed.

(** What [process_samples] does between two calls that keep the state
    consistent: it returns the cached frequency axis and the raw spectrum of
    the chunk, smoothed against the previous output if there is one, and
    keeps that output as the new previous spectrum. *)
Lemma process_samples_gen (st : SpectrumProcessor) (samples : list C) :
  consistent st ->
  process_samples st samples =
    match smooth st (raw_of st samples) with
    | Ok s => ((frequencies st, s), set_previous_spectrum st (Some s))
    | Raise _ => (([], []), st)
    end.
Proof.
  intros Hc. unfold raw_of, raw_spectrum.
  destruct (decide (length samples <= Z.to_nat (fft_size st))%nat) as [Hle|Hgt].
  - by apply process_samples_short.
  - apply process_samples_long; [done | lia].
Qed.

Lemma process_samples_spec (st : SpectrumProcessor) (samples : list C) :
  consistent st -> previous_fits st ->
  let s := smoothed_of st (raw_of st samples) in
  process_samples st samples =
    ((frequencies st, s), set_previous_spectrum st (Some s)).
Proof.
  intros Hc Hfit. cbn zeta. rewrite process_samples_gen by done.
  by rewrite smooth_fits by (done || by apply length_raw_of).
Qed.

(** The defect at work: with a previous spectrum of another length, every
    call returns two empty arrays and leaves the state as it is. *)
Lemma process_samples_stale (st : SpectrumProcessor) (previous : list R)
    (samples : list C) :
  consistent st -> enable_smoothing st = true ->
  previous_spectrum st = Some previous ->
  length previous <> Z.to_nat (fft_size st) -> length previous <> 1%nat ->
  fft_size st <> 1%Z ->
  process_samples st samples = (([], []), st).
Proof.
  intros Hc Hen Hprev Hne Hp1 Hn1. rewrite process_samples_gen by done.
  destruct (smooth_stale st (raw_of st samples) previous Hen Hprev) as [e ->];
    rewrite ?length_raw_of by done; try done; try congruence.
  destruct Hc. lia.
Qed.

Lemma process_samples_keeps (st : SpectrumProcessor) (samples : list C) :
  consistent st -> previous_fits st ->
  consistent (process_samples st samples).2 /\
  previous_fits (process_samples st samples).2 /\
  length (process_samples st samples).1.2 = Z.to_nat (fft_size st).
Proof.
  intros Hc Hfit. rewrite process_samples_spec by done. cbn [fst snd].
  pose proof (smoothed_of_length st (raw_of st samples) Hfit (length_raw_of st samples Hc)).
  split; [|split; [|done]].
  - destruct Hc as [Hn Hsr Hw Hf Ho Hor Hos]. split; try done.
    apply frequencies_up_to_date; [done | done |].
    by apply frequencies_up_to_date in Hf.
  - unfold previous_fits. cbn. done.
Qed.

End SpectrumFacts.

Section ConfigFacts.
Import Np Spectrum.
Local Open Scope R_scope.
Variable i0 : R -> R.

Lemma length_window_grid (M : Z) : length (window_grid M) = Z.to_nat M.
Proof. unfold window_grid. by rewrite length_map, length_seq. Qed.

Lemma create_window_ok (wt : string) (N : Z) :
  (1 <= N)%Z ->
  exists w, _create_window i0 wt N = Ok w /\ length w = Z.to_nat N.
Proof.
  intros HN. unfold _create_window, hanning, hamming, blackman, kaiser.
  destruct (Z.ltb_spec N 1); [lia|].
  repeat match goal with |- context [String.eqb ?a ?b] => destruct (String.eqb a b) end.
  1-4: eexists; split; [reflexivity|];
       destruct (Z.eqb_spec N 1) as [->|]; [done|];
       rewrite length_map, ?length_window_grid, ?length_arange; f_equal; lia.
  rewrite full_ok by lia. eexists; split; [reflexivity|]. by rewrite length_replicate.
Qed.

Lemma py_int_overlap (N : Z) (ov : R) :
  (0 < N)%Z -> 0 <= ov < 1 -> (0 <= py_int (IZR N * ov) < N)%Z.
Proof.
  intros HN Hov. unfold py_int.
  assert (0 < IZR N) by (by apply IZR_lt).
  assert (0 <= IZR N * ov) by nra.
  destruct (Rle_dec 0 (IZR N * ov)); [|done].
  pose proof (Zfloor_bound (IZR N * ov)) as [Hlo Hhi]. split.
  - by apply Zfloor_lub.
  - apply lt_IZR. nra.
Qed.

Lemma py_int_half (N : Z) : (0 <= N)%Z -> py_int (IZR N * 0.5) = (N / 2)%Z.
Proof.
  intros HN. unfold py_int.
  assert (0 <= IZR N) by (by apply IZR_le).
  destruct (Rle_dec 0 (IZR N * 0.5)); [|lra].
  apply Zfloor_eq.
  pose proof (Z.div_mod N 2 ltac:(lia)) as Hdm.
  pose proof (Z.mod_pos_bound N 2 ltac:(lia)) as Hm.
  assert (IZR N = 2 * IZR (N / 2) + IZR (N mod 2)) as HR
    by (rewrite Hdm at 1; by rewrite plus_IZR, mult_IZR).
  assert (0 <= IZR (N mod 2) <= 1) by (split; apply IZR_le; lia).
  lra.
Qed.

(** The constructor, for a positive size, a non-zero rate and an overlap
    factor in [0, 1). *)
Lemma init_ok (N : Z) (sr ov : R) (wt : string) (fftw : bool) :
  (0 < N)%Z -> sr <> 0 -> 0 <= ov < 1 ->
  exists st,
    SpectrumProcessor_init i0 N sr ov wt fftw = Ok st /\
    consistent st /\ previous_spectrum st = None /\
    fft_size st = N /\ sample_rate st = sr /\ overlap st = ov /\
    center_frequency st = 100e6 /\ window_type st = wt /\
    enable_smoothing st = true /\ smoothing_factor st = 0.3 /\
    _create_window i0 wt N = Ok (window st).
Proof.
  intros HN Hsr Hov. unfold SpectrumProcessor_init.
  destruct (create_window_ok wt N ltac:(lia)) as (w & -> & Hw). cbn [res_bind].
  rewrite update_frequency_array_spec by done. cbn [res_bind].
  pose proof (py_int_overlap N ov HN Hov) as Hpi.
  rewrite full_ok by lia. cbn [res_bind].
  eexists. split; [reflexivity|].
  split; [|by repeat split].
  split; cbn [fft_size sample_rate window overlap_samples overlap];
    try done; try lia; try apply Hov.
  by apply frequencies_up_to_date.
Qed.

Local Abbreviation same_smoothing st st' :=
  (previous_spectrum st' = previous_spectrum st /\
   enable_smoothing st' = enable_smoothing st /\
   smoothing_factor st' = smoothing_factor st).

Lemma update_fft_size_smoothing (st : SpectrumProcessor) (n : Z) :
  same_smoothing st (update_fft_size i0 st n).2.
Proof.
  unfold update_fft_size.
  destruct (_create_window i0 _ n) as [w|e]; [|done].
  destruct (full Czero _) as [buf|e]; done.
Qed.

Lemma update_frequency_array_smoothing (st st' : SpectrumProcessor) :
  _update_frequency_array st = Ok st' -> same_smoothing st st'.
Proof.
  unfold _update_frequency_array.
  destruct (py_div 1 (sample_rate st)) as [d|e]; [|done]. cbn [res_bind].
  destruct (fftfreq (fft_size st) d) as [bins|e]; [|done]. cbn [res_bind].
  by intros [= <-].
Qed.

(** [update_config] never touches the smoothing state. *)
Lemma update_config_smoothing_state (st : SpectrumProcessor)
    (a b : option R) (c : option Z) :
  same_smoothing st (update_config i0 st a b c).2.
Proof.
  unfold update_config.
  set (p1 := match a with Some sr => _ | None => _ end).
  assert (same_smoothing st p1.1) as H1.
  { unfold p1. destruct a as [sr|]; [destruct (Req_dec_T sr _)|]; done. }
  destruct p1 as [st1 u1]. cbn [fst] in H1.
  set (p2 := match b with Some cf => _ | None => _ end).
  assert (same_smoothing st1 p2.1) as H2.
  { unfold p2. destruct b as [cf|]; [destruct (Req_dec_T cf _)|]; done. }
  destruct p2 as [st2 u2]. cbn [fst] in H2.
  set (p3 := match c with Some fs => _ | None => _ end).
  assert (same_smoothing st2 p3.1.2) as H3.
  { unfold p3. destruct c as [fs|]; [destruct (fs =? _)%Z|]; try done.
    pose proof (update_fft_size_smoothing st2 fs).
    by destruct (update_fft_size i0 st2 fs). }
  destruct p3 as [[r3 st3] u3]. cbn [fst snd] in H3.
  assert (same_smoothing st st3) as H
    by (destruct H1 as (? & ? & ?), H2 as (? & ? & ?), H3 as (? & ? & ?);
        repeat split; congruence).
  destruct r3 as [[]|e]; [|done].
  destruct u3; [|done].
  destruct (_update_frequency_array st3) as [st4|e] eqn:H4; [|done].
  apply update_frequency_array_smoothing in H4.
  destruct H as (? & ? & ?), H4 as (? & ? & ?). cbn [snd].
  repeat split; congruence.
Qed.

(** Everything in [consistent] but the frequency axis. *)
Local Abbreviation sized st :=
  (Z.lt 0 (fft_size st) /\ sample_rate st <> 0 /\
   length (window st) = Z.to_nat (fft_size st) /\
   (Z.le 0 (overlap_samples st) /\ Z.lt (overlap_samples st) (fft_size st)) /\
   0 <= overlap st < 1 /\
   overlap_samples st = py_int (IZR (fft_size st) * overlap st)).

Lemma sized_consistent (st : SpectrumProcessor) :
  sized st -> consistent (set_frequencies st (frequency_axis st)).
Proof.
  intros (Hn & Hsr & Hw & Ho & Hor & Hos). split; try done.
  by apply frequencies_up_to_date.
Qed.

Lemma update_fft_size_ok (st : SpectrumProcessor) (n : Z) :
  sized st -> (0 < n)%Z ->
  exists st' w,
    update_fft_size i0 st n = (Ok tt, st') /\ sized st' /\
    _create_window i0 (window_type st) n = Ok w /\ window st' = w /\
    fft_size st' = n /\ sample_rate st' = sample_rate st /\
    center_frequency st' = center_frequency st /\
    overlap st' = overlap st /\ window_type st' = window_type st.
Proof.
  intros (Hn & Hsr & Hw & Ho & Hor & Hos) Hpos. unfold update_fft_size.
  cbn [window_type set_fft_size].
  destruct (create_window_ok (window_type st) n ltac:(lia)) as (w & Hcw & Hlen).
  rewrite Hcw.
  pose proof (py_int_overlap n (overlap st) Hpos Hor) as Hpi.
  cbn [overlap_samples set_overlap_samples overlap set_window set_fft_size].
  rewrite full_ok by lia.
  eexists _, w. split; [reflexivity|]. cbn. repeat split; try done; lia || apply Hor.
Qed.

(** A reconfiguration to a positive size and a non-zero rate is applied as
    asked, whatever the size. *)
Lemma update_config_ok (st : SpectrumProcessor) (a b : option R) (c : option Z) :
  consistent st ->
  (forall sr, a = Some sr -> sr <> 0) ->
  (forall n, c = Some n -> (0 < n)%Z) ->
  exists st',
    update_config i0 st a b c = (Ok tt, st') /\ consistent st' /\
    sample_rate st' = default (sample_rate st) a /\
    center_frequency st' = default (center_frequency st) b /\
    fft_size st' = default (fft_size st) c /\
    overlap st' = overlap st /\ window_type st' = window_type st /\
    (fft_size st' = fft_size st -> window st' = window st) /\
    (fft_size st' <> fft_size st ->
     _create_window i0 (window_type st) (fft_size st') = Ok (window st')).
Proof.
  intros Hc Ha Hcn. pose proof Hc as [Hn Hsr Hw Hf Ho Hor Hos].
  apply frequencies_up_to_date in Hf; [|done..].
  unfold update_config.
  set (p1 := match a with Some sr => _ | None => _ end).
  assert (sized p1.1 /\ sample_rate p1.1 = default (sample_rate st) a /\
          center_frequency p1.1 = center_frequency st /\
          fft_size p1.1 = fft_size st /\ overlap p1.1 = overlap st /\
          window_type p1.1 = window_type st /\ window p1.1 = window st /\
          frequencies p1.1 = frequencies st /\
          (p1.2 = false -> frequency_axis p1.1 = frequency_axis st)) as H1.
  { unfold p1. destruct a as [sr|]; [destruct (Req_dec_T sr _) as [->|]|];
      cbn; repeat split; try done; try lia; try lra. by apply Ha. }
  destruct p1 as [st1 u1]. cbn [fst snd] in H1.
  destruct H1 as ((Hn1 & Hsr1 & Hw1 & Ho1 & Hor1 & Hos1) & Hr1 & Hc1 & Hs1 & Hv1 & Ht1 & Hww1 & Hfr1 & Hu1).
  set (p2 := match b with Some cf => _ | None => _ end).
  assert (sized p2.1 /\ sample_rate p2.1 = default (sample_rate st) a /\
          center_frequency p2.1 = default (center_frequency st) b /\
          fft_size p2.1 = fft_size st /\ overlap p2.1 = overlap st /\
          window_type p2.1 = window_type st /\ window p2.1 = window st /\
          frequencies p2.1 = frequencies st /\
          (p2.2 = false -> frequency_axis p2.1 = frequency_axis st)) as H2.
  { unfold p2. destruct b as [cf|]; [destruct (Req_dec_T cf _) as [->|]|];
      cbn; repeat split; try done; try lia; try lra; try congruence. }
  clearbody p2. destruct p2 as [st2 u2]. cbn [fst snd] in H2.
  destruct H2 as (Hz2 & Hr2 & Hc2 & Hs2 & Hv2 & Ht2 & Hww2 & Hfr2 & Hu2).
  set (p3 := match c with Some fs => _ | None => _ end).
  assert (p3.1.1 = Ok tt /\ sized p3.1.2 /\
          sample_rate p3.1.2 = default (sample_rate st) a /\
          center_frequency p3.1.2 = default (center_frequency st) b /\
          fft_size p3.1.2 = default (fft_size st) c /\
          overlap p3.1.2 = overlap st /\ window_type p3.1.2 = window_type st /\
          (fft_size p3.1.2 = fft_size st -> window p3.1.2 = window st) /\
          (fft_size p3.1.2 <> fft_size st ->
           _create_window i0 (window_type st) (fft_size p3.1.2) = Ok (window p3.1.2)) /\
          (p3.2 = false -> p3.1.2 = st2 /\ frequency_axis st2 = frequency_axis st)) as H3.
  { unfold p3. destruct c as [fs|]; [destruct (Z.eqb_spec fs (fft_size st2)) as [->|Hne]|].
    - destruct Hz2 as (? & ? & ? & [? ?] & [? ?] & ?).
      cbn. repeat split; try done; try lia; try lra; try congruence; try (by apply Hu2).
    - destruct (update_fft_size_ok st2 fs Hz2 (Hcn fs eq_refl))
        as (st3 & w & -> & Hz3 & Hcw & Hw3 & Hs3 & Hr3 & Hc3 & Hv3 & Ht3).
      destruct Hz3 as (? & ? & ? & [? ?] & [? ?] & ?).
      cbn. repeat split; try done; try lia; try lra; try congruence.
      all: try (intros _; rewrite Hw3, Hs3, <- Hcw, Ht2; done).
    - destruct Hz2 as (? & ? & ? & [? ?] & [? ?] & ?).
      cbn. repeat split; try done; try lia; try lra; try congruence; try (by apply Hu2). }
  clearbody p3. destruct p3 as [[r3 st3] u3]. cbn [fst snd] in H3.
  destruct H3 as (-> & Hz3 & Hr3 & Hc3 & Hs3 & Hv3 & Ht3 & Hwk3 & Hwn3 & Hu3).
  destruct u3.
  - rewrite update_frequency_array_spec by apply Hz3.
    eexists. split; [reflexivity|].
    split; [by apply sized_consistent|]. cbn. repeat split; done.
  - destruct (Hu3 eq_refl) as [-> Hax]. exists st2. split; [done|].
    split; [|repeat split; done].
    destruct Hz3 as (? & ? & ? & ? & ? & ?). split; try done.
    apply frequencies_up_to_date; [done | done | congruence].
Qed.

End ConfigFacts.

Section SpectrumClaims.
Import Np Spectrum.
Local Open Scope R_scope.

Lemma half_hop (st : SpectrumProcessor) :
  consistent st -> overlap st = 0.5 -> Z.even (fft_size st) = true ->
  Z.to_nat (fft_size st - overlap_samples st) = (Z.to_nat (fft_size st) / 2)%nat.
Proof.
  intros [Hn Hsr Hw Hf Ho Hor Hos] Hhalf Heven.
  rewrite Hos, Hhalf, py_int_half by lia.
  apply Z.even_spec in Heven as [m Hm].
  rewrite Hm. replace (2 * m / 2)%Z with m by (apply Z.div_unique_exact; lia).
  replace (Z.to_nat (2 * m)) with (2 * Z.to_nat m)%nat by lia.
  replace (2 * Z.to_nat m / 2)%nat with (Z.to_nat m)
    by (apply Nat.div_unique_exact; lia).
  lia.
Qed.

(** What [process_samples] computes for each length of chunk, through the
    transform and the conversions of the code. *)
Lemma process_samples_by_length (st : SpectrumProcessor) (samples : list C) :
  consistent st -> previous_fits st ->
  overlap st = 0.5 -> Z.even (fft_size st) = true ->
  let N := Z.to_nat (fft_size st) in
  let raw :=
    if decide (N < length samples)%nat
    then welch_db N (N / 2) (window st) samples
    else if decide (length samples = N)
         then frame_db (window st) samples
         else frame_db (window st) (samples ++ replicate (N - length samples) Czero) in
  process_samples st samples =
    ((frequencies st, smoothed_of st raw),
     set_previous_spectrum st (Some (smoothed_of st raw))).
Proof.
  intros Hc Hfit Hhalf Heven N raw.
  rewrite process_samples_spec by done. cbn zeta.
  assert (raw_of st samples = raw) as ->; [|done].
  unfold raw_of, raw_spectrum, raw. fold N.
  rewrite (half_hop st Hc Hhalf Heven). fold N.
  destruct (decide (length samples <= N)%nat);
    destruct (decide (N < length samples)%nat); try lia; [|done].
  destruct (decide (length samples = N)) as [Heq|]; [|done].
  unfold pad. rewrite Heq, Nat.sub_diag. cbn [replicate]. by rewrite app_nil_r.
Qed.

(** The code's power and decibel conversions are the spec's. *)
Lemma power_of_spec (X : list C) : power_of X = map spec_power X.
Proof.
  unfold power_of. apply map_ext. intros z. unfold Cabs, spec_power.
  apply pow2_sqrt.
  pose proof (Rle_0_sqr (fst z)). pose proof (Rle_0_sqr (snd z)).
  unfold Rsqr in *. lra.
Qed.

Lemma to_db_spec (power : list R) : to_db power = map spec_db power.
Proof. reflexivity. Qed.

Lemma periodogram_spec (w : list R) (frame : list C) :
  periodogram w frame = spec_periodogram w frame.
Proof.
  unfold periodogram, spec_periodogram, fft.
  destruct (zip_with Cscale frame w) as [|x0 x] eqn:Hx; [done|].
  by rewrite power_of_spec, map_map.
Qed.

Lemma frame_db_spec (w : list R) (frame : list C) :
  frame_db w frame = spec_frame_db w frame.
Proof. unfold frame_db, spec_frame_db. by rewrite periodogram_spec, to_db_spec. Qed.

Lemma welch_db_spec (N hop : nat) (w : list R) (samples : list C) :
  welch_db N hop w samples = spec_welch_db N hop w samples.
Proof.
  unfold welch_db, spec_welch_db. rewrite to_db_spec. do 3 f_equal.
  apply map_ext. intros frame. apply periodogram_spec.
Qed.

(** C5. With the default overlap factor 0.5 and an even FFT size [N]: a
    chunk longer than [N] is cut into frames of [N] samples that start every
    [N/2] samples; each frame is windowed and transformed, the power
    [re^2 + im^2] of every bin is taken, the powers are averaged over the
    frames bin by bin, and the average is converted to decibels,
    [10 * log10 (max (p, 1e-10))], once ([spec_welch_db]).  A chunk of
    exactly [N] samples is one windowed frame; a shorter chunk is zero-padded
    on the right to [N] samples ([spec_frame_db]).  In each case the result
    then goes through the smoothing step and is returned with the frequency
    axis. *)
Theorem long_chunk_averaging (st : SpectrumProcessor) (samples : list C) :
  consistent st -> previous_fits st ->
  overlap st = 0.5 -> Z.even (fft_size st) = true ->
  let N := Z.to_nat (fft_size st) in
  let raw :=
    if decide (N < length samples)%nat
    then spec_welch_db N (N / 2) (window st) samples
    else if decide (length samples = N)
         then spec_frame_db (window st) samples
         else spec_frame_db (window st)
                (samples ++ replicate (N - length samples) Czero) in
  process_samples st samples =
    ((frequencies st, smoothed_of st raw),
     set_previous_spectrum st (Some (smoothed_of st raw))).
Proof.
  intros Hc Hfit Hhalf Heven N raw.
  rewrite (process_samples_by_length st samples Hc Hfit Hhalf Heven). cbn zeta.
  fold N.
  assert ((if decide (N < length samples)%nat
           then welch_db N (N / 2) (window st) samples
           else if decide (length samples = N)
                then frame_db (window st) samples
                else frame_db (window st)
                       (samples ++ replicate (N - length samples) Czero)) = raw)
    as ->; [|done].
  unfold raw. rewrite welch_db_spec, !frame_db_spec. done.
Qed.

(** The periodogram of a frame of four samples whose only non-zero sample
    is a unit sample at index 1: the squared window tap, in every bin. *)
Lemma impulse_bin_power (w0 w1 w2 w3 : R) (k : nat) :
  spec_power (dft_bin [Cscale Czero w0; Cscale (1, 0) w1;
                       Cscale Czero w2; Cscale Czero w3] k) = w1 * w1.
Proof.
  unfold spec_power, dft_bin, Csum, Cadd, Cmul, Cscale, cis, Czero.
  cbn [imap foldr fst snd length]. unfold compose. cbn [fst snd].
  set (t := - (2 * PI * INR k * INR 1 / INR 4)).
  pose proof (sin2_cos2 t) as Ht. unfold Rsqr in Ht.
  replace (w1 * w1) with (w1 * w1 * (sin t * sin t + cos t * cos t)) by (rewrite Ht; ring).
  ring.
Qed.

Lemma silent_bin_power (w0 w1 w2 w3 : R) (k : nat) :
  spec_power (dft_bin [Cscale Czero w0; Cscale Czero w1;
                       Cscale Czero w2; Cscale Czero w3] k) = 0.
Proof.
  unfold spec_power, dft_bin, Csum, Cadd, Cmul, Cscale, cis, Czero.
  cbn [imap foldr fst snd length]. unfold compose. cbn [fst snd]. ring.
Qed.

Lemma hanning_4_taps : hanning 4 = [0; 0.75; 0.75; 0].
Proof.
  assert (cos (PI / 3) = 1 / 2) as H3 by apply cos_PI3.
  change (hanning 4) with [0.5 + 0.5 * cos (PI * IZR (-3) / IZR 3);
                           0.5 + 0.5 * cos (PI * IZR (-1) / IZR 3);
                           0.5 + 0.5 * cos (PI * IZR 1 / IZR 3);
                           0.5 + 0.5 * cos (PI * IZR 3 / IZR 3)].
  replace (PI * IZR (-3) / IZR 3) with (- PI) by field.
  replace (PI * IZR (-1) / IZR 3) with (- (PI / 3)) by field.
  replace (PI * IZR 1 / IZR 3) with (PI / 3) by field.
  replace (PI * IZR 3 / IZR 3) with PI by field.
  rewrite !cos_neg, cos_PI, H3.
  f_equal; [lra|]. f_equal; [lra|]. f_equal; [lra|]. f_equal. lra.
Qed.

(** The Hann-windowed spectrum of [impulse8] with frames of four samples
    every two samples: the three frames have the powers 0.5625, 0 and 0 in
    every bin; their mean is 0.1875, converted to decibels once.  (The mean
    of the frames' decibel values would be
    [(10 log10 0.5625 - 100 - 100) / 3].) *)
Lemma impulse8_spectrum :
  spec_welch_db 4 2 (hanning 4) impulse8 = replicate 4 (10 * (ln 0.1875 / ln 10)).
Proof.
  rewrite hanning_4_taps. unfold spec_welch_db, welch_frames, impulse8.
  cbn [length Nat.sub Nat.div Nat.divmod fst seq map Nat.mul Nat.add take drop].
  unfold spec_periodogram. cbn [zip_with length seq map].
  rewrite !impulse_bin_power, !silent_bin_power.
  unfold mean_power, vadd, fftshift.
  cbn [replicate foldr zip_with map length Nat.sub Nat.div Nat.divmod fst
       take drop app INR].
  unfold spec_db.
  replace ((0.75 * 0.75 + (0 + (0 + 0))) / (1 + 1 + 1)) with 0.1875 by lra.
  rewrite Rmax_left by lra. done.
Qed.

(** On this chunk the order of the two steps shows: the decibel value of
    the mean power lies above the mean of the three frames' decibel values,
    which the two silent frames pull towards the floor. *)
Lemma impulse8_not_mean_of_db :
  (spec_db 0.5625 + spec_db 0 + spec_db 0) / 3 < 10 * (ln 0.1875 / ln 10).
Proof.
  unfold spec_db. rewrite (Rmax_left 0.5625) by lra. rewrite (Rmax_right 0) by lra.
  assert (0 < ln 10) as HL by (rewrite <- ln_1; apply ln_increasing; lra).
  assert (ln 0.5625 < 0) as Hb by (rewrite <- ln_1; apply ln_increasing; lra).
  assert (ln (0.1875 * 0.1875 * 0.1875) = 3 * ln 0.1875) as H3
    by (rewrite !ln_mult by lra; ring).
  assert (ln (1e-10 * 1e-10) = 2 * ln 1e-10) as H2
    by (rewrite ln_mult by lra; ring).
  assert (ln (1e-10 * 1e-10) < ln (0.1875 * 0.1875 * 0.1875)) as Hlt
    by (apply ln_increasing; lra).
  rewrite H3, H2 in Hlt.
  assert (0 < / ln 10) as Hinv by (by apply Rinv_0_lt_compat).
  unfold Rdiv. nra.
Qed.

(** The frequency axis of a consistent state: bin [i] lies at
    [center + (i - N/2) * (sample_rate / N)] when [N] is even, and the axis
    increases strictly when the sample rate is positive. *)
Lemma frequency_axis_bins (st : SpectrumProcessor) :
  consistent st ->
  length (frequencies st) = Z.to_nat (fft_size st) /\
  (Z.even (fft_size st) = true ->
   forall i, (i < Z.to_nat (fft_size st))%nat ->
             frequencies st !! i = Some (bin_frequency st i)) /\
  (0 < sample_rate st ->
   forall i j x y, (i < j)%nat -> frequencies st !! i = Some x ->
                   frequencies st !! j = Some y -> x < y).
Proof.
  intros [Hn Hsr Hw Hf Ho Hor Hos].
  apply frequencies_up_to_date in Hf; [|done..]. rewrite Hf. unfold frequency_axis.
  assert (0 <= fft_size st / 2 < fft_size st)%Z as Hq
    by (split; [apply Z.div_pos; lia | apply Z.div_lt; lia]).
  assert (0 < IZR (fft_size st)) as HN by (by apply IZR_lt).
  change (@map Z R) with (@fmap list _ Z R).
  split; [|split].
  - rewrite length_fmap, length_arange. f_equal. lia.
  - intros Heven i Hi. rewrite list_lookup_fmap, arange_lookup by lia.
    cbn. f_equal. unfold bin_frequency.
    apply Z.even_spec in Heven as [m Hm].
    replace (fft_size st / 2)%Z with m in * by (rewrite Hm; apply Z.div_unique_exact; lia).
    rewrite plus_IZR, opp_IZR, <- INR_IZR_INZ, Hm, mult_IZR. field.
    apply not_0_IZR. lia.
  - intros Hpos i j x y Hij Hx Hy.
    rewrite list_lookup_fmap in Hx, Hy.
    assert (j < Z.to_nat (fft_size st - fft_size st / 2 - - (fft_size st / 2)))%nat as Hj.
    { destruct (arange _ _ !! j) eqn:E; [|done].
      apply lookup_lt_Some in E. by rewrite length_arange in E. }
    rewrite arange_lookup in Hx, Hy by lia. cbn in Hx, Hy.
    injection Hx as <-. injection Hy as <-.
    assert (IZR (- (fft_size st / 2) + Z.of_nat i) < IZR (- (fft_size st / 2) + Z.of_nat j))
      by (apply IZR_lt; lia).
    assert (0 < sample_rate st / IZR (fft_size st)) by (by apply Rdiv_lt_0_compat).
    nra.
Qed.

(** The shape of a cycle's output when the smoothing state fits: both
    arrays have [fft_size] entries. *)
Lemma spectrum_shape (st : SpectrumProcessor) (samples : list C) :
  consistent st -> previous_fits st ->
  length (process_samples st samples).1.1 = Z.to_nat (fft_size st) /\
  length (process_samples st samples).1.2 = Z.to_nat (fft_size st).
Proof.
  intros Hc Hfit. split.
  - rewrite process_samples_spec by done. cbn. by apply frequency_axis_bins.
  - by apply process_samples_keeps.
Qed.

End SpectrumClaims.

Lemma long_chunk_averaging_witness :
  exists st,
    Spectrum.SpectrumProcessor_init Spectrum.i0_unused 4 2400000 0.5 "hann" false = Ok st /\
    let s := replicate 4 (10 * (ln 0.1875 / ln 10))%R in
    Spectrum.process_samples st Spectrum.impulse8 =
      ((Spectrum.frequencies st, s), Spectrum.set_previous_spectrum st (Some s)).
Proof.
  destruct (init_ok Spectrum.i0_unused 4 2400000 0.5 "hann" false)
    as (st & Hinit & Hc & Hprev & Hfs & Hsr & Hov & _ & _ & Hen & _ & Hwin);
    [lia | lra | lra |].
  exists st. split; [exact Hinit|].
  assert (Spectrum.window st = Np.hanning 4) as Hw
    by (cbn in Hwin; by injection Hwin).
  assert (Spectrum.previous_fits st) as Hfit
    by (unfold Spectrum.previous_fits; by rewrite Hprev).
  assert (Z.even (Spectrum.fft_size st) = true) as Heven by (by rewrite Hfs).
  pose proof (long_chunk_averaging st Spectrum.impulse8 Hc Hfit Hov Heven) as H.
  cbn zeta in H. rewrite Hfs, Hw in H.
  assert (length Spectrum.impulse8 = 8%nat) as Hlen by reflexivity.
  rewrite Hlen in H.
  destruct (decide (Z.to_nat 4 < 8)%nat) as [_|Hn]; [|exfalso; apply Hn; cbn; lia].
  unfold Spectrum.smoothed_of in H. rewrite Hen, Hprev in H.
  change (Z.to_nat 4 / 2)%nat with 2%nat in H. change (Z.to_nat 4) with 4%nat in H.
  rewrite impulse8_spectrum in H. exact H.
Defined.

(** ** Reconfiguration *)

(** C2. The shape invariant is lost after a change of FFT size.  A
    processor is built with [fft_size = 4], processes one chunk (both arrays
    then have 4 entries), and is reconfigured to [fft_size = 8]:
    [update_config] rebuilds the window and the frequency axis but keeps the
    previous spectrum of 4 entries, the smoothing step of every later
    [process_samples] call raises, and the call returns two empty arrays,
    whatever the chunk. *)
Theorem spectrum_shape_lost_after_resize :
  exists st0 out1 st1 st2,
    Spectrum.SpectrumProcessor_init Spectrum.i0_unused 4 2400000 0.5 "hann" false = Ok st0 /\
    Spectrum.process_samples st0 (Spectrum.silence 4) = (out1, st1) /\
    length out1.1 = 4 /\ length out1.2 = 4 /\
    Spectrum.update_config Spectrum.i0_unused st1 None None (Some 8%Z) = (Ok tt, st2) /\
    Spectrum.fft_size st2 = 8%Z /\
    length (Spectrum.window st2) = 8 /\
    length (Spectrum.frequencies st2) = 8 /\
    forall samples, Spectrum.process_samples st2 samples = (([], []), st2).
Proof.
  destruct (init_ok Spectrum.i0_unused 4 2400000 0.5 "hann" false)
    as (st0 & Hinit & Hc & Hprev & Hfs & Hsr & Hov & _ & _ & Hen & _); [lia | lra | lra |].
  assert (Spectrum.previous_fits st0) as Hfit
    by (unfold Spectrum.previous_fits; by rewrite Hprev).
  destruct (Spectrum.process_samples st0 (Spectrum.silence 4)) as [out1 st1] eqn:Hp1.
  pose proof (spectrum_shape st0 (Spectrum.silence 4) Hc Hfit) as [Hl1 Hl2].
  pose proof (process_samples_keeps st0 (Spectrum.silence 4) Hc Hfit) as (Hc1 & Hfit1 & _).
  pose proof (process_samples_spec st0 (Spectrum.silence 4) Hc Hfit) as Hspec.
  cbn zeta in Hspec. rewrite Hp1 in Hl1, Hl2, Hc1, Hfit1, Hspec. cbn [fst snd] in *.
  injection Hspec as Hout Hst1.
  assert (Spectrum.fft_size st1 = 4%Z) as Hfs1 by (by rewrite Hst1).
  assert (Spectrum.enable_smoothing st1 = true) as Hen1 by (by rewrite Hst1).
  assert (Spectrum.previous_spectrum st1 = Some out1.2) as Hprev1
    by (rewrite Hst1, Hout; done).
  destruct (update_config_ok Spectrum.i0_unused st1 None None (Some 8%Z) Hc1)
    as (st2 & Hupd & Hc2 & _ & _ & Hfs2 & _); [done | by intros n [= <-] |].
  cbn in Hfs2.
  destruct (update_config_smoothing_state Spectrum.i0_unused st1 None None (Some 8%Z))
    as (Hp2 & He2 & _).
  rewrite Hupd in Hp2, He2. cbn [snd] in Hp2, He2.
  exists st0, out1, st1, st2. rewrite Hfs in Hl1, Hl2.
  repeat split; try done.
  - destruct Hc2 as [_ _ Hw2 _ _ _ _]. by rewrite Hw2, Hfs2.
  - destruct (frequency_axis_bins st2 Hc2) as [Hl _]. by rewrite Hl, Hfs2.
  - intros samples.
    apply (process_samples_stale st2 out1.2); try done.
    + congruence.
    + congruence.
    + rewrite Hl2, Hfs2. cbn. lia.
    + rewrite Hl2. cbn. lia.
    + by rewrite Hfs2.
Qed.

(** C4, counterexample.  [update_config] applies an FFT size that is no
    power of two, and a call that raises has already changed the
    configuration. *)
Lemma update_config_not_validated :
  exists st,
    Spectrum.SpectrumProcessor_init Spectrum.i0_unused 4 2400000 0.5 "hann" false = Ok st /\
    Spectrum.fft_size st = 4%Z /\
    (exists st',
       Spectrum.update_config Spectrum.i0_unused st None None (Some 3%Z) = (Ok tt, st') /\
       Spectrum.fft_size st' = 3%Z /\
       length (Spectrum.window st') = 3 /\
       length (Spectrum.frequencies st') = 3) /\
    (exists st'',
       Spectrum.update_config Spectrum.i0_unused st None None (Some 0%Z)
         = (Raise ZeroDivisionError, st'') /\
       Spectrum.fft_size st'' = 0%Z /\
       Spectrum.window st'' = [] /\
       length (Spectrum.frequencies st'') = 4).
Proof.
  destruct (init_ok Spectrum.i0_unused 4 2400000 0.5 "hann" false)
    as (st & Hinit & Hc & Hprev & Hfs & Hsr & Hov & _ & Hwt & _); [lia | lra | lra |].
  exists st. split; [exact Hinit|]. split; [exact Hfs|]. split.
  - destruct (update_config_ok Spectrum.i0_unused st None None (Some 3%Z) Hc)
      as (st' & Hupd & Hc' & _ & _ & Hfs' & _); [done | by intros n [= <-] |].
    cbn in Hfs'. exists st'. split; [exact Hupd|]. split; [exact Hfs'|]. split.
    + destruct Hc' as [_ _ Hw' _ _ _ _]. by rewrite Hw', Hfs'.
    + destruct (frequency_axis_bins st' Hc') as [Hl _]. by rewrite Hl, Hfs'.
  - unfold Spectrum.update_config. rewrite Hfs. cbn [Z.eqb].
    unfold Spectrum.update_fft_size. cbn [Spectrum.window_type Spectrum.set_fft_size].
    rewrite Hwt. cbn [Spectrum._create_window String.eqb Ascii.eqb Bool.eqb].
    cbn [Spectrum.overlap Spectrum.set_window Spectrum.set_overlap_samples
         Spectrum.overlap_samples].
    change (Spectrum.overlap (Spectrum.set_fft_size st 0)) with (Spectrum.overlap st).
    rewrite Hov. rewrite (py_int_half 0) by lia.
    change (0 / 2)%Z with 0%Z. cbn [Np.full Z.ltb Z.compare Z.to_nat replicate].
    unfold Spectrum._update_frequency_array, Np.py_div.
    cbn [Spectrum.sample_rate Spectrum.set_overlap_buffer Spectrum.set_overlap_samples
         Spectrum.set_window Spectrum.set_fft_size Spectrum.fft_size]. rewrite Hsr.
    destruct (Req_dec_T 2400000 0) as [Hz|_]; [lra|]. cbn [res_bind].
    unfold Np.fftfreq.
    destruct (Req_dec_T (0 * (1 / 2400000)) 0) as [_|Hnz]; [|lra].
    cbn [res_bind]. eexists. split; [reflexivity|].
    cbn [Spectrum.fft_size Spectrum.window Spectrum.frequencies
         Spectrum.set_overlap_buffer Spectrum.set_overlap_samples
         Spectrum.set_window Spectrum.set_fft_size Np.hanning Z.ltb Z.compare].
    repeat split.
    destruct (frequency_axis_bins st Hc) as [Hl _]. by rewrite Hl, Hfs.
Qed.

(** C4, as the code has it.  [update_config] does not validate the FFT
    size: every positive size other than the current one, power of two or
    not, is applied, with the window and the frequency axis rebuilt for it.
    [set_demodulation] validates before it assigns: an unknown mode or a
    bandwidth outside the range of the mode raises and leaves the controller
    as it was; otherwise the mode and the bandwidth (the mode's default when
    none is given) are applied. *)
Theorem reconfiguration_as_implemented :
  (forall (i0 : R -> R) (st : Spectrum.SpectrumProcessor) (n : Z),
     Spectrum.consistent st -> (0 < n)%Z -> n <> Spectrum.fft_size st ->
     exists st',
       Spectrum.update_config i0 st None None (Some n) = (Ok tt, st') /\
       Spectrum.fft_size st' = n /\
       Spectrum.consistent st' /\
       Spectrum._create_window i0 (Spectrum.window_type st) n
         = Ok (Spectrum.window st')) /\
  (forall (Chunk : Type) (c : Controller.WebSDRControllerV2 Chunk)
          (m : string) (bw : option Z),
     match Controller.set_demodulation c m bw with
     | (Raise _, c') =>
         c' = c /\
         (Controller.DEMOD_MODES !! m = None \/
          exists cfg b,
            Controller.DEMOD_MODES !! m = Some cfg /\ bw = Some b /\
            ~ (Controller.bandwidth_min cfg <= b <= Controller.bandwidth_max cfg)%Z)
     | (Ok reply, c') =>
         exists cfg,
           Controller.DEMOD_MODES !! m = Some cfg /\
           Controller.demod_config_mode c' = m /\
           Controller.demod_config_bandwidth c'
             = default (Controller.bandwidth_default cfg) bw /\
           (forall b, bw = Some b ->
              (Controller.bandwidth_min cfg <= b <= Controller.bandwidth_max cfg)%Z)
     end).
Proof.
  split.
  - intros i0 st n Hc Hn Hne.
    destruct (update_config_ok i0 st None None (Some n) Hc)
      as (st' & Hupd & Hc' & _ & _ & Hfs' & _ & _ & _ & Hw');
      [done | by intros k [= <-] |].
    cbn in Hfs'. exists st'. split; [done|]. split; [done|]. split; [done|].
    rewrite <- Hfs'. apply Hw'. by rewrite Hfs'.
  - intros Chunk c m bw. unfold Controller.set_demodulation.
    destruct (Controller.DEMOD_MODES !! m) as [cfg|]; [|by split; [|left]].
    destruct bw as [b|].
    + destruct (Z.leb_spec (Controller.bandwidth_min cfg) b);
        destruct (Z.leb_spec b (Controller.bandwidth_max cfg)); cbn [andb negb].
      * exists cfg. split; [done|]. split; [done|]. split; [done|].
        intros b' [= <-]. lia.
      * split; [done|]. right. exists cfg, b. split; [done|]. split; [done|]. lia.
      * split; [done|]. right. exists cfg, b. split; [done|]. split; [done|]. lia.
      * split; [done|]. right. exists cfg, b. split; [done|]. split; [done|]. lia.
    + exists cfg. split; [done|]. split; [done|]. split; [done|]. by intros b'.
Qed.

Lemma reconfiguration_as_implemented_witness :
  (exists st st',
     Spectrum.SpectrumProcessor_init Spectrum.i0_unused 4 2400000 0.5 "hann" false = Ok st /\
     Spectrum.update_config Spectrum.i0_unused st None None (Some 3%Z) = (Ok tt, st') /\
     Spectrum.fft_size st' = 3%Z) /\
  (exists e,
     Controller.set_demodulation (Controller.WebSDRControllerV2_init nat) "AM" (Some 100%Z)
       = (Raise e, Controller.WebSDRControllerV2_init nat)).
Proof.
  split.
  - destruct (init_ok Spectrum.i0_unused 4 2400000 0.5 "hann" false)
      as (st & Hinit & Hc & _ & Hfs & _); [lia | lra | lra |].
    destruct (proj1 reconfiguration_as_implemented Spectrum.i0_unused st 3%Z Hc)
      as (st' & Hupd & Hfs' & _); [lia | rewrite Hfs; lia |].
    by exists st, st'.
  - pose proof (proj2 reconfiguration_as_implemented nat
                  (Controller.WebSDRControllerV2_init nat) "AM" (Some 100%Z)) as H.
    destruct (Controller.set_demodulation _ _ _) as [[reply|e] c'] eqn:Hs.
    + exfalso. destruct H as (cfg & Hcfg & _ & _ & Hrange).
      vm_compute in Hcfg. injection Hcfg as <-.
      specialize (Hrange 100%Z eq_refl). cbn in Hrange. lia.
    + destruct H as [-> _]. by exists e.
Defined.

(** ** Smoothing *)

Section SmoothingFacts.
Import Np Spectrum.
Local Open Scope R_scope.

Lemma Cabs_sq (z : C) : Cabs z ^ 2 = fst z * fst z + snd z * snd z.
Proof.
  unfold Cabs. apply pow2_sqrt.
  pose proof (Rle_0_sqr (fst z)). pose proof (Rle_0_sqr (snd z)).
  unfold Rsqr in *. lra.
Qed.

Lemma ln_10_pos : 0 < ln 10.
Proof. rewrite <- ln_1. apply ln_increasing; lra. Qed.

(** The dB value of a bin grows strictly with its power above the floor. *)
Lemma db_above_floor (p : R) :
  1e-10 < p -> 10 * log10 (Rmax 0 1e-10) < 10 * log10 (Rmax p 1e-10).
Proof.
  intros Hp. rewrite Rmax_right by lra. rewrite Rmax_left by lra.
  unfold log10. pose proof ln_10_pos.
  assert (ln 1e-10 < ln p) by (apply ln_increasing; lra).
  apply Rmult_lt_compat_l; [lra|].
  apply Rmult_lt_compat_r; [by apply Rinv_0_lt_compat | done].
Qed.

(** Bin 0 of the shifted spectrum of a frame of four samples is bin 2 of
    the transform. *)
Lemma frame_db_4_first (w0 w1 w2 w3 : R) (x0 x1 x2 x3 : C) :
  frame_db [w0; w1; w2; w3] [x0; x1; x2; x3] !! 0%nat =
  Some (10 * log10
          (Rmax (Cabs (dft_bin [Cscale x0 w0; Cscale x1 w1; Cscale x2 w2; Cscale x3 w3] 2) ^ 2)
                1e-10)).
Proof. reflexivity. Qed.

Lemma hanning_4 :
  hanning 4 = [0.5 + 0.5 * cos (PI * IZR (-3) / IZR 3);
               0.5 + 0.5 * cos (PI * IZR (-1) / IZR 3);
               0.5 + 0.5 * cos (PI * IZR 1 / IZR 3);
               0.5 + 0.5 * cos (PI * IZR 3 / IZR 3)].
Proof. reflexivity. Qed.

Lemma hanning_4_second_tap : 0.5 <= 0.5 + 0.5 * cos (PI * IZR (-1) / IZR 3).
Proof.
  pose proof PI_RGT_0.
  assert (0 <= cos (PI * IZR (-1) / IZR 3)) by (apply cos_ge_0; lra).
  lra.
Qed.

(** Silence gives the floor in bin 0. *)
Lemma silence_4_first (w0 w1 w2 w3 : R) :
  frame_db [w0; w1; w2; w3] (silence 4) !! 0%nat
  = Some (10 * log10 (Rmax 0 1e-10)).
Proof.
  unfold silence. cbn [replicate]. rewrite frame_db_4_first. do 4 f_equal.
  rewrite Cabs_sq. unfold dft_bin, Csum, Cadd, Cmul, Cscale, cis, Czero.
  cbn [imap foldr fst snd length]. unfold compose. cbn [fst snd]. ring.
Qed.

(** The unit sample gives the squared window tap in every bin. *)
Lemma impulse_4_first (w0 w1 w2 w3 : R) :
  frame_db [w0; w1; w2; w3] impulse4 !! 0%nat
  = Some (10 * log10 (Rmax (w1 * w1) 1e-10)).
Proof.
  unfold impulse4. rewrite frame_db_4_first. do 4 f_equal.
  rewrite Cabs_sq. unfold dft_bin, Csum, Cadd, Cmul, Cscale, cis, Czero.
  cbn [imap foldr fst snd length]. unfold compose. cbn [fst snd].
  set (t := - (2 * PI * INR 2 * INR 1 / INR 4)).
  pose proof (sin2_cos2 t) as Ht. unfold Rsqr in Ht.
  replace (w1 * w1) with (w1 * w1 * (sin t * sin t + cos t * cos t)) by (rewrite Ht; ring).
  ring.
Qed.

End SmoothingFacts.

(** C3, counterexample.  A change of sample rate does not reset the
    smoothing: the spectrum of the next chunk is mixed with the spectrum from
    before the change. *)
Lemma smoothing_not_reset_by_rate_change :
  exists st0 out1 st1 st2 out2 st3,
    Spectrum.SpectrumProcessor_init Spectrum.i0_unused 4 2400000 0.5 "hann" false = Ok st0 /\
    Spectrum.process_samples st0 (Spectrum.silence 4) = (out1, st1) /\
    Spectrum.update_config Spectrum.i0_unused st1 (Some 2000000%R) None None = (Ok tt, st2) /\
    Spectrum.sample_rate st1 = 2400000%R /\ Spectrum.sample_rate st2 = 2000000%R /\
    Spectrum.process_samples st2 Spectrum.impulse4 = (out2, st3) /\
    out2.2 <> Spectrum.raw_of st2 Spectrum.impulse4 /\
    Spectrum.previous_spectrum st3 <> Some (Spectrum.raw_of st2 Spectrum.impulse4).
Proof.
  destruct (init_ok Spectrum.i0_unused 4 2400000 0.5 "hann" false)
    as (st0 & Hinit & Hc & Hprev & Hfs & Hsr & Hov & _ & _ & Hen & Hsf & Hwin);
    [lia | lra | lra |].
  assert (Spectrum.window st0 = Np.hanning 4) as Hw0
    by (cbn in Hwin; by injection Hwin).
  assert (Spectrum.previous_fits st0) as Hfit
    by (unfold Spectrum.previous_fits; by rewrite Hprev).
  destruct (Spectrum.process_samples st0 (Spectrum.silence 4)) as [out1 st1] eqn:Hp1.
  pose proof (process_samples_keeps st0 (Spectrum.silence 4) Hc Hfit) as (Hc1 & Hfit1 & _).
  pose proof (process_samples_spec st0 (Spectrum.silence 4) Hc Hfit) as Hspec.
  cbn zeta in Hspec. rewrite Hp1 in Hc1, Hfit1, Hspec. cbn [fst snd] in *.
  injection Hspec as Hout Hst1.
  unfold Spectrum.smoothed_of in Hst1. rewrite Hen, Hprev in Hst1.
  set (rawA := Spectrum.raw_of st0 (Spectrum.silence 4)) in *.
  destruct (update_config_ok Spectrum.i0_unused st1 (Some 2000000%R) None None Hc1)
    as (st2 & Hupd & Hc2 & Hsr2 & _ & Hfs2 & _ & _ & Hw2 & _);
    [intros sr [= <-]; lra | done |].
  cbn in Hsr2, Hfs2. specialize (Hw2 Hfs2).
  destruct (update_config_smoothing_state Spectrum.i0_unused st1 (Some 2000000%R) None None)
    as (Hp2 & He2 & Hs2).
  rewrite Hupd in Hp2, He2, Hs2. cbn [snd] in Hp2, He2, Hs2.
  rewrite Hst1 in Hp2, He2, Hs2, Hw2, Hfs2. cbn in Hp2, He2, Hs2, Hw2, Hfs2.
  assert (Spectrum.previous_fits st2) as Hfit2.
  { unfold Spectrum.previous_fits in *. rewrite Hp2.
    rewrite Hst1 in Hfit1. cbn in Hfit1. congruence. }
  destruct (Spectrum.process_samples st2 Spectrum.impulse4) as [out2 st3] eqn:Hp3.
  pose proof (process_samples_spec st2 Spectrum.impulse4 Hc2 Hfit2) as Hspec2.
  cbn zeta in Hspec2. rewrite Hp3 in Hspec2. injection Hspec2 as Hout2 Hst3.
  unfold Spectrum.smoothed_of in Hout2, Hst3. rewrite He2, Hen, Hp2 in Hout2, Hst3.
  set (rawB := Spectrum.raw_of st2 Spectrum.impulse4) in *.
  assert (exists a b, rawA !! 0%nat = Some a /\ rawB !! 0%nat = Some b /\ (a < b)%R)
    as (a & b & Ha & Hb & Hab).
  { eexists _, _. split; [|split].
    - unfold rawA, Spectrum.raw_of, Spectrum.raw_spectrum. rewrite Hfs, Hw0, hanning_4.
      cbn [Z.to_nat Pos.to_nat Pos.iter_op Nat.add]. rewrite decide_True by (cbn; lia).
      apply silence_4_first.
    - unfold rawB, Spectrum.raw_of, Spectrum.raw_spectrum. rewrite Hfs2, Hfs, Hw2, Hw0, hanning_4.
      cbn [Z.to_nat Pos.to_nat Pos.iter_op Nat.add]. rewrite decide_True by (cbn; lia).
      apply impulse_4_first.
    - apply db_above_floor. pose proof hanning_4_second_tap. nra. }
  assert (out2.2 <> rawB) as Hdiff.
  { rewrite Hout2. cbn [snd]. intros Heq.
    apply (f_equal (fun l => l !! 0%nat)) in Heq.
    unfold Spectrum.exp_smooth in Heq.
    rewrite lookup_zip_with, Hb, Ha in Heq. cbn in Heq.
    injection Heq as Heq. rewrite Hs2, Hsf in Heq. lra. }
  exists st0, out1, st1, st2, out2, st3.
  repeat split; try done.
  - by rewrite Hst1.
  - rewrite Hst3. cbn. intros [= Heq]. apply Hdiff. by rewrite Hout2.
Qed.

Lemma init_smoothing_defaults (i0 : R -> R) (N : Z) (sr ov : R) (wt : string)
    (fftw : bool) (st0 : Spectrum.SpectrumProcessor) :
  Spectrum.SpectrumProcessor_init i0 N sr ov wt fftw = Ok st0 ->
  Spectrum.previous_spectrum st0 = None /\
  Spectrum.enable_smoothing st0 = true /\
  Spectrum.smoothing_factor st0 = 0.3%R.
Proof.
  unfold Spectrum.SpectrumProcessor_init.
  destruct (Spectrum._create_window i0 wt N) as [w|e]; [|done]. cbn [res_bind].
  destruct (Spectrum._update_frequency_array _) as [st1|e]; [|done]. cbn [res_bind].
  destruct (Np.full Np.Czero _) as [buf|e]; [|done]. cbn [res_bind].
  by intros [= <-].
Qed.

(** C3, as the code has it.  In a consistent state whose previous spectrum,
    if any, has the current FFT size, [process_samples] stores what it
    returns as the new previous spectrum; it returns the raw spectrum when
    there is no previous spectrum, and [0.3 * raw + 0.7 * previous] when
    there is one (smoothing enabled, factor 0.3 as the constructor sets it).
    A change of sample rate or centre frequency through [update_config] is
    no reset: it leaves the state consistent with the same previous spectrum
    and the same smoothing settings, and the spectrum of the next chunk is
    [0.3 * raw + 0.7 * previous] with the spectrum stored before the change.
    A processor starts without a previous spectrum. *)
Theorem smoothing_as_implemented (i0 : R -> R) (st : Spectrum.SpectrumProcessor)
    (samples : list Np.C) :
  Spectrum.consistent st -> Spectrum.previous_fits st ->
  let raw := Spectrum.raw_of st samples in
  let out := (Spectrum.process_samples st samples).1.2 in
  let st' := (Spectrum.process_samples st samples).2 in
  Spectrum.previous_spectrum st' = Some out /\
  (Spectrum.previous_spectrum st = None -> out = raw) /\
  (forall previous,
     Spectrum.previous_spectrum st = Some previous ->
     Spectrum.enable_smoothing st = true ->
     Spectrum.smoothing_factor st = 0.3%R ->
     out = zip_with (fun n p => 0.3 * n + 0.7 * p)%R raw previous) /\
  (forall a b,
     (forall sr, a = Some sr -> sr <> 0%R) ->
     exists st2,
       Spectrum.update_config i0 st a b None = (Ok tt, st2) /\
       Spectrum.consistent st2 /\ Spectrum.previous_fits st2 /\
       Spectrum.previous_spectrum st2 = Spectrum.previous_spectrum st /\
       Spectrum.enable_smoothing st2 = Spectrum.enable_smoothing st /\
       Spectrum.smoothing_factor st2 = Spectrum.smoothing_factor st /\
       forall previous chunk,
         Spectrum.previous_spectrum st = Some previous ->
         Spectrum.enable_smoothing st = true ->
         Spectrum.smoothing_factor st = 0.3%R ->
         (Spectrum.process_samples st2 chunk).1.2
         = zip_with (fun n p => 0.3 * n + 0.7 * p)%R
             (Spectrum.raw_of st2 chunk) previous) /\
  (forall N sr ov wt fftw st0,
     Spectrum.SpectrumProcessor_init i0 N sr ov wt fftw = Ok st0 ->
     Spectrum.previous_spectrum st0 = None /\
     Spectrum.enable_smoothing st0 = true /\
     Spectrum.smoothing_factor st0 = 0.3%R).
Proof.
  intros Hc Hfit raw out st'. unfold out, st'.
  rewrite process_samples_spec by done. cbn [fst snd]. fold raw.
  split; [done|]. split; [|split; [|split]].
  - intros Hnone. unfold Spectrum.smoothed_of. rewrite Hnone.
    by destruct (Spectrum.enable_smoothing st).
  - intros previous Hprev Hen Hsf. unfold Spectrum.smoothed_of, Spectrum.exp_smooth.
    rewrite Hen, Hprev, Hsf. apply zip_with_ext; [|done..].
    intros n p. lra.
  - intros a b Ha.
    destruct (update_config_ok i0 st a b None Hc)
      as (st2 & Hupd & Hc2 & _ & _ & Hfs2 & _); [done | done |].
    cbn in Hfs2.
    destruct (update_config_smoothing_state i0 st a b None) as (Hp2 & He2 & Hs2).
    rewrite Hupd in Hp2, He2, Hs2. cbn [snd] in Hp2, He2, Hs2.
    assert (Spectrum.previous_fits st2) as Hfit2
      by (unfold Spectrum.previous_fits in *; by rewrite Hp2, Hfs2).
    exists st2. split; [done|]. split; [done|]. split; [done|].
    split; [done|]. split; [done|]. split; [done|].
    intros previous chunk Hprev Hen Hsf.
    rewrite process_samples_spec by done. cbn [fst snd].
    unfold Spectrum.smoothed_of, Spectrum.exp_smooth.
    rewrite He2, Hen, Hp2, Hprev, Hs2, Hsf. apply zip_with_ext; [|done..].
    intros n p. lra.
  - intros N sr ov wt fftw st0. apply init_smoothing_defaults.
Qed.

Lemma smoothing_as_implemented_witness :
  exists st,
    Spectrum.SpectrumProcessor_init Spectrum.i0_unused 4 2400000 0.5 "hann" false = Ok st /\
    (Spectrum.process_samples st (Spectrum.silence 4)).1.2
      = Spectrum.raw_of st (Spectrum.silence 4) /\
    Spectrum.previous_spectrum (Spectrum.process_samples st (Spectrum.silence 4)).2
      = Some (Spectrum.process_samples st (Spectrum.silence 4)).1.2.
Proof.
  destruct (init_ok Spectrum.i0_unused 4 2400000 0.5 "hann" false)
    as (st & Hinit & Hc & Hprev & _); [lia | lra | lra |].
  assert (Spectrum.previous_fits st) as Hfit
    by (unfold Spectrum.previous_fits; by rewrite Hprev).
  destruct (smoothing_as_implemented Spectrum.i0_unused st (Spectrum.silence 4) Hc Hfit)
    as (Hstored & Hraw & _).
  exists st. split; [exact Hinit|]. split; [exact (Hraw Hprev) | exact Hstored].
Defined.

(** ** Demodulators *)

Section DemodFacts.
Import Np Demod.
Local Open Scope R_scope.
Variable sp : Scipy.

Local Abbreviation bounded := (Forall (fun x : R => -1 <= x <= 1)).

Lemma clip_bounds (lo hi x : R) : lo <= hi -> lo <= clip lo hi x <= hi.
Proof.
  intros H. unfold clip, Rmin, Rmax.
  repeat match goal with |- context [Rle_dec ?a ?b] => destruct (Rle_dec a b) end; lra.
Qed.

Lemma bounded_replicate (n : nat) : bounded (replicate n 0).
Proof. apply Forall_replicate. lra. Qed.

Lemma bounded_clip (l : list R) : bounded (map (clip (-1) 1) l).
Proof. induction l; constructor; [apply clip_bounds; lra | done]. Qed.


Lemma agc_main_bounded (audio out : list R) (target_level : R) :
  agc_main sp audio target_level = Ok out -> bounded out.
Proof.
  unfold agc_main. destruct audio as [|a audio]; [by intros [= <-]|].
  destruct (if (_ <? _)%Z then _ else _) as [envelope|e1]; [|done]. cbn [res_bind].
  match goal with |- context [if ?c then _ else _] => destruct c end.
  - destruct (decide _); [|done]. cbn [res_bind].
    destruct (broadcast _ _ _) as [scaled|e2]; [|done]. cbn [res_bind].
    intros [= <-]. apply bounded_clip.
  - cbn [res_bind]. intros [= <-]. apply (bounded_clip (a :: audio)).
Qed.

Lemma foldr_Rmax_ge (x : R) (l : list R) :
  x <= foldr Rmax x l /\ Forall (fun y => y <= foldr Rmax x l) l.
Proof.
  induction l as [|y l [IHx IHl]]; cbn [foldr]; [split; [lra | constructor]|].
  pose proof (Rmax_l y (foldr Rmax x l)). pose proof (Rmax_r y (foldr Rmax x l)).
  split; [lra|]. constructor; [done|].
  eapply Forall_impl; [exact IHl|]. cbn. intros. lra.
Qed.

Lemma np_max_ge (l : list R) (m : R) :
  np_max l = Ok m -> Forall (fun y => y <= m) l.
Proof.
  destruct l as [|x l]; [done|]. intros [= <-].
  destruct (foldr_Rmax_ge x l). by constructor.
Qed.

(** AGC keeps every sample in [-1, 1] when the target level is at most 1,
    through its main path and through its fallback. *)
Lemma apply_agc_bounded (audio out : list R) (target_level attack release : R) :
  0 <= target_level <= 1 ->
  _apply_agc sp audio target_level attack release = Ok out -> bounded out.
Proof.
  intros Ht. unfold _apply_agc.
  destruct (agc_main sp audio target_level) as [o|e] eqn:Hmain.
  - intros [= <-]. by eapply agc_main_bounded.
  - destruct (np_max (map Rabs audio)) as [max_val|e'] eqn:Hmax; [|done].
    cbn [res_bind]. apply np_max_ge in Hmax.
    destruct (Rlt_dec 0 max_val) as [Hpos|Hnpos]; intros [= <-].
    + apply Forall_forall. intros x Hx.
      apply list_elem_of_In, in_map_iff in Hx as (a & <- & Ha).
      rewrite Forall_forall in Hmax.
      assert (Rabs a <= max_val) as Hle.
      { apply Hmax. apply list_elem_of_In, in_map_iff. eauto. }
      assert (0 < / max_val) as Hinv by (by apply Rinv_0_lt_compat).
      assert (Rabs a * / max_val <= 1) as Hq.
      { apply (Rmult_le_reg_r max_val); [done|].
        rewrite Rmult_assoc, Rinv_l by lra. lra. }
      assert (-1 <= a * / max_val <= 1) as Hq'.
      { pose proof (Rabs_pos a). unfold Rabs in *. destruct (Rcase_abs a); nra. }
      unfold Rdiv. nra.
    + apply Forall_forall. intros a Ha.
      rewrite Forall_forall in Hmax.
      assert (Rabs a <= max_val) as Hle.
      { apply Hmax. apply list_elem_of_In, in_map_iff. exists a. split; [done|].
        by apply list_elem_of_In. }
      pose proof (Rabs_pos a). assert (Rabs a = 0) as Hz by lra.
      unfold Rabs in Hz. destruct (Rcase_abs a); lra.
Qed.

Lemma finish_bounded (n : nat) (body : res PyExn (list R)) :
  (forall out, body = Ok out -> bounded out) ->
  exists audio, finish n body = Ok audio /\ bounded audio.
Proof.
  intros H. destruct body as [a|e]; cbn.
  - exists a. split; [done|]. by apply H.
  - eexists. split; [done|]. apply bounded_replicate.
Qed.

Lemma resample_and_agc_bounded (st : AudioDemodulators) (audio out : list R)
    (sample_rate target_level attack release : R) :
  0 <= target_level <= 1 ->
  resample_and_agc sp st audio sample_rate target_level attack release = Ok out ->
  bounded out.
Proof. intros Ht. unfold resample_and_agc. by apply apply_agc_bounded. Qed.

(** No exception leaves a demodulator, and what it returns is bounded. *)
Lemma demodulate_returns_bounded (d : demodulator) (st : AudioDemodulators)
    (iq_samples : list C) (sample_rate : R) (bandwidth : option R) :
  exists audio,
    (demodulate sp d st iq_samples sample_rate bandwidth).1 = Ok audio /\
    bounded audio.
Proof.
  destruct d as [|deviation|mode|tone]; cbn [demodulate].
  - unfold am_demodulate.
    destruct (match bandwidth with Some _ => _ | None => _ end) as [audio st1].
    cbn [fst]. apply finish_bounded. intros out.
    apply resample_and_agc_bounded. lra.
  - unfold fm_demodulate.
    destruct (map real _) as [|I0 I]; [cbn; eexists; split; [done|apply bounded_replicate]|].
    destruct (map imag _) as [|Q0 Q]; [cbn; eexists; split; [done|apply bounded_replicate]|].
    destruct (match bandwidth with Some _ => _ | None => _ end) as [audio1 st1].
    destruct (match bandwidth with Some _ => _ | None => _ end) as [audio2 st2].
    cbn [fst]. apply finish_bounded. intros out.
    apply resample_and_agc_bounded. lra.
  - unfold ssb_demodulate.
    destruct (negb _); [cbn; eexists; split; [done|apply bounded_replicate]|].
    destruct (_apply_audio_filter _ _ _ _ _ _ _ _) as [audio st1].
    cbn [fst]. apply finish_bounded. intros out.
    apply resample_and_agc_bounded. lra.
  - unfold cw_demodulate.
    destruct (_apply_audio_filter _ _ _ _ _ _ _ _) as [audio st1].
    cbn [fst]. apply finish_bounded. intros out.
    apply resample_and_agc_bounded. lra.
Qed.


(** C8. For every chunk, every state and every behaviour of scipy, each
    demodulator returns audio whose samples all lie in [-1, 1]: the gain
    control comes last and clips (its fallback scales to the target level,
    the demodulator's own fallback returns zeros). *)
Theorem demodulator_output_bounded (d : demodulator) (st : AudioDemodulators)
    (iq_samples : list C) (sample_rate : R) (bandwidth : option R) :
  exists audio,
    (demodulate sp d st iq_samples sample_rate bandwidth).1 = Ok audio /\
    Forall (fun x => Rabs x <= 1) audio.
Proof.
  destruct (demodulate_returns_bounded d st iq_samples sample_rate bandwidth)
    as (audio & Hres & Hb).
  exists audio. split; [done|].
  eapply Forall_impl; [exact Hb|]. cbn. intros x Hx. apply Rabs_le. lra.
Qed.

(** C10. USB and LSB demodulation return the same audio (and leave the
    same filter cache): the real part of the conjugate is the real part. *)
Theorem ssb_usb_lsb_same (st : AudioDemodulators) (iq_samples : list C)
    (sample_rate : R) (bandwidth : option R) :
  ssb_demodulate sp st iq_samples "usb" sample_rate bandwidth =
  ssb_demodulate sp st iq_samples "lsb" sample_rate bandwidth.
Proof.
  unfold ssb_demodulate.
  change (lower "usb") with "usb"%string. change (lower "lsb") with "lsb"%string.
  cbn [String.eqb Ascii.eqb Bool.eqb orb negb].
  replace (map (fun z : C => real (conj z)) iq_samples) with (map real iq_samples);
    [done|].
  apply map_ext. by intros [re im].
Qed.







End DemodFacts.



Section DemodSilence.
Import Np Demod.
Local Open Scope R_scope.
Variable sp : Scipy.







Section Assumed.
Hypothesis Hsp : silence_preserving sp.



Lemma py_int_0 : py_int 0 = 0%Z.
Proof.
  unfold py_int. destruct (Rle_dec 0 0); [|lra]. apply (ZfloorZ 0).
Qed.

Lemma expected_length_0 (sample_rate audio_rate : R) :
  expected_length 0 sample_rate audio_rate = 0%nat.
Proof.
  unfold expected_length. destruct (Req_dec_T _ _); [done|].
  cbn [INR]. by rewrite Rmult_0_l, py_int_0.
Qed.







Lemma filter_rate (st : AudioDemodulators) (audio : list R) (sample_rate bandwidth : R)
    (filter_type : string) (low high : option R) :
  audio_sample_rate
    (_apply_audio_filter sp st audio sample_rate bandwidth filter_type low high).2
  = audio_sample_rate st.
Proof.
  unfold _apply_audio_filter.
  destruct (_audio_filter_cache st _) as [sos|].
  - by destruct (sosfilt sp sos _).
  - destruct (design_filter _ _ _ _ _ _) as [[sos|]|e]; try done.
    by destruct (sosfilt sp sos _).
Qed.


Local Abbreviation silent res n sample_rate audio_rate :=
  (exists k : nat,
     res = Ok (replicate k 0) /\
     (expected_length n sample_rate audio_rate <> 0%nat ->
      k = expected_length n sample_rate audio_rate) /\
     (expected_length n sample_rate audio_rate = 0%nat ->
      (forall e, resample sp (replicate n 0) 0 = Raise e -> k = n%nat) /\
      (forall y, resample sp (replicate n 0) 0 = Ok y -> k = 0%nat))).








End Assumed.
End DemodSilence.

(** The stand-in for scipy keeps silence silent. *)
Lemma scipy_stub_silence : Demod.silence_preserving Demod.scipy_stub.
Proof.
  split.
  - by intros sos n y [= <-].
  - by intros b a n y [= <-].
  - intros n m y. cbn [Demod.resample Demod.scipy_stub].
    destruct (m <? 0)%Z; [done|]. intros [= <-].
    rewrite take_replicate, length_replicate, <- replicate_add. f_equal. lia.
  - intros n m _ Hm. cbn [Demod.resample Demod.scipy_stub].
    destruct (m <? 0)%Z eqn:Hneg; [lia|]. by eexists.
Qed.

Lemma expected_length_example : Demod.expected_length 100 2400000 48000 = 2%nat.
Proof.
  unfold Demod.expected_length.
  destruct (Req_dec_T 2400000 48000) as [Heq|_]; [lra|].
  rewrite INR_IZR_INZ. change (Z.of_nat 100) with 100%Z.
  replace (100 * (48000 / 2400000))%R with 2%R by lra.
  unfold Np.py_int. destruct (Rle_dec 0 2) as [_|]; [|lra].
  by rewrite (ZfloorZ 2).
Qed.






(** * Further properties of the code *)

(** ** Supervisor statistics *)

Section SupervisorTotals.
Import Supervisor SupervisorStats.
Context {Data Payload Exn World : Type} (loop_time : World -> R).
Local Abbreviation Plugin := (@Supervisor.Plugin Data Payload Exn World).
Local Abbreviation PluginSupervisor := (@Supervisor.PluginSupervisor Data Payload Exn World).
Local Abbreviation PluginResult := (@Supervisor.PluginResult Payload Exn).

Lemma analyze_failures (rs : list (PluginResult + Exn)) (sup sup' : PluginSupervisor) :
  analyze rs sup = (Ok tt, sup') ->
  total_failures sup' = total_failures sup + failed_results rs.
Proof.
  revert sup. induction rs as [|[r|e] rs IH]; intros sup; cbn [analyze].
  - intros [= <-]. unfold failed_results. cbn. lia.
  - destruct (plugin_stats sup !! plugin_name r); [|done].
    unfold failed_results in *. cbn [List.filter counts_as_failure].
    destruct (success r); intros H; apply IH in H; cbn in *; lia.
  - intros H. apply IH in H. unfold failed_results in *. cbn in *. lia.
Qed.

Lemma gather_failed (faulty : Plugin -> bool) (ps : list Plugin) (d : Data) (w : World) :
  (forall p, p ∈ ps -> if faulty p then always_raises p else always_returns p) ->
  failed_results (gather loop_time ps d w).1 = length (List.filter faulty ps).
Proof.
  revert w. induction ps as [|p ps IH]; intros w Hclass; [done|].
  cbn [gather]. unfold _safe_execute.
  pose proof (Hclass p ltac:(left)) as Hp.
  assert (forall q, q ∈ ps -> if faulty q then always_raises q else always_returns q)
    as Hrest by (intros q Hq; apply Hclass; by right).
  cbn [List.filter]. destruct (faulty p).
  - destruct (Hp d w) as (e & w1 & ->).
    specialize (IH w1 Hrest). destruct (gather loop_time ps d w1) as [rs w2].
    cbn [fst] in *. unfold failed_results in *. cbn. by rewrite IH.
  - destruct (Hp d w) as (v & w1 & ->).
    specialize (IH w1 Hrest). destruct (gather loop_time ps d w1) as [rs w2].
    cbn [fst] in *. unfold failed_results in *. cbn. by rewrite IH.
Qed.

Lemma run_with_supervision_failures (ps : list Plugin) (sup : PluginSupervisor)
    (d : Data) (w : World) :
  plugins sup = ps ->
  (forall p, p ∈ ps -> is_Some (plugin_stats sup !! name p)) ->
  exists sup',
    run_with_supervision loop_time sup d w
      = (Ok (gather loop_time ps d w).1, sup', (gather loop_time ps d w).2) /\
    plugins sup' = ps /\
    (forall p, p ∈ ps -> is_Some (plugin_stats sup' !! name p)) /\
    total_executions sup' = S (total_executions sup) /\
    total_failures sup' = total_failures sup + failed_results (gather loop_time ps d w).1.
Proof.
  intros Hps Hdom. unfold run_with_supervision. cbn [plugins]. rewrite Hps.
  pose proof (gather_items loop_time ps d w) as Hitems.
  destruct (gather loop_time ps d w) as [rs w'] eqn:Hg. cbn [fst snd] in *.
  edestruct (analyze_tally (Data:=Data) (World:=World) rs)
    as (sup' & Ha & Hp & Ht & Hm); last first.
  { rewrite Ha. exists sup'. split; [done|]. split; [done|]. split; [|split; [done|]].
    - intros p Hin. rewrite Hm. cbn [plugin_stats]. apply fmap_is_Some. by apply Hdom.
    - by rewrite (analyze_failures _ _ _ Ha). }
  cbn [plugin_stats]. intros r Hr.
  apply list_elem_of_lookup in Hr as [i Hi].
  destruct (Forall2_lookup_r _ _ _ _ _ Hitems Hi) as (p & Hpi & wa & wb & o & _ & Heq).
  injection Heq as ->.
  rewrite result_of_name. apply Hdom. eapply list_elem_of_lookup_2; eauto.
Qed.

Lemma run_cycles_failures (faulty : Plugin -> bool) (ps : list Plugin)
    (ds : list Data) (sup : PluginSupervisor) (w : World) :
  plugins sup = ps ->
  (forall p, p ∈ ps -> is_Some (plugin_stats sup !! name p)) ->
  (forall p, p ∈ ps -> if faulty p then always_raises p else always_returns p) ->
  exists sup' w',
    run_cycles loop_time ds sup w = (Ok tt, sup', w') /\
    plugins sup' = ps /\
    total_executions sup' = total_executions sup + length ds /\
    total_failures sup'
      = total_failures sup + length ds * length (List.filter faulty ps).
Proof.
  intros Hps Hdom Hclass. revert sup w Hps Hdom.
  induction ds as [|d ds IH]; intros sup w Hps Hdom.
  - exists sup, w. cbn. repeat split; try done; lia.
  - destruct (run_with_supervision_failures ps sup d w Hps Hdom)
      as (sup1 & Hrun & Hps1 & Hdom1 & Hte & Htf).
    rewrite (gather_failed faulty) in Htf by done.
    destruct (IH sup1 (gather loop_time ps d w).2 Hps1 Hdom1)
      as (sup' & w' & Hcycles & Hps' & Hte' & Htf').
    exists sup', w'. cbn [run_cycles]. rewrite Hrun, Hcycles.
    repeat split; try done; cbn [length]; lia.
Qed.

(** X1. The supervisor's totals.  With plugins that either raise on every
    call or return on every call, [n] cycles from a fresh supervisor leave
    [total_executions = n] and [total_failures = n * k], [k] being the number
    of raising plugins: a cycle counts once in the former, every failed
    plugin once in the latter.  So the [failure_rate] of [get_stats] is the
    number of failing plugins (it exceeds 1 with two of them), and
    [get_stats] never divides by zero. *)
Theorem supervisor_failure_totals (ps : list Plugin) (faulty : Plugin -> bool)
    (ds : list Data) (w : World) :
  (forall p, p ∈ ps -> if faulty p then always_raises p else always_returns p) ->
  exists sup' w',
    run_cycles loop_time ds (init ps) w = (Ok tt, sup', w') /\
    total_executions sup' = length ds /\
    total_failures sup' = length ds * length (List.filter faulty ps) /\
    (forall sup : PluginSupervisor, exists report, get_stats sup = Ok report) /\
    (ds <> [] ->
     exists report,
       get_stats sup' = Ok report /\
       report_failure_rate report = INR (length (List.filter faulty ps))).
Proof.
  intros Hclass.
  destruct (run_cycles_failures faulty ps ds (init ps) w eq_refl)
    as (sup' & w' & Hrun & Hps & Hte & Htf); [|done|].
  { intros p Hp. cbn [init plugin_stats]. rewrite fresh_stats_lookup; eauto. }
  cbn [init total_executions total_failures] in Hte, Htf.
  assert (forall sup : PluginSupervisor,
            INR (Nat.max (total_executions sup) 1) <> 0%R) as Hmax.
  { intros sup. apply not_0_INR. lia. }
  exists sup', w'. split; [done|]. split; [done|]. split; [done|]. split.
  - intros sup. unfold get_stats, Np.py_div.
    destruct (Req_dec_T _ 0) as [Hz|_]; [by apply Hmax in Hz|]. by eexists.
  - intros Hne. unfold get_stats, Np.py_div.
    destruct (Req_dec_T _ 0) as [Hz|_]; [by apply Hmax in Hz|].
    eexists. split; [done|]. cbn [res_bind report_failure_rate].
    rewrite Hte, Htf. destruct ds as [|d ds]; [done|].
    replace (Nat.max (0 + length (d :: ds)) 1) with (length (d :: ds))
      by (cbn [length]; lia).
    replace (0 + length (d :: ds) * length (List.filter faulty ps))
      with (length (d :: ds) * length (List.filter faulty ps)) by lia.
    rewrite mult_INR. field. apply not_0_INR. cbn [length]. lia.
Qed.

(** X2. [reset_stats] after any number of cycles gives back the fresh
    supervisor over the same plugins: counters at zero, one zeroed entry per
    plugin name. *)
Theorem reset_stats_fresh (ps : list Plugin) (ds : list Data)
    (sup : PluginSupervisor) (w : World) :
  plugins sup = ps ->
  reset_stats (run_cycles loop_time ds sup w).1.2 = init ps.
Proof.
  intros Hps.
  assert (plugins (run_cycles loop_time ds sup w).1.2 = ps) as Hkeep.
  { revert sup w Hps. induction ds as [|d ds IH]; intros sup w Hps; [done|].
    cbn [run_cycles]. unfold run_with_supervision.
    destruct (gather loop_time _ d w) as [rs w1].
    set (sup1 := {| plugins := plugins sup |}).
    assert (forall rs (s : PluginSupervisor), plugins (analyze rs s).2 = plugins s)
      as Hanalyze.
    { clear. intros rs. induction rs as [|[r|e] rs IH]; intros s; cbn [analyze]; [done| |].
      - destruct (plugin_stats s !! plugin_name r); [|done].
        destruct (success r); by rewrite IH.
      - by rewrite IH. }
    pose proof (Hanalyze rs sup1) as Hp1.
    destruct (analyze rs sup1) as [[u|k] sup2]; cbn [snd] in Hp1.
    - apply IH. by rewrite Hp1.
    - cbn. by rewrite Hp1. }
  unfold reset_stats, init. by rewrite Hkeep.
Qed.

End SupervisorTotals.

Lemma supervisor_failure_totals_witness :
  exists sup w1 report,
    Supervisor.run_cycles Supervisor.demo_clock (repeat "IQ"%string 10)
      (Supervisor.init Supervisor.demo_plugins) 0%R = (Ok tt, sup, w1) /\
    Supervisor.total_failures sup = 10 /\
    SupervisorStats.get_stats sup = Ok report /\
    SupervisorStats.report_failure_rate report = 1%R.
Proof.
  destruct (supervisor_failure_totals Supervisor.demo_clock Supervisor.demo_plugins
              (fun p => String.eqb (Supervisor.name p) "FaultyPlugin")
              (repeat "IQ"%string 10) 0%R)
    as (sup & w1 & Hrun & _ & Htf & _ & Hrate).
  - intros p Hp. unfold Supervisor.demo_plugins in Hp.
    apply elem_of_cons in Hp as [->|Hp]; [intros d now; by eexists _, _|].
    apply elem_of_cons in Hp as [->|Hp]; [intros d now; by eexists _, _|].
    apply elem_of_cons in Hp as [->|Hp]; [intros d now; by eexists _, _|].
    by apply elem_of_nil in Hp.
  - destruct Hrate as (report & Hget & Hr); [done|].
    exists sup, w1, report. split; [exact Hrun|]. split; [exact Htf|].
    split; [exact Hget|]. rewrite Hr. cbn. lra.
Defined.

Lemma reset_stats_fresh_witness :
  SupervisorStats.reset_stats
    (Supervisor.run_cycles Supervisor.demo_clock ["a"%string; "b"%string]
       (Supervisor.init Supervisor.demo_plugins) 0%R).1.2
  = Supervisor.init Supervisor.demo_plugins.
Proof.
  apply (reset_stats_fresh Supervisor.demo_clock Supervisor.demo_plugins). reflexivity.
Defined.

(** ** The spectrum processor's queries *)

Section SpectrumViewFacts.
Import Np Spectrum SpectrumViews.
Local Open Scope R_scope.

Lemma foldr_Rmin_le (x : R) (l : list R) :
  foldr Rmin x l <= x /\ Forall (fun y => foldr Rmin x l <= y) l.
Proof.
  induction l as [|y l [IHx IHl]]; cbn [foldr]; [split; [lra | constructor]|].
  pose proof (Rmin_l y (foldr Rmin x l)). pose proof (Rmin_r y (foldr Rmin x l)).
  split; [lra|]. constructor; [done|].
  eapply Forall_impl; [exact IHl|]. cbn. intros. lra.
Qed.

Lemma foldr_Rmin_in (x : R) (l : list R) : foldr Rmin x l ∈ x :: l.
Proof.
  induction l as [|y l IH]; cbn [foldr]; [by left|].
  unfold Rmin at 1. destruct (Rle_dec y (foldr Rmin x l)).
  - right; left.
  - apply elem_of_cons in IH as [->|IH]; [left | by do 2 right].
Qed.

Lemma foldr_Rmax_in (x : R) (l : list R) : foldr Rmax x l ∈ x :: l.
Proof.
  induction l as [|y l IH]; cbn [foldr]; [by left|].
  unfold Rmax at 1. destruct (Rle_dec y (foldr Rmax x l)).
  - apply elem_of_cons in IH as [->|IH]; [left | by do 2 right].
  - right; left.
Qed.

(** [np.min] and [np.max] of a non-empty array: an element of the array
    that bounds the others. *)
Lemma np_min_spec (l : list R) :
  l <> [] ->
  exists m, np_min l = Ok m /\ m ∈ l /\ Forall (fun y => m <= y) l.
Proof.
  destruct l as [|x l]; [done|]. intros _. eexists. split; [done|].
  split; [apply foldr_Rmin_in|].
  destruct (foldr_Rmin_le x l). by constructor.
Qed.

Lemma np_max_spec (l : list R) :
  l <> [] ->
  exists m, Demod.np_max l = Ok m /\ m ∈ l /\ Forall (fun y => y <= m) l.
Proof.
  destruct l as [|x l]; [done|]. intros _. eexists. split; [done|].
  split; [apply foldr_Rmax_in|].
  destruct (foldr_Rmax_ge x l). by constructor.
Qed.

(** The scan of [np.argmin]: with the least value of the scanned part
    [pre] and its first index at hand, the scan of the rest ends on the
    first index of the least value of the whole array. *)
Lemma argmin_from_spec (l pre : list R) (best_index : nat) (best : R) :
  pre !! best_index = Some best ->
  (forall j y, pre !! j = Some y -> best <= y) ->
  (forall j y, (j < best_index)%nat -> pre !! j = Some y -> best < y) ->
  exists v,
    (pre ++ l) !! argmin_from best_index best (length pre) l = Some v /\
    (forall j y, (pre ++ l) !! j = Some y -> v <= y) /\
    (forall j y, (j < argmin_from best_index best (length pre) l)%nat ->
                 (pre ++ l) !! j = Some y -> v < y).
Proof.
  revert pre best_index best.
  induction l as [|x l IH]; intros pre bi best Hbest Hle Hlt; cbn [argmin_from].
  - rewrite app_nil_r. by exists best.
  - replace (pre ++ x :: l) with ((pre ++ [x]) ++ l) by (by rewrite <- app_assoc).
    replace (S (length pre)) with (length (pre ++ [x]))
      by (rewrite length_app; cbn; lia).
    destruct (Rlt_dec x best) as [Hx|Hx].
    + apply IH.
      * rewrite lookup_app_r by lia. by rewrite Nat.sub_diag.
      * intros j y Hj. apply lookup_app_Some in Hj as [Hj|[_ Hj]].
        -- apply Hle in Hj. lra.
        -- destruct (j - length pre)%nat; [|done]. injection Hj as <-. lra.
      * intros j y Hlt' Hj. apply lookup_app_Some in Hj as [Hj|[Hge _]]; [|lia].
        apply Hle in Hj. lra.
    + apply IH.
      * apply lookup_app_l_Some. exact Hbest.
      * intros j y Hj. apply lookup_app_Some in Hj as [Hj|[_ Hj]].
        -- by apply Hle in Hj.
        -- destruct (j - length pre)%nat; [|done]. injection Hj as <-. lra.
      * intros j y Hlt' Hj. apply lookup_app_Some in Hj as [Hj|[Hge _]].
        -- by apply (Hlt j).
        -- apply lookup_lt_Some in Hbest. lia.
Qed.

Lemma argmin_spec (l : list R) :
  l <> [] ->
  exists (b : nat) v,
    argmin l = Ok (Z.of_nat b) /\ l !! b = Some v /\
    (forall j y, l !! j = Some y -> v <= y) /\
    (forall j y, (j < b)%nat -> l !! j = Some y -> v < y).
Proof.
  destruct l as [|x l]; [done|]. intros _.
  destruct (argmin_from_spec l [x] 0 x) as (v & Hv & Hle & Hlt).
  - done.
  - intros [|j] y; [by intros [= <-]; lra | done].
  - intros j y Hj. lia.
  - exists (argmin_from 0 x 1 l), v. by cbn [argmin].
Qed.

(** The frequency axis of a consistent processor, entry by entry. *)
Lemma frequencies_lookup (st : SpectrumProcessor) (i : nat) :
  consistent st -> (i < Z.to_nat (fft_size st))%nat ->
  frequencies st !! i =
    Some (center_frequency st
          + IZR (Z.of_nat i - fft_size st / 2) * (sample_rate st / IZR (fft_size st))).
Proof.
  intros Hc Hi. pose proof (cons_size st Hc) as HN.
  assert (frequencies st = frequency_axis st) as ->
    by (apply frequencies_up_to_date; [done | apply Hc | apply Hc]).
  unfold frequency_axis. rewrite list_lookup_fmap, arange_lookup.
  - cbn. f_equal. replace (- (fft_size st / 2) + Z.of_nat i)%Z
      with (Z.of_nat i - fft_size st / 2)%Z by lia. lra.
  - replace (fft_size st - fft_size st / 2 - - (fft_size st / 2))%Z
      with (fft_size st) by lia. done.
Qed.

Lemma frequencies_length (st : SpectrumProcessor) :
  consistent st -> length (frequencies st) = Z.to_nat (fft_size st).
Proof. intros Hc. by destruct (frequency_axis_bins st Hc) as [H _]. Qed.

(** X3. [get_bin_frequency] on a consistent processor: for an index in
    [0, fft_size) the frequency
    [center_frequency + (bin_index - fft_size // 2) * sample_rate / fft_size];
    for any other index, negative ones included, it returns 0.0 and does not
    raise. *)
Theorem get_bin_frequency_spec (st : SpectrumProcessor) (bin_index : Z) :
  consistent st ->
  get_bin_frequency st bin_index =
    Ok (if (0 <=? bin_index)%Z && (bin_index <? fft_size st)%Z
        then center_frequency st
             + IZR (bin_index - fft_size st / 2) * (sample_rate st / IZR (fft_size st))
        else 0).
Proof.
  intros Hc. pose proof (cons_size st Hc) as HN.
  unfold get_bin_frequency. rewrite frequencies_length by done.
  rewrite Z2Nat.id by lia.
  destruct (0 <=? bin_index)%Z eqn:H0; [|done].
  destruct (bin_index <? fft_size st)%Z eqn:H1; [|done]. cbn [andb].
  rewrite frequencies_lookup by (done || lia).
  by rewrite Z2Nat.id by lia.
Qed.

(** The bin that [get_frequency_bin] returns: the first of the nearest. *)
Lemma frequency_bin_is_nearest (st : SpectrumProcessor) (frequency : R) :
  consistent st ->
  exists (b : nat) fb,
    get_frequency_bin st frequency = Ok (Z.of_nat b) /\
    (b < Z.to_nat (fft_size st))%nat /\
    frequencies st !! b = Some fb /\
    (forall j fj, frequencies st !! j = Some fj ->
                  Rabs (fb - frequency) <= Rabs (fj - frequency)) /\
    (forall j fj, (j < b)%nat -> frequencies st !! j = Some fj ->
                  Rabs (fb - frequency) < Rabs (fj - frequency)).
Proof.
  intros Hc. pose proof (cons_size st Hc) as HN.
  pose proof (frequencies_length st Hc) as Hlen.
  unfold get_frequency_bin.
  destruct (frequencies st) as [|f0 fs] eqn:Hf; [cbn in Hlen; lia|].
  rewrite <- Hf in *. clear Hf f0 fs.
  destruct (argmin_spec (map (fun f => Rabs (f - frequency)) (frequencies st)))
    as (b & v & Harg & Hb & Hle & Hlt).
  { intros Hnil. apply (f_equal length) in Hnil. rewrite length_map in Hnil.
    cbn in Hnil. lia. }
  rewrite list_lookup_fmap in Hb.
  destruct (frequencies st !! b) as [fb|] eqn:Hfb; [|done]. injection Hb as <-.
  exists b, fb. split; [done|]. split; [|split; [done|split]].
  - apply lookup_lt_Some in Hfb. lia.
  - intros j fj Hj. apply (Hle j). by rewrite list_lookup_fmap, Hj.
  - intros j fj Hjb Hj. apply (Hlt j); [done|]. by rewrite list_lookup_fmap, Hj.
Qed.

(** X4. [get_frequency_bin] on a consistent processor returns, without
    raising, a bin index below [fft_size] whose frequency is at least as near
    to the requested frequency as that of every other bin, and nearer than
    that of every bin before it (the first of the nearest bins). *)
Theorem get_frequency_bin_nearest (st : SpectrumProcessor) (frequency : R) :
  consistent st ->
  exists (b : nat) fb,
    get_frequency_bin st frequency = Ok (Z.of_nat b) /\
    (b < Z.to_nat (fft_size st))%nat /\
    frequencies st !! b = Some fb /\
    (forall j fj, frequencies st !! j = Some fj ->
                  Rabs (fb - frequency) <= Rabs (fj - frequency)) /\
    (forall j fj, (j < b)%nat -> frequencies st !! j = Some fj ->
                  Rabs (fb - frequency) < Rabs (fj - frequency)).
Proof. exact (frequency_bin_is_nearest st frequency). Qed.

Lemma get_bin_frequency_in_range (st : SpectrumProcessor) (i : nat) :
  consistent st -> (i < Z.to_nat (fft_size st))%nat ->
  exists f, frequencies st !! i = Some f /\ get_bin_frequency st (Z.of_nat i) = Ok f.
Proof.
  intros Hc Hi. pose proof (cons_size st Hc) as HN.
  eexists. split; [by apply frequencies_lookup|].
  unfold get_bin_frequency. rewrite frequencies_length by done.
  replace (0 <=? Z.of_nat i)%Z with true by (symmetry; apply Z.leb_le; lia).
  replace (Z.of_nat i <? Z.of_nat (Z.to_nat (fft_size st)))%Z with true
    by (symmetry; apply Z.ltb_lt; lia).
  cbn [andb]. rewrite Nat2Z.id. by rewrite frequencies_lookup.
Qed.

(** X5. Round trip between bins and frequencies: with a positive sample
    rate, the bin of the frequency of bin [i] is [i]. *)
Theorem frequency_bin_round_trip (st : SpectrumProcessor) (i : nat) (f : R) :
  consistent st -> 0 < sample_rate st ->
  (i < Z.to_nat (fft_size st))%nat ->
  get_bin_frequency st (Z.of_nat i) = Ok f ->
  get_frequency_bin st f = Ok (Z.of_nat i).
Proof.
  intros Hc Hsr Hi Hget.
  destruct (frequency_axis_bins st Hc) as (Hlen & _ & Hmono).
  specialize (Hmono Hsr).
  assert (frequencies st !! i = Some f) as Hf.
  { unfold get_bin_frequency in Hget. rewrite Hlen in Hget.
    replace (0 <=? Z.of_nat i)%Z with true in Hget
      by (symmetry; apply Z.leb_le; lia).
    replace (Z.of_nat i <? Z.of_nat (Z.to_nat (fft_size st)))%Z with true in Hget
      by (symmetry; apply Z.ltb_lt; lia).
    cbn [andb] in Hget. rewrite Nat2Z.id in Hget.
    destruct (frequencies st !! i); [by injection Hget as -> | done]. }
  destruct (frequency_bin_is_nearest st f Hc) as (b & fb & -> & Hb & Hfb & Hle & _).
  specialize (Hle i f Hf). rewrite Rminus_diag, Rabs_R0 in Hle.
  assert (fb = f) as ->.
  { pose proof (Rabs_pos (fb - f)).
    assert (Rabs (fb - f) = 0) as Hz by lra.
    destruct (Req_dec_T (fb - f) 0) as [|Hne]; [lra|].
    by apply Rabs_no_R0 in Hne. }
  destruct (lt_eq_lt_dec b i) as [[Hlt| ->]|Hgt]; [|done|].
  - pose proof (Hmono b i f f Hlt Hfb Hf). lra.
  - pose proof (Hmono i b f f Hgt Hf Hfb). lra.
Qed.

Lemma py_int_nonneg (x : R) : 0 <= x -> py_int x = Zfloor x.
Proof. intros H. unfold py_int. by destruct (Rle_dec 0 x). Qed.

Lemma py_int_IZR (z : Z) : (0 <= z)%Z -> py_int (IZR z) = z.
Proof.
  intros H. rewrite py_int_nonneg by (by apply IZR_le). apply ZfloorZ.
Qed.

Lemma py_int_mono (x y : R) : 0 <= x -> x <= y -> (py_int x <= py_int y)%Z.
Proof.
  intros H0 Hxy. rewrite !py_int_nonneg by lra. by apply Zfloor_le.
Qed.

Lemma pow10_lt (x y : R) : x < y -> pow10 x < pow10 y.
Proof. intros H. unfold pow10. apply Rpower_lt; lra. Qed.

Lemma pow10_le (x y : R) : x <= y -> pow10 x <= pow10 y.
Proof.
  intros [H| ->]; [|lra]. apply Rlt_le. by apply pow10_lt.
Qed.

(** The waterfall line as a function of one dB value, given the least
    linear power [lo] and the span [peak] of the chunk. *)
Lemma waterfall_scale (lo peak x y : R) :
  0 < peak -> lo <= x -> x <= y -> y <= lo + peak ->
  (0 <= astype_uint8 ((x - lo) / peak * 255)
     <= astype_uint8 ((y - lo) / peak * 255))%Z /\
  (astype_uint8 ((y - lo) / peak * 255) <= 255)%Z.
Proof.
  intros Hp Hx Hxy Hy. unfold astype_uint8.
  assert (0 < / peak) as Hinv by (by apply Rinv_0_lt_compat).
  assert (0 <= (x - lo) / peak * 255) as H0.
  { unfold Rdiv. apply Rmult_le_pos; [|lra]. apply Rmult_le_pos; lra. }
  assert ((x - lo) / peak * 255 <= (y - lo) / peak * 255) as H1.
  { unfold Rdiv. apply Rmult_le_compat_r; [lra|].
    apply Rmult_le_compat_r; lra. }
  assert ((y - lo) / peak * 255 <= 255) as H2.
  { replace 255 with (peak / peak * 255) at 2 by (field; lra).
    unfold Rdiv. apply Rmult_le_compat_r; [lra|].
    apply Rmult_le_compat_r; lra. }
  split; [split|].
  - pose proof (py_int_mono 0 _ ltac:(lra) H0) as Hm.
    by rewrite (py_int_IZR 0) in Hm by lia.
  - by apply py_int_mono.
  - pose proof (py_int_mono ((y - lo) / peak * 255) 255 ltac:(lra) H2) as Hm.
    by rewrite (py_int_IZR 255) in Hm by lia.
Qed.

(** X6. [process_waterfall_data] never raises, whatever the state of the
    processor, and leaves the processor as [process_samples] does.  Its line
    has one value per dB value of the spectrum (none when [process_samples]
    failed), each in 0..255 and in the order of the dB values; a bin that
    holds the least dB value gets 0, and unless all bins are equal a bin
    that holds the greatest gets 255. *)
Theorem waterfall_data_range (st : SpectrumProcessor) (samples : list C) :
  let spectrum_db := (process_samples st samples).1.2 in
  exists line,
    process_waterfall_data st samples = (Ok line, (process_samples st samples).2) /\
    length line = length spectrum_db /\
    Forall (fun v => (0 <= v <= 255)%Z) line /\
    (forall i j x y u v,
       spectrum_db !! i = Some x -> spectrum_db !! j = Some y ->
       line !! i = Some u -> line !! j = Some v -> x <= y -> (u <= v)%Z) /\
    (forall i x,
       spectrum_db !! i = Some x -> Forall (fun y => x <= y) spectrum_db ->
       line !! i = Some 0%Z) /\
    (forall i x,
       spectrum_db !! i = Some x -> Forall (fun y => y <= x) spectrum_db ->
       Exists (fun y => y < x) spectrum_db ->
       line !! i = Some 255%Z).
Proof.
  cbn zeta. unfold process_waterfall_data.
  destruct (process_samples st samples) as [[fs db] st']. cbn [fst snd].
  destruct db as [|d0 db0].
  { exists []. repeat split; try done. all: by intros [|?]. }
  cbv beta iota. remember (d0 :: db0) as db eqn:Hdb.
  assert (db <> []) as Hne by (by rewrite Hdb).
  clear Hdb d0 db0.
  set (lin := map (fun x => pow10 (x / 10)) db).
  assert (lin <> []) as Hlin.
  { unfold lin. destruct db; [done|]. done. }
  destruct (np_max_spec lin Hlin) as (hi & -> & Hhi_in & Hhi).
  destruct (np_min_spec lin Hlin) as (lo & Hmin & Hlo_in & Hlo).
  rewrite Hmin. cbn [res_bind].
  assert (forall x, x ∈ db -> lo <= pow10 (x / 10) <= hi) as Hbounds.
  { intros x Hx. rewrite Forall_forall in Hhi, Hlo.
    assert (pow10 (x / 10) ∈ lin) as Hin
      by (unfold lin; apply list_elem_of_fmap; eauto).
    split; [by apply Hlo | by apply Hhi]. }
  destruct (Rlt_dec lo hi) as [Hspan|Hflat].
  - set (normalized := map (fun x => x - lo) lin).
    assert (normalized <> []) as Hnorm.
    { unfold normalized, lin. destruct db; done. }
    destruct (np_max_spec normalized Hnorm) as (peak & -> & Hpk_in & Hpk).
    cbn [res_bind].
    assert (peak = hi - lo) as ->.
    { rewrite Forall_forall in Hpk, Hhi.
      apply Rle_antisym.
      - unfold normalized in Hpk_in.
        apply list_elem_of_fmap in Hpk_in as (x & -> & Hx).
        apply Hhi in Hx. lra.
      - apply Hpk. unfold normalized. apply list_elem_of_fmap. eauto. }
    unfold normalized, lin. rewrite !map_map.
    eexists. split; [reflexivity|].
    split; [by rewrite length_map|]. split; [|split; [|split]].
    + apply Forall_forall. intros v Hv.
      apply list_elem_of_fmap in Hv as (x & -> & Hx).
      destruct (Hbounds x Hx).
      destruct (waterfall_scale lo (hi - lo) (pow10 (x / 10)) (pow10 (x / 10)));
        try lra. lia.
    + intros i j x y u v Hi Hj Hu Hv Hxy.
      rewrite list_lookup_fmap, Hi in Hu. rewrite list_lookup_fmap, Hj in Hv.
      injection Hu as <-. injection Hv as <-.
      destruct (Hbounds x) as [? ?]; [by eapply list_elem_of_lookup_2|].
      destruct (Hbounds y) as [? ?]; [by eapply list_elem_of_lookup_2|].
      assert (pow10 (x / 10) <= pow10 (y / 10)) by (apply pow10_le; lra).
      destruct (waterfall_scale lo (hi - lo) (pow10 (x / 10)) (pow10 (y / 10)));
        try lra. lia.
    + intros i x Hi Hleast. rewrite list_lookup_fmap, Hi. cbn. f_equal.
      assert (pow10 (x / 10) = lo) as ->.
      { apply Rle_antisym; [|apply Hbounds; by eapply list_elem_of_lookup_2].
        unfold lin in Hlo_in. apply list_elem_of_fmap in Hlo_in as (z & -> & Hz).
        apply pow10_le. rewrite Forall_forall in Hleast. apply Hleast in Hz. lra. }
      rewrite Rminus_diag. unfold Rdiv. rewrite !Rmult_0_l.
      unfold astype_uint8. apply (py_int_IZR 0). lia.
    + intros i x Hi Hgreatest _. rewrite list_lookup_fmap, Hi. cbn. f_equal.
      assert (pow10 (x / 10) = hi) as ->.
      { apply Rle_antisym; [apply Hbounds; by eapply list_elem_of_lookup_2|].
        unfold lin in Hhi_in. apply list_elem_of_fmap in Hhi_in as (z & -> & Hz).
        apply pow10_le. rewrite Forall_forall in Hgreatest. apply Hgreatest in Hz. lra. }
      replace ((hi - lo) / (hi - lo) * 255) with 255 by (field; lra).
      unfold astype_uint8. apply (py_int_IZR 255). lia.
  - cbn [res_bind]. unfold lin. rewrite !map_map.
    eexists. split; [reflexivity|].
    assert (astype_uint8 0 = 0%Z) as Hzero
      by (unfold astype_uint8; apply (py_int_IZR 0); lia).
    split; [by rewrite length_map|]. split; [|split; [|split]].
    + apply Forall_forall. intros v Hv.
      apply list_elem_of_fmap in Hv as (x & -> & Hx). rewrite Hzero. lia.
    + intros i j x y u v Hi Hj Hu Hv Hxy.
      rewrite list_lookup_fmap, Hi in Hu. rewrite list_lookup_fmap, Hj in Hv.
      injection Hu as <-. injection Hv as <-. lia.
    + intros i x Hi _. rewrite list_lookup_fmap, Hi. cbn. by rewrite Hzero.
    + intros i x Hi Hgreatest Hless. exfalso. apply Hflat.
      apply Exists_exists in Hless as (y & Hy & Hyx).
      destruct (Hbounds y Hy) as [? _].
      destruct (Hbounds x) as [_ ?]; [by eapply list_elem_of_lookup_2|].
      assert (pow10 (y / 10) < pow10 (x / 10)) by (apply pow10_lt; lra). lra.
Qed.

(** X7. [get_spectrum_info] on a consistent processor with a positive
    sample rate does not raise; the resolution it reports is
    [sample_rate / fft_size], and the frequency range runs from
    [center - (fft_size // 2) * resolution] to
    [center + (fft_size - fft_size // 2 - 1) * resolution]: the range spans
    one resolution step less than the [frequency_span] reported beside it. *)
Theorem spectrum_info_range (st : SpectrumProcessor) :
  consistent st -> 0 < sample_rate st ->
  exists info,
    get_spectrum_info st = Ok info /\
    info_frequency_resolution info = sample_rate st / IZR (fft_size st) /\
    info_frequency_min info
      = center_frequency st
        - IZR (fft_size st / 2) * info_frequency_resolution info /\
    info_frequency_max info
      = center_frequency st
        + IZR (fft_size st - fft_size st / 2 - 1) * info_frequency_resolution info /\
    info_frequency_max info - info_frequency_min info
      = info_frequency_span info - info_frequency_resolution info.
Proof.
  intros Hc Hsr. pose proof (cons_size st Hc) as HN.
  destruct (frequency_axis_bins st Hc) as (Hlen & _ & Hmono).
  specialize (Hmono Hsr).
  assert (frequencies st <> []) as Hne.
  { intros Hnil. rewrite Hnil in Hlen. cbn in Hlen. lia. }
  set (N := fft_size st) in *. set (r := sample_rate st / IZR N).
  assert (IZR N <> 0) as HN0 by (apply not_0_IZR; lia).
  pose proof (frequencies_lookup st 0 Hc ltac:(lia)) as Hfirst.
  pose proof (frequencies_lookup st (Z.to_nat N - 1) Hc ltac:(lia)) as Hlast.
  fold N r in Hfirst, Hlast.
  destruct (np_min_spec _ Hne) as (lo & Hmin & Hlo_in & Hlo).
  destruct (np_max_spec _ Hne) as (hi & Hmax & Hhi_in & Hhi).
  rewrite Forall_forall in Hlo, Hhi.
  assert (lo = center_frequency st + IZR (Z.of_nat 0 - N / 2) * r) as Hlo_eq.
  { apply list_elem_of_lookup in Hlo_in as [k Hk].
    destruct k as [|k]; [congruence|].
    pose proof (Hmono 0%nat (S k) _ _ ltac:(lia) Hfirst Hk).
    pose proof (Hlo _ (list_elem_of_lookup_2 _ _ _ Hfirst)). lra. }
  assert (hi = center_frequency st + IZR (Z.of_nat (Z.to_nat N - 1) - N / 2) * r)
    as Hhi_eq.
  { apply list_elem_of_lookup in Hhi_in as [k Hk].
    pose proof (lookup_lt_Some _ _ _ Hk) as Hklt. rewrite Hlen in Hklt.
    destruct (decide (k = Z.to_nat N - 1)%nat) as [->|Hne']; [congruence|].
    pose proof (Hmono k (Z.to_nat N - 1)%nat _ _ ltac:(lia) Hk Hlast).
    pose proof (Hhi _ (list_elem_of_lookup_2 _ _ _ Hlast)). lra. }
  unfold get_spectrum_info, py_div.
  destruct (Req_dec_T (IZR (fft_size st)) 0) as [Hz|_]; [done|].
  rewrite Hmin, Hmax. cbn [res_bind]. eexists. split; [reflexivity|].
  cbn [info_frequency_resolution info_frequency_min info_frequency_max
       info_frequency_span].
  fold N r. rewrite Hlo_eq, Hhi_eq.
  replace (Z.of_nat (Z.to_nat N - 1) - N / 2)%Z with (N - N / 2 - 1)%Z by lia.
  replace (Z.of_nat 0 - N / 2)%Z with (- (N / 2))%Z by lia.
  rewrite !minus_IZR, opp_IZR. repeat split; try lra.
  unfold r. field. done.
Qed.

Lemma zip_with_diag {A B} (f : A -> A -> B) (l : list A) :
  zip_with f l l = map (fun x => f x x) l.
Proof. induction l; cbn; congruence. Qed.

Lemma zip_with_nested {A B D E} (f : A -> D -> E) (g : A -> B -> D)
    (l : list A) (m : list B) :
  zip_with f l (zip_with g l m) = zip_with (fun x y => f x (g x y)) l m.
Proof.
  revert m. induction l as [|x l IH]; intros [|y m]; cbn; try done. by rewrite IH.
Qed.

Lemma zip_with_ext' {A B D} (f g : A -> B -> D) (l : list A) (m : list B) :
  (forall x y, f x y = g x y) -> zip_with f l m = zip_with g l m.
Proof.
  intros H. revert m. induction l as [|x l IH]; intros [|y m]; cbn; try done.
  by rewrite H, IH.
Qed.

(** X8. A chunk processed again and again.  On a consistent processor
    with smoothing enabled, the [i]-th repetition returns, bin by bin,
    [raw + (1 - smoothing_factor)^(i+1) * (previous - raw)], [previous] being
    the spectrum stored before the first call: the distance to the raw
    spectrum of the chunk shrinks by the factor [1 - smoothing_factor] with
    every call.  With no spectrum stored, every repetition returns the raw
    spectrum. *)
Theorem repeated_chunk_smoothing (st : SpectrumProcessor) (samples : list C)
    (k i : nat) :
  consistent st -> previous_fits st -> enable_smoothing st = true ->
  (i < k)%nat ->
  (process_chunks st (replicate k samples)).1 !! i =
    Some (frequencies st,
          match previous_spectrum st with
          | None => raw_of st samples
          | Some previous =>
              zip_with (fun r p => r + (1 - smoothing_factor st) ^ (S i) * (p - r))
                       (raw_of st samples) previous
          end).
Proof.
  revert st k. induction i as [|i IH]; intros st k Hc Hfit Hen Hik.
  - destruct k as [|k]; [lia|]. cbn [replicate process_chunks].
    rewrite process_samples_spec by done. cbn zeta.
    destruct (process_chunks _ (replicate k samples)) as [outs st2].
    cbn [fst lookup list_lookup]. do 2 f_equal.
    unfold smoothed_of. rewrite Hen.
    destruct (previous_spectrum st) as [previous|]; [|done].
    unfold exp_smooth. apply zip_with_ext'. intros x y. ring.
  - destruct k as [|k]; [lia|]. cbn [replicate process_chunks].
    rewrite process_samples_spec by done. cbn zeta.
    set (s := smoothed_of st (raw_of st samples)).
    set (st1 := set_previous_spectrum st (Some s)).
    assert (consistent st1 /\ previous_fits st1) as [Hc1 Hfit1].
    { pose proof (process_samples_keeps st samples Hc Hfit) as (H1 & H2 & _).
      rewrite process_samples_spec in H1, H2 by done. done. }
    specialize (IH st1 k Hc1 Hfit1 Hen ltac:(lia)).
    destruct (process_chunks st1 (replicate k samples)) as [outs st2].
    cbn [fst] in *. rewrite lookup_cons_ne_0 by done. cbn [Nat.pred]. rewrite IH.
    cbn [st1 frequencies set_previous_spectrum previous_spectrum smoothing_factor].
    do 2 f_equal.
    change (raw_of (set_previous_spectrum st (Some s)) samples)
      with (raw_of st samples).
    unfold s, smoothed_of. rewrite Hen.
    destruct (previous_spectrum st) as [previous|].
    + unfold exp_smooth. rewrite zip_with_nested.
      apply zip_with_ext'. intros x y. cbn [pow]. ring.
    + rewrite zip_with_diag. rewrite <- (map_id (raw_of st samples)) at 2.
      apply map_ext. intros x. ring.
Qed.

End SpectrumViewFacts.

Lemma get_bin_frequency_spec_witness :
  exists st,
    Spectrum.SpectrumProcessor_init Spectrum.i0_unused 4 2400000 0.5 "hann" false = Ok st /\
    SpectrumViews.get_bin_frequency st 1
      = Ok (Spectrum.center_frequency st
            + IZR (1 - 4 / 2) * (Spectrum.sample_rate st / 4))%R /\
    SpectrumViews.get_bin_frequency st 4 = Ok 0%R /\
    SpectrumViews.get_bin_frequency st (-1) = Ok 0%R.
Proof.
  destruct (init_ok Spectrum.i0_unused 4 2400000 0.5 "hann" false)
    as (st & Hinit & Hc & _ & Hfs & _); [lia | lra | lra |].
  exists st. split; [exact Hinit|].
  rewrite !(get_bin_frequency_spec st _ Hc), Hfs. done.
Defined.

Lemma get_frequency_bin_nearest_witness :
  exists st b,
    Spectrum.SpectrumProcessor_init Spectrum.i0_unused 4 2400000 0.5 "hann" false = Ok st /\
    SpectrumViews.get_frequency_bin st 100000000 = Ok (Z.of_nat b) /\
    (b < 4)%nat.
Proof.
  destruct (init_ok Spectrum.i0_unused 4 2400000 0.5 "hann" false)
    as (st & Hinit & Hc & _ & Hfs & _); [lia | lra | lra |].
  destruct (get_frequency_bin_nearest st 100000000 Hc) as (b & fb & Hget & Hb & _).
  exists st, b. rewrite Hfs in Hb. split; [exact Hinit|]. split; [exact Hget|]. lia.
Defined.

Lemma frequency_bin_round_trip_witness :
  exists st f,
    Spectrum.SpectrumProcessor_init Spectrum.i0_unused 4 2400000 0.5 "hann" false = Ok st /\
    SpectrumViews.get_bin_frequency st 1 = Ok f /\
    SpectrumViews.get_frequency_bin st f = Ok 1%Z.
Proof.
  destruct (init_ok Spectrum.i0_unused 4 2400000 0.5 "hann" false)
    as (st & Hinit & Hc & _ & Hfs & Hsr & _); [lia | lra | lra |].
  assert (1 < Z.to_nat (Spectrum.fft_size st))%nat as Hi by (rewrite Hfs; lia).
  destruct (get_bin_frequency_in_range st 1 Hc Hi) as (f & _ & Hget).
  exists st, f. split; [exact Hinit|]. split; [exact Hget|].
  apply (frequency_bin_round_trip st 1 f Hc); [rewrite Hsr; lra | exact Hi | exact Hget].
Defined.

Lemma spectrum_info_range_witness :
  exists st info,
    Spectrum.SpectrumProcessor_init Spectrum.i0_unused 4 2400000 0.5 "hann" false = Ok st /\
    SpectrumViews.get_spectrum_info st = Ok info /\
    (SpectrumViews.info_frequency_max info - SpectrumViews.info_frequency_min info
     = SpectrumViews.info_frequency_span info
       - SpectrumViews.info_frequency_resolution info)%R.
Proof.
  destruct (init_ok Spectrum.i0_unused 4 2400000 0.5 "hann" false)
    as (st & Hinit & Hc & _ & Hfs & Hsr & _); [lia | lra | lra |].
  destruct (spectrum_info_range st Hc) as (info & Hget & _ & _ & _ & Hspan);
    [rewrite Hsr; lra|].
  exists st, info. split; [exact Hinit|]. split; [exact Hget | exact Hspan].
Defined.

Lemma repeated_chunk_smoothing_witness :
  exists st,
    Spectrum.SpectrumProcessor_init Spectrum.i0_unused 4 2400000 0.5 "hann" false = Ok st /\
    (SpectrumViews.process_chunks st (replicate 3 (Spectrum.silence 4))).1 !! 2%nat
    = Some (Spectrum.frequencies st, Spectrum.raw_of st (Spectrum.silence 4)).
Proof.
  destruct (init_ok Spectrum.i0_unused 4 2400000 0.5 "hann" false)
    as (st & Hinit & Hc & Hprev & _ & _ & _ & _ & _ & Hen & _); [lia | lra | lra |].
  assert (Spectrum.previous_fits st) as Hfit
    by (unfold Spectrum.previous_fits; by rewrite Hprev).
  exists st. split; [exact Hinit|].
  rewrite (repeated_chunk_smoothing st (Spectrum.silence 4) 3 2 Hc Hfit Hen) by lia.
  by rewrite Hprev.
Defined.

(** ** Demodulators: filter design, filter cache, output length *)

Section DemodShapes.
Import Np Demod ScipyShapes.
Local Open Scope R_scope.
Variable sp : Scipy.

(** X9. The band edges that the filter design hands to [butter], for a
    positive sample rate.  A low-pass cutoff is at most 0.95 of Nyquist (and
    positive for a positive bandwidth).  A band-pass has its lower edge above
    zero and its upper edge at most 0.95 of Nyquist, and is asked for only
    when the lower edge is below the upper one; otherwise a low-pass at the
    upper edge is designed instead.  Any other filter type designs nothing. *)
Theorem design_filter_edges (sample_rate bandwidth : R) (filter_type : string)
    (low_cutoff high_cutoff : option R) :
  0 < sample_rate ->
  (filter_type = "lowpass"%string ->
   exists wn,
     wn <= 0.95 /\ (0 < bandwidth -> 0 < wn) /\
     design_filter sp sample_rate bandwidth filter_type low_cutoff high_cutoff
     = (sos <- butter_sos sp 6 (lowpass wn) ;;; Ok (Some sos))%res) /\
  (filter_type = "bandpass"%string ->
   exists low high,
     0 < low /\ high <= 0.95 /\
     design_filter sp sample_rate bandwidth filter_type low_cutoff high_cutoff
     = (sos <- (if Rlt_dec low high then butter_sos sp 4 (bandpass low high)
                else butter_sos sp 6 (lowpass high)) ;;;
        Ok (Some sos))%res) /\
  (filter_type <> "lowpass"%string -> filter_type <> "bandpass"%string ->
   design_filter sp sample_rate bandwidth filter_type low_cutoff high_cutoff
   = Ok None).
Proof.
  intros Hsr.
  assert (0 < sample_rate / 2) as Hnyq by lra.
  assert (0 < / (sample_rate / 2)) as Hinv by (by apply Rinv_0_lt_compat).
  assert (forall x, x <= sample_rate / 2 * 0.95 -> x / (sample_rate / 2) <= 0.95)
    as Hdiv.
  { intros x Hx. replace 0.95 with (sample_rate / 2 * 0.95 / (sample_rate / 2))
      by (field; lra).
    unfold Rdiv at 1 3. apply Rmult_le_compat_r; lra. }
  split; [|split].
  - intros ->. unfold design_filter. cbn [String.eqb Ascii.eqb Bool.eqb].
    unfold py_div. destruct (Req_dec_T (sample_rate / 2) 0); [lra|].
    cbn [res_bind]. eexists. split; [|split; [|reflexivity]].
    + apply Hdiv. apply Rmin_r.
    + intros Hbw. unfold Rdiv at 1. apply Rmult_lt_0_compat; [|done].
      apply Rmin_glb_lt; lra.
  - intros ->. unfold design_filter. cbn [String.eqb Ascii.eqb Bool.eqb].
    unfold py_div. destruct (Req_dec_T (sample_rate / 2) 0); [lra|].
    cbn [res_bind]. eexists _, _. split; [|split; [|reflexivity]].
    + unfold Rdiv at 1. apply Rmult_lt_0_compat; [|done].
      pose proof (Rmax_r (or_default low_cutoff 300) 1). lra.
    + apply Hdiv. apply Rmin_r.
  - intros Hl Hb. unfold design_filter.
    apply String.eqb_neq in Hl, Hb. by rewrite Hl, Hb.
Qed.

Lemma filter_cache_step (st : AudioDemodulators) (audio : list R)
    (sample_rate bandwidth : R) (filter_type : string) (low high : option R) :
  let key : FilterKey := (filter_type, sample_rate, bandwidth, low, high) in
  let st' :=
    (_apply_audio_filter sp st audio sample_rate bandwidth filter_type low high).2 in
  (forall k sos, _audio_filter_cache st k = Some sos ->
                 _audio_filter_cache st' k = Some sos) /\
  (forall k, k <> key -> _audio_filter_cache st' k = _audio_filter_cache st k) /\
  (forall sos,
     _audio_filter_cache st key = None ->
     design_filter sp sample_rate bandwidth filter_type low high = Ok (Some sos) ->
     _audio_filter_cache st' key = Some sos).
Proof.
  cbn zeta. unfold _apply_audio_filter.
  destruct (_audio_filter_cache st _) as [sos0|] eqn:Hhit.
  - destruct (sosfilt sp sos0 audio); cbn [snd]; repeat split; try done.
  - destruct (design_filter _ _ _ _ _ _) as [[sos1|]|e]; cbn [snd];
      try (repeat split; done).
    destruct (sosfilt sp sos1 audio); cbn [snd cache_insert _audio_filter_cache];
      (split; [|split]).
    all: try (intros k sos Hk; destruct (decide _) as [->|]; [congruence | done]).
    all: try (intros k Hk; by destruct (decide _)).
    all: intros sos _ [= <-]; by destruct (decide _).
Qed.

(** X10. The filter cache only grows.  A call of [_apply_audio_filter]
    changes no entry but the one of its own key, and that one only when it
    was missing and the design succeeded: the designed filter is then cached
    (also when applying it raises).  So no demodulator call evicts or replaces
    a cached filter. *)
Theorem filter_cache_kept :
  (forall st audio sample_rate bandwidth filter_type low high,
     let key : FilterKey := (filter_type, sample_rate, bandwidth, low, high) in
     let st' :=
       (_apply_audio_filter sp st audio sample_rate bandwidth filter_type low high).2 in
     (forall k, k <> key -> _audio_filter_cache st' k = _audio_filter_cache st k) /\
     (forall sos, _audio_filter_cache st key = Some sos ->
                  _audio_filter_cache st' key = Some sos) /\
     (forall sos,
        _audio_filter_cache st key = None ->
        design_filter sp sample_rate bandwidth filter_type low high = Ok (Some sos) ->
        _audio_filter_cache st' key = Some sos)) /\
  (forall d st iq_samples sample_rate bandwidth k sos,
     _audio_filter_cache st k = Some sos ->
     _audio_filter_cache (demodulate sp d st iq_samples sample_rate bandwidth).2 k
     = Some sos).
Proof.
  split.
  - intros st audio sr bw ft lo hi. cbn zeta.
    destruct (filter_cache_step st audio sr bw ft lo hi) as (Hkeep & Hother & Hnew).
    split; [exact Hother|]. split; [|exact Hnew]. intros sos. apply Hkeep.
  - assert (forall st audio sr bw ft lo hi k sos,
              _audio_filter_cache st k = Some sos ->
              _audio_filter_cache (_apply_audio_filter sp st audio sr bw ft lo hi).2 k
              = Some sos) as Hstep.
    { intros st audio sr bw ft lo hi.
      by destruct (filter_cache_step st audio sr bw ft lo hi) as (Hkeep & _). }
    intros d st iq sr bw k sos Hk.
    destruct d as [|deviation|mode|tone]; cbn [demodulate].
    + unfold am_demodulate.
      destruct bw as [b|]; [|done].
      destruct (Rlt_dec b _); [|done].
      specialize (Hstep st (map (fun a => a - mean (map Cabs iq)) (map Cabs iq))
                    sr b "lowpass"%string None None k sos Hk).
      by destruct (_apply_audio_filter _ _ _ _ _ _ _ _).
    + unfold fm_demodulate.
      destruct (map real _) as [|I0 I]; [done|].
      destruct (map imag _) as [|Q0 Q]; [done|].
      destruct bw as [b|]; [|done].
      match goal with
      | |- context [_apply_audio_filter sp st ?a ?r ?w ?t ?l ?h] =>
          pose proof (Hstep st a r w t l h k sos Hk) as H1;
          destruct (_apply_audio_filter sp st a r w t l h) as [audio1 st1]
      end.
      cbn [snd] in H1.
      match goal with
      | |- context [_apply_audio_filter sp st1 ?a ?r ?w ?t ?l ?h] =>
          pose proof (Hstep st1 a r w t l h k sos H1) as H2;
          destruct (_apply_audio_filter sp st1 a r w t l h) as [audio2 st2]
      end.
      done.
    + unfold ssb_demodulate. destruct (negb _); [done|].
      match goal with
      | |- context [_apply_audio_filter sp st ?a ?r ?w ?t ?l ?h] =>
          pose proof (Hstep st a r w t l h k sos Hk) as H1;
          destruct (_apply_audio_filter sp st a r w t l h) as [audio1 st1]
      end.
      done.
    + unfold cw_demodulate.
      match goal with
      | |- context [_apply_audio_filter sp st ?a ?r ?w ?t ?l ?h] =>
          pose proof (Hstep st a r w t l h k sos Hk) as H1;
          destruct (_apply_audio_filter sp st a r w t l h) as [audio1 st1]
      end.
      done.
Qed.

(** *** Lengths *)

Lemma agc_main_length (audio out : list R) (target_level : R) :
  agc_main sp audio target_level = Ok out -> length out = length audio.
Proof.
  unfold agc_main. destruct audio as [|a audio]; [by intros [= <-]|].
  cbv beta iota. remember (a :: audio) as l eqn:Hl. clear Hl a audio.
  destruct (if (_ <? _)%Z then _ else _) as [envelope|e1]; [|done]. cbn [res_bind].
  match goal with |- context [if ?c then _ else _] => destruct c end.
  - destruct (decide _) as [Hlen|]; [|done]. cbn [res_bind].
    rewrite !length_map in Hlen.
    rewrite broadcast_same.
    + cbn [res_bind]. intros [= <-].
      rewrite length_map, length_zip_with, length_map, length_zip_with, length_map.
      lia.
    + rewrite length_map, length_zip_with, length_map. lia.
  - cbn [res_bind]. intros [= <-]. by rewrite length_map.
Qed.

(** The gain control returns, whatever scipy does, and keeps the length. *)
Lemma apply_agc_length (audio : list R) (target_level attack release : R) :
  exists out,
    _apply_agc sp audio target_level attack release = Ok out /\
    length out = length audio.
Proof.
  unfold _apply_agc.
  destruct (agc_main sp audio target_level) as [o|e] eqn:Hmain.
  - exists o. split; [done|]. by eapply agc_main_length.
  - destruct audio as [|a audio]; [done|].
    destruct (np_max (map Rabs (a :: audio))) as [max_val|e'] eqn:Hmax; [|done].
    cbn [res_bind].
    destruct (Rlt_dec 0 max_val); eexists; (split; [done|]); by rewrite ?length_map.
Qed.

Section Shaped.
Hypothesis Hsp : length_respecting sp.

Lemma filter_length (st : AudioDemodulators) (audio : list R)
    (sample_rate bandwidth : R) (filter_type : string) (low high : option R) :
  length (_apply_audio_filter sp st audio sample_rate bandwidth filter_type low high).1
  = length audio.
Proof using Hsp.
  unfold _apply_audio_filter.
  destruct (_audio_filter_cache st _) as [sos|].
  - destruct (sosfilt sp sos _) as [y|e] eqn:Hy; [|done].
    cbn. by apply (sosfilt_length sp Hsp) in Hy.
  - destruct (design_filter _ _ _ _ _ _) as [[sos|]|e]; try done.
    destruct (sosfilt sp sos _) as [y|e] eqn:Hy; [|done].
    cbn. by apply (sosfilt_length sp Hsp) in Hy.
Qed.

Lemma deemphasis_length (audio : list R) (sample_rate time_constant : R) :
  length (_apply_deemphasis sp audio sample_rate time_constant) = length audio.
Proof using Hsp.
  unfold _apply_deemphasis.
  destruct (py_div 1 _) as [cutoff_freq|e]; [|done]. cbn [res_bind].
  destruct (py_div cutoff_freq _) as [cutoff_norm|e]; [|done]. cbn [res_bind].
  destruct (Rle_dec 1 cutoff_norm); [done|].
  destruct (butter_ba sp 1 _) as [[b a]|e]; [|done]. cbn [res_bind fst snd].
  destruct (filtfilt sp b a _) as [y|e] eqn:Hy; [|done].
  by apply (filtfilt_length sp Hsp) in Hy.
Qed.

Lemma resample_audio_length (audio : list R) (input_rate output_rate : R) :
  0 < input_rate -> 0 < output_rate -> input_rate <> output_rate ->
  let expected := expected_length (length audio) input_rate output_rate in
  let k := length (_resample_audio sp audio input_rate output_rate) in
  (k = expected \/ k = length audio) /\ (expected <> 0%nat -> k = expected).
Proof using Hsp.
  intros Hin Hout Hne. cbn zeta.
  unfold _resample_audio, expected_length.
  destruct (Req_dec_T input_rate output_rate); [done|].
  unfold py_div. destruct (Req_dec_T input_rate 0); [lra|]. cbn [res_bind].
  set (m := py_int (INR (length audio) * (output_rate / input_rate))).
  destruct (resample sp audio m) as [y|e] eqn:Hy.
  - apply (resample_length sp Hsp) in Hy. by auto.
  - split; [by right|]. intros Hm.
    destruct audio as [|a audio].
    { exfalso. apply Hm. unfold m. cbn [length INR].
      by rewrite Rmult_0_l, py_int_0. }
    destruct (resample_defined sp Hsp (a :: audio) m) as [y Hy']; [done|lia|].
    congruence.
Qed.

(** The common tail of the demodulators on audio of [n] samples. *)
Lemma tail_length (p : list R * AudioDemodulators) (m n : nat)
    (st : AudioDemodulators) (sample_rate target attack release : R) :
  length p.1 = n ->
  audio_sample_rate p.2 = audio_sample_rate st ->
  0 < sample_rate -> 0 < audio_sample_rate st ->
  let expected := expected_length n sample_rate (audio_sample_rate st) in
  exists audio,
    (let '(audio, st1) := p in
     (finish m (resample_and_agc sp st1 audio sample_rate target attack release),
      st1)).1
    = Ok audio /\
    (length audio = expected \/ length audio = n) /\
    (expected <> 0%nat -> length audio = expected).
Proof using Hsp.
  destruct p as [audio st1]. cbn [fst snd]. intros <- Hrate Hsr Har. cbn zeta.
  unfold resample_and_agc. rewrite Hrate.
  destruct (Req_dec_T sample_rate (audio_sample_rate st)) as [Heq|Hne].
  - destruct (apply_agc_length audio target attack release) as (out & -> & Hlen).
    exists out. unfold expected_length.
    destruct (Req_dec_T sample_rate (audio_sample_rate st)); [|done].
    cbn. rewrite Hlen. by auto.
  - pose proof (resample_audio_length audio sample_rate (audio_sample_rate st)
                  Hsr Har Hne) as Hk. cbn zeta in Hk.
    destruct (apply_agc_length
                (_resample_audio sp audio sample_rate (audio_sample_rate st))
                target attack release) as (out & -> & Hlen).
    exists out. cbn. by rewrite Hlen.
Qed.

End Shaped.

(** The length of the audio that a demodulator returns. *)
Lemma demodulate_length (d : demodulator) (st : AudioDemodulators)
    (iq_samples : list C) (sample_rate : R) (bandwidth : option R) :
  length_respecting sp ->
  0 < sample_rate -> 0 < audio_sample_rate st ->
  (forall mode, d = SSB mode -> lower mode = "usb"%string \/ lower mode = "lsb"%string) ->
  let n := length iq_samples in
  let expected := expected_length n sample_rate (audio_sample_rate st) in
  exists audio,
    (demodulate sp d st iq_samples sample_rate bandwidth).1 = Ok audio /\
    (length audio = expected \/ length audio = n) /\
    (expected <> 0%nat -> length audio = expected).
Proof.
  intros Hsp Hsr Har Hmode. cbn zeta.
  destruct d as [|deviation|mode|tone]; cbn [demodulate].
  - unfold am_demodulate. apply (tail_length Hsp); try done.
    + destruct bandwidth as [bw|]; [|cbn [fst]; by rewrite !length_map].
      destruct (Rlt_dec bw _); [|cbn [fst]; by rewrite !length_map].
      by rewrite (filter_length Hsp), !length_map.
    + destruct bandwidth as [bw|]; [|done].
      destruct (Rlt_dec bw _); [|done]. apply filter_rate.
  - unfold fm_demodulate.
    set (centred := map (fun z => Csub z (Cmean iq_samples)) iq_samples).
    set (limited := zip_with Cdiv_real centred _).
    assert (length limited = length iq_samples) as Hlim.
    { unfold limited, centred. rewrite length_zip_with, !length_map. lia. }
    destruct limited as [|z zs].
    { cbn [map]. destruct iq_samples; [|done]. cbn [length fst finish try_except].
      exists []. rewrite expected_length_0. by auto. }
    cbn [map]. set (I := real z :: map real zs). set (Q := imag z :: map imag zs).
    assert (length I = length iq_samples /\ length Q = length iq_samples)
      as [HI HQ] by (unfold I, Q; cbn [length] in *; by rewrite !length_map).
    set (audio0 := map (fun x => x / deviation) _).
    assert (length audio0 = length iq_samples) as H0.
    { unfold audio0, diff_prepend.
      rewrite !length_map, !length_zip_with. cbn [length]. lia. }
    set (p1 := match bandwidth with Some _ => _ | None => _ end).
    assert (length p1.1 = length iq_samples /\
            audio_sample_rate p1.2 = audio_sample_rate st) as [H1 H1r].
    { unfold p1. destruct bandwidth; [|done].
      split; [by rewrite (filter_length Hsp) | apply filter_rate]. }
    destruct p1 as [audio1 st1]. cbn [fst snd] in H1, H1r. cbv beta iota.
    set (audio2 := if Rle_dec 50000 deviation then _ else _).
    assert (length audio2 = length iq_samples) as H2.
    { unfold audio2. destruct (Rle_dec 50000 deviation); [|done].
      by rewrite (deemphasis_length Hsp). }
    apply (tail_length Hsp); try done.
    + destruct bandwidth; [|done]. by rewrite (filter_length Hsp).
    + destruct bandwidth; [|done]. by rewrite filter_rate.
  - unfold ssb_demodulate.
    replace (negb _) with false
      by (by destruct (Hmode mode eq_refl) as [-> | ->]).
    apply (tail_length Hsp); try done; [|apply filter_rate].
    rewrite (filter_length Hsp). by destruct (_ =? _)%string; rewrite length_map.
  - unfold cw_demodulate.
    apply (tail_length Hsp); try done; [|apply filter_rate].
    rewrite (filter_length Hsp), length_map, length_zip_with, !length_map, length_seq.
    lia.
Qed.

(** X11. The length of the demodulated audio, for any chunk.  With
    scipy returning arrays of the documented shapes, positive rates and a
    valid SSB mode, every demodulator returns
    [int(n * audio_rate / sample_rate)] samples for a chunk of [n] samples
    ([n] samples at equal rates) whenever that number is not zero; where it
    is zero the result has either no sample or [n] samples (the latter when
    [resample(x, 0)] raises). *)
Theorem demodulator_output_length (d : demodulator) (st : AudioDemodulators)
    (iq_samples : list C) (sample_rate : R) (bandwidth : option R) :
  length_respecting sp ->
  0 < sample_rate -> 0 < audio_sample_rate st ->
  (forall mode, d = SSB mode -> lower mode = "usb"%string \/ lower mode = "lsb"%string) ->
  let n := length iq_samples in
  let expected := expected_length n sample_rate (audio_sample_rate st) in
  exists audio,
    (demodulate sp d st iq_samples sample_rate bandwidth).1 = Ok audio /\
    (length audio = expected \/ length audio = n) /\
    (expected <> 0%nat -> length audio = expected).
Proof. exact (demodulate_length d st iq_samples sample_rate bandwidth). Qed.

End DemodShapes.

(** The stand-in for scipy returns arrays of the documented shapes. *)
Lemma scipy_stub_shapes : ScipyShapes.length_respecting Demod.scipy_stub.
Proof.
  split.
  - by intros sos x y [= <-].
  - by intros b a x y [= <-].
  - intros x m y. cbn [Demod.resample Demod.scipy_stub].
    destruct (m <? 0)%Z; [done|]. intros [= <-].
    rewrite length_app, length_take, length_replicate. lia.
  - intros x m _ Hm. cbn [Demod.resample Demod.scipy_stub].
    destruct (m <? 0)%Z eqn:Hneg; [lia|]. by eexists.
Qed.

Lemma design_filter_edges_witness :
  exists wn,
    (wn <= 0.95)%R /\
    Demod.design_filter Demod.scipy_stub 48000 5000 "lowpass" None None
    = (sos <- Demod.butter_sos Demod.scipy_stub 6 (Demod.lowpass wn) ;;;
       Ok (Some sos))%res.
Proof.
  destruct (design_filter_edges Demod.scipy_stub 48000 5000 "lowpass" None None)
    as (Hlow & _); [lra|].
  destruct (Hlow eq_refl) as (wn & Hwn & _ & Hdesign).
  exists wn. split; [exact Hwn | exact Hdesign].
Defined.

Lemma filter_cache_kept_witness :
  let key : Demod.FilterKey := ("lowpass"%string, 48000%R, 5000%R, None, None) in
  let st := Demod.cache_insert (Demod.AudioDemodulators_init 48000) key [] in
  Demod._audio_filter_cache
    (Demod.demodulate Demod.scipy_stub (Demod.FM 75000) st [(1, 0)%R] 48000
       (Some 3000%R)).2 key
  = Some [].
Proof.
  cbn zeta. destruct (filter_cache_kept Demod.scipy_stub) as [_ Hkeep].
  apply Hkeep. cbn [Demod.cache_insert Demod._audio_filter_cache].
  by destruct (decide _).
Defined.

Lemma demodulator_output_length_witness :
  exists audio,
    (Demod.demodulate Demod.scipy_stub Demod.AM (Demod.AudioDemodulators_init 48000)
       (replicate 100 (1, 0)%R) 2400000 None).1 = Ok audio /\
    length audio = 2%nat.
Proof.
  destruct (demodulator_output_length Demod.scipy_stub Demod.AM
              (Demod.AudioDemodulators_init 48000) (replicate 100 (1, 0)%R)
              2400000 None scipy_stub_shapes)
    as (audio & Hres & _ & Hlen).
  - lra.
  - cbn. lra.
  - discriminate.
  - exists audio. split; [exact Hres|].
    rewrite length_replicate in Hlen.
    cbn [Demod.audio_sample_rate Demod.AudioDemodulators_init] in Hlen.
    rewrite expected_length_example in Hlen. by apply Hlen.
Defined.

(** ** The demodulator plugin *)

Section DemodPluginFacts.
Import Np Demod ScipyShapes PluginBase DemodPlug.
Local Open Scope R_scope.
Variable sp : Scipy.

Lemma np_max_in (l : list R) (m : R) : np_max l = Ok m -> m ∈ l.
Proof.
  destruct l as [|x l]; [done|]. intros [= <-]. apply foldr_Rmax_in.
Qed.

(** X12. What [_demodulate] returns is normalised to a peak of 0.5: every
    sample lies in [-0.5, 0.5], and unless all samples are zero one of them
    has magnitude exactly 0.5, whatever the level that the demodulator's
    gain control had set.  This holds for every mode, chunk and behaviour of
    scipy; a failure gives [None], never an exception. *)
Theorem plugin_audio_peak (p : DemodulatorPlugin) (iq : list C) :
  match (_demodulate sp p iq).1 with
  | Some audio =>
      Forall (fun x => Rabs x <= 0.5) audio /\
      (Exists (fun x => x <> 0) audio -> Exists (fun x => Rabs x = 0.5) audio)
  | None => True
  end.
Proof.
  unfold _demodulate.
  destruct (dispatch sp p iq) as [[[demodulated|e] st']|]; [|done|done].
  destruct (post_process sp p demodulated) as [audio|e] eqn:Hpost; [|done].
  cbn [fst]. unfold post_process in Hpost.
  destruct (if Req_dec_T _ _ then _ else _) as [resampled|e]; [|done].
  cbn [res_bind] in Hpost.
  destruct (if Rlt_dec _ _ then _ else _) as [filtered|e]; [|done].
  cbn [res_bind] in Hpost.
  destruct (0 <? length filtered)%nat eqn:Hlen.
  - destruct (np_max (map Rabs filtered)) as [max_val|e] eqn:Hmax; [|done].
    cbn [res_bind] in Hpost.
    pose proof (np_max_ge _ _ Hmax) as Hle. rewrite Forall_forall in Hle.
    pose proof (np_max_in _ _ Hmax) as Hin.
    destruct (Rlt_dec 0 max_val) as [Hpos|Hzero]; injection Hpost as <-.
    + assert (0 < / max_val) as Hinv by (by apply Rinv_0_lt_compat).
      assert (forall a, Rabs (a / max_val * 0.5) = Rabs a / max_val * 0.5) as Habs.
      { intros a. unfold Rdiv. rewrite !Rabs_mult.
        rewrite (Rabs_pos_eq (/ max_val)) by lra.
        rewrite (Rabs_pos_eq 0.5) by lra. done. }
      split.
      * apply Forall_forall. intros x Hx.
        apply list_elem_of_fmap in Hx as (a & -> & Ha). rewrite Habs.
        assert (Rabs a <= max_val) as Hb
          by (apply Hle, list_elem_of_fmap; eauto).
        replace 0.5 with (max_val / max_val * 0.5) at 2 by (field; lra).
        unfold Rdiv. apply Rmult_le_compat_r; [lra|].
        apply Rmult_le_compat_r; lra.
      * intros _. apply list_elem_of_fmap in Hin as (a & Hmax_eq & Ha).
        apply Exists_exists. exists (a / max_val * 0.5). split.
        -- apply list_elem_of_fmap. eauto.
        -- rewrite Habs, <- Hmax_eq. field. lra.
    + assert (forall a, a ∈ filtered -> a = 0) as Hall.
      { intros a Ha.
        assert (Rabs a <= max_val) as Hb
          by (apply Hle, list_elem_of_fmap; eauto).
        pose proof (Rabs_pos a).
        destruct (Req_dec_T a 0) as [|Hne]; [done|].
        apply Rabs_pos_lt in Hne. lra. }
      split.
      * apply Forall_forall. intros x Hx. rewrite (Hall x Hx), Rabs_R0. lra.
      * intros Hex. apply Exists_exists in Hex as (x & Hx & Hne).
        by apply Hall in Hx.
  - injection Hpost as <-. destruct filtered; [|done].
    split; [constructor|]. intros Hex. by apply Exists_nil in Hex.
Qed.

(** The demodulator that the plugin's mode selects, with the sample rate
    that the call hands to it. *)
Lemma dispatch_modes (p : DemodulatorPlugin) (iq : list C) :
  (mode p = "AM"%string ->
   dispatch sp p iq
   = Some (demodulate sp AM (audio_demodulator p) iq (sample_rate p) None)) /\
  (mode p = "FM"%string ->
   dispatch sp p iq
   = Some (demodulate sp (FM (if (100000 <? bandwidth p)%Z then 75000 else 3000))
             (audio_demodulator p) iq (sample_rate p) None)) /\
  (mode p = "USB"%string ->
   dispatch sp p iq
   = Some (demodulate sp (SSB "usb") (audio_demodulator p) iq (sample_rate p) None)) /\
  (mode p = "LSB"%string ->
   dispatch sp p iq
   = Some (demodulate sp (SSB "lsb") (audio_demodulator p) iq (sample_rate p) None)) /\
  (mode p = "CW"%string ->
   dispatch sp p iq
   = Some (demodulate sp (CW (sample_rate p)) (audio_demodulator p) iq 600 None)).
Proof.
  unfold dispatch. repeat split; intros ->; reflexivity.
Qed.

(** X13. The plugin resamples audio that is already at the audio rate.
    For the modes AM, FM, USB and LSB, with scipy returning arrays of the
    documented shapes and a sample rate other than the audio rate, the
    demodulator turns a chunk of [n] samples into [m = int(n * r)] samples,
    [r] being audio rate over sample rate, and [_demodulate] then resamples
    these by [r] again: it returns [int(m * r)] samples (or [None]), not
    [m]. *)
Theorem plugin_resamples_twice (p : DemodulatorPlugin) (iq : list C) :
  length_respecting sp ->
  mode p = "AM"%string \/ mode p = "FM"%string \/
  mode p = "USB"%string \/ mode p = "LSB"%string ->
  0 < sample_rate p -> 0 < Demod.audio_sample_rate (audio_demodulator p) ->
  sample_rate p <> IZR (audio_sample_rate p) ->
  let m := expected_length (length iq) (sample_rate p)
             (Demod.audio_sample_rate (audio_demodulator p)) in
  m <> 0%nat ->
  match (_demodulate sp p iq).1 with
  | Some audio =>
      length audio
      = Z.to_nat (py_int (INR m * IZR (audio_sample_rate p) / sample_rate p))
  | None => True
  end.
Proof.
  intros Hsp Hmode Hsr Har Hne. cbn zeta. intros Hm.
  assert (exists d,
            dispatch sp p iq
            = Some (demodulate sp d (audio_demodulator p) iq (sample_rate p) None) /\
            (forall mode', d = SSB mode' ->
               lower mode' = "usb"%string \/ lower mode' = "lsb"%string))
    as (d & Hd & Hvalid).
  { destruct (dispatch_modes p iq) as (Ham & Hfm & Husb & Hlsb & _).
    destruct Hmode as [H|[H|[H|H]]].
    - eexists. split; [by apply Ham | done].
    - eexists. split; [by apply Hfm | done].
    - eexists. split; [by apply Husb|]. intros ? [= <-]. by left.
    - eexists. split; [by apply Hlsb|]. intros ? [= <-]. by right. }
  destruct (demodulate_length sp d (audio_demodulator p) iq (sample_rate p)
              None Hsp Hsr Har Hvalid) as (demodulated & Hres & _ & Hlen).
  specialize (Hlen Hm).
  unfold _demodulate. rewrite Hd.
  destruct (demodulate sp d _ iq _ None) as [r st']. cbn [fst] in Hres. subst r.
  destruct (post_process sp p demodulated) as [audio|e] eqn:Hpost; [|done].
  cbn [fst]. unfold post_process in Hpost.
  destruct (Req_dec_T (sample_rate p) (IZR (audio_sample_rate p))); [done|].
  unfold py_div in Hpost. destruct (Req_dec_T (sample_rate p) 0); [lra|].
  cbn [res_bind] in Hpost.
  destruct (resample sp demodulated _) as [resampled|e] eqn:Hres; [|done].
  apply (resample_length sp Hsp) in Hres. cbn [res_bind] in Hpost.
  assert (forall filtered,
            (if Rlt_dec (IZR (bandwidth p)) (IZR (audio_sample_rate p) / 2)
             then (normalized_cutoff <-
                     (if Req_dec_T (IZR (audio_sample_rate p) / 2) 0
                      then Raise ZeroDivisionError
                      else Ok (IZR (bandwidth p) / (IZR (audio_sample_rate p) / 2))) ;;;
                   ba <- butter_ba sp 4 (lowpass normalized_cutoff) ;;;
                   filtfilt sp ba.1 ba.2 resampled)%res
             else Ok resampled) = Ok filtered ->
            length filtered = length resampled) as Hfilter.
  { intros filtered. destruct (Rlt_dec _ _); [|by intros [= <-]].
    destruct (Req_dec_T _ 0); [done|]. cbn [res_bind].
    destruct (butter_ba sp 4 _) as [[b a]|e]; [|done]. cbn [res_bind fst snd].
    apply (filtfilt_length sp Hsp). }
  destruct (if Rlt_dec _ _ then _ else _) as [filtered|e] eqn:Hf; [|done].
  clear Hf. pose proof (Hfilter filtered eq_refl) as Hf. cbn [res_bind] in Hpost.
  assert (length audio = length filtered) as ->.
  { destruct (0 <? length filtered)%nat; [|by injection Hpost as <-].
    destruct (np_max _) as [max_val|e]; [|done]. cbn [res_bind] in Hpost.
    destruct (Rlt_dec 0 max_val); injection Hpost as <-; by rewrite ?length_map. }
  by rewrite Hf, Hres, Hlen.
Qed.




(** One call of [process] on the buffer: the chunk handed out, if any,
    followed by the new buffer, is the old buffer followed by the call's
    audio. *)
Lemma slice_split {A} (l : list A) (t : Z) :
  slice l 0 t ++ slice l t (Z.of_nat (length l)) = l.
Proof.
  unfold slice.
  replace (norm_index (length l) 0) with 0%nat by (unfold norm_index; cbn; lia).
  replace (norm_index (length l) (Z.of_nat (length l))) with (length l)
    by (unfold norm_index; destruct (Z.ltb_spec (Z.of_nat (length l)) 0); lia).
  rewrite Nat.sub_0_r, drop_0.
  rewrite (take_ge (drop _ _)) by (rewrite length_drop; lia).
  apply take_drop.
Qed.

Lemma slice_prefix_length {A} (l : list A) (t : Z) :
  (0 <= t <= Z.of_nat (length l))%Z -> length (slice l 0 t) = Z.to_nat t.
Proof.
  intros Ht. unfold slice.
  replace (norm_index (length l) 0) with 0%nat by (unfold norm_index; cbn; lia).
  replace (norm_index (length l) t) with (Z.to_nat t)
    by (unfold norm_index; destruct (Z.ltb_spec t 0); lia).
  rewrite drop_0, length_take. lia.
Qed.

Lemma process_step (p : DemodulatorPlugin) (call : Call) :
  let r := (process sp p call).1 in
  let p' := (process sp p call).2 in
  enabled (base p') = enabled (base p) /\
  target_chunk_size p' = target_chunk_size p /\
  (match r with Ok (Success _ _ (Some chunk)) => chunk | _ => [] end)
    ++ audio_buffer p'
  = audio_buffer p ++ audio_of_call sp p call /\
  (forall chunk m meta, r = Ok (Success m meta (Some chunk)) ->
     (0 <= target_chunk_size p)%Z -> length chunk = Z.to_nat (target_chunk_size p)) /\
  (enabled (base p) = true ->
   call_count (base p') = S (call_count (base p)) /\
   (success_count (base p') + failure_count (base p')
    + match r with Ok (NoOutput _) => 1 | _ => 0 end
    = S (success_count (base p) + failure_count (base p)))%nat /\
   failure_count (base p')
   = (failure_count (base p)
      + match iq_samples (call_data call) with Some _ => 0 | None => 1 end)%nat).
Proof.
  cbn zeta. unfold process, audio_of_call.
  destruct (enabled (base p)) eqn:Hen; cbn [negb].
  2:{ cbn [fst snd]. rewrite Hen, app_nil_r. repeat split; done. }
  destruct (iq_samples (call_data call)) as [iq|].
  2:{ cbn [fst snd set_base base count_failure count_call enabled call_count
           success_count failure_count target_chunk_size audio_buffer].
      rewrite Hen, app_nil_r. repeat split; try done; lia. }
  set (p1 := configure (set_base p (count_call (base p))) call).
  assert (base p1 = count_call (base p) /\ audio_buffer p1 = audio_buffer p /\
          target_chunk_size p1 = target_chunk_size p) as (Hb1 & Hbuf1 & Ht1).
  { unfold p1, configure. by destruct (demod_config (call_data call)). }
  destruct (_demodulate sp p1 iq) as [[audio|] st'] eqn:Hdem;
    cbn [fst default option_rect].
  2:{ cbn [fst snd set_audio_demodulator base audio_buffer target_chunk_size].
      rewrite Hb1, Hbuf1, Ht1, app_nil_r. cbn. rewrite Hen.
      repeat split; try done; lia. }
  destruct audio as [|a audio].
  { cbn [fst snd set_audio_demodulator base audio_buffer target_chunk_size].
    rewrite Hb1, Hbuf1, Ht1, app_nil_r. cbn. rewrite Hen.
    repeat split; try done; lia. }
  cbn [set_audio_demodulator audio_buffer target_chunk_size base].
  rewrite Hb1, Hbuf1, Ht1.
  set (buffer := audio_buffer p ++ a :: audio).
  destruct (target_chunk_size p <=? Z.of_nat (length buffer))%Z eqn:Hready;
    cbn [fst snd set_base set_audio_buffer base audio_buffer target_chunk_size
         count_success add_processing_time count_call enabled call_count
         success_count failure_count].
  - rewrite slice_split, Hen. repeat split; try done; try lia.
    intros chunk m meta [= _ _ <-] Ht. apply slice_prefix_length. lia.
  - rewrite Hen. repeat split; try done; lia.
Qed.

(** X15. The audio stream through the plugin's buffer.  Over any sequence
    of calls, the chunks handed out, in order, followed by what is left in
    the buffer, are the initial buffer followed by the audio of the calls:
    nothing is lost, repeated or reordered.  Every chunk has
    [target_chunk_size] samples, and a call hands out at most one chunk,
    however much audio the buffer holds. *)
Theorem audio_stream_conserved (calls : list Call) (p : DemodulatorPlugin) :
  (0 <= target_chunk_size p)%Z ->
  let chunks := (run sp calls p).1 in
  let p' := (run sp calls p).2 in
  concat chunks ++ audio_buffer p' = audio_buffer p ++ demodulated sp calls p /\
  Forall (fun chunk => length chunk = Z.to_nat (target_chunk_size p)) chunks /\
  (length chunks <= length calls)%nat.
Proof.
  cbn zeta. revert p. induction calls as [|call calls IH]; intros p Ht.
  - cbn. rewrite app_nil_r. split; [done|]. split; [constructor | lia].
  - cbn [run demodulated].
    pose proof (process_step p call) as (_ & Htarget & Hbuf & Hchunk & _).
    cbn zeta in *.
    destruct (process sp p call) as [r p1]. cbn [fst snd] in *.
    specialize (IH p1). rewrite Htarget in IH. specialize (IH Ht).
    destruct (run sp calls p1) as [chunks p2]. cbn [fst snd] in *.
    destruct IH as (IHbuf & IHlen & IHcount).
    rewrite app_assoc, <- Hbuf, <- app_assoc, <- IHbuf.
    destruct r as [[| |m meta [chunk|]]|e]; cbn [concat app length];
      rewrite ?app_assoc; repeat split; try done; try lia.
    constructor; [|done]. by eapply Hchunk.
Qed.

(** X16. The plugin's counters.  Over any sequence of calls to an enabled
    plugin, every call is counted in [call_count]; it is then counted as a
    failure when the samples are missing, as a success when audio was
    buffered, and in neither counter when [_demodulate] gave no audio (status
    ['no_output']).  So [success_count + failure_count] falls short of
    [call_count] by the number of such calls.  A disabled plugin is left as
    it is. *)
Theorem plugin_counters (calls : list Call) (p : DemodulatorPlugin) :
  let p' := (run sp calls p).2 in
  (enabled (base p) = false -> run sp calls p = ([], p)) /\
  (enabled (base p) = true ->
   call_count (base p') = (call_count (base p) + length calls)%nat /\
   (success_count (base p') + failure_count (base p') + no_output_count sp calls p
    = success_count (base p) + failure_count (base p) + length calls)%nat /\
   failure_count (base p')
   = (failure_count (base p)
      + length (List.filter
                  (fun call => match iq_samples (call_data call) with
                               | Some _ => false | None => true end)
                  calls))%nat).
Proof.
  cbn zeta. split.
  - intros Hdis. induction calls as [|call calls IH]; [done|].
    cbn [run]. unfold process at 1. rewrite Hdis. cbn [negb]. by rewrite IH.
  - revert p. induction calls as [|call calls IH]; intros p Hen.
    + cbn. repeat split; lia.
    + cbn [run no_output_count length List.filter].
      pose proof (process_step p call) as (Hen1 & _ & _ & _ & Hcount).
      cbn zeta in *. destruct (Hcount Hen) as (Hcalls & Hsum & Hfail).
      destruct (process sp p call) as [r p1]. cbn [fst snd] in *.
      rewrite Hen in Hen1. specialize (IH p1 Hen1).
      destruct (run sp calls p1) as [chunks p2]. cbn [fst snd] in *.
      destruct IH as (IHcalls & IHsum & IHfail).
      rewrite IHcalls, IHfail, Hcalls, Hfail.
      destruct (iq_samples (call_data call)); cbn [length];
        repeat split; try lia.
Qed.

End DemodPluginFacts.

(** At 2.4 MHz in and 48 kHz out, one audio sample per 50 samples. *)
Lemma expected_length_default (n : nat) :
  Demod.expected_length n 2400000 48000 = Z.to_nat (Z.of_nat n / 50).
Proof.
  unfold Demod.expected_length.
  destruct (Req_dec_T 2400000 48000) as [Heq|_]; [lra|]. f_equal.
  rewrite INR_IZR_INZ.
  assert (0 <= Z.of_nat n / 50)%Z as Hq by (apply Z.div_pos; lia).
  pose proof (Z.div_mod (Z.of_nat n) 50 ltac:(lia)) as Hdiv.
  pose proof (Z.mod_pos_bound (Z.of_nat n) 50 ltac:(lia)) as Hmod.
  unfold Np.py_int.
  destruct (Rle_dec 0 (IZR (Z.of_nat n) * (48000 / 2400000))) as [_|Hneg].
  - apply Zfloor_eq.
    apply (f_equal IZR) in Hdiv. rewrite plus_IZR, mult_IZR in Hdiv.
    assert (0 <= IZR (Z.of_nat n mod 50) < 50)%R as Hr.
    { split; [apply (IZR_le 0); lia | apply (IZR_lt _ 50); lia]. }
    lra.
  - exfalso. apply Hneg. apply Rmult_le_pos; [apply (IZR_le 0); lia | lra].
Qed.

Lemma plugin_resamples_twice_witness :
  let p := DemodPlug.DemodulatorPlugin_init (Demod.AudioDemodulators_init 48000)
             2400000 48000 "DemodulatorPlugin" in
  match (DemodPlug._demodulate Demod.scipy_stub p (replicate 2500 (1, 0)%R)).1 with
  | Some audio => length audio = 1%nat
  | None => True
  end.
Proof.
  cbn zeta.
  pose proof (plugin_resamples_twice Demod.scipy_stub
                (DemodPlug.DemodulatorPlugin_init (Demod.AudioDemodulators_init 48000)
                   2400000 48000 "DemodulatorPlugin")
                (replicate 2500 (1, 0)%R) scipy_stub_shapes) as H.
  cbn [DemodPlug.DemodulatorPlugin_init DemodPlug.mode DemodPlug.sample_rate
       DemodPlug.audio_sample_rate DemodPlug.audio_demodulator
       Demod.audio_sample_rate Demod.AudioDemodulators_init] in H.
  rewrite length_replicate, expected_length_default in H.
  change (Z.to_nat (Z.of_nat 2500 / 50)) with 50%nat in H.
  specialize (H ltac:(right; left; reflexivity) ltac:(lra) ltac:(lra) ltac:(lra)
                ltac:(lia)).
  replace (INR 50 * 48000 / 2400000)%R with 1%R in H
    by (rewrite INR_IZR_INZ; change (Z.of_nat 50) with 50%Z; lra).
  rewrite (py_int_IZR 1) in H by lia. exact H.
Defined.


Lemma audio_stream_conserved_witness :
  let p0 := DemodPlug.DemodulatorPlugin_init (Demod.AudioDemodulators_init 48000)
              2400000 48000 "DemodulatorPlugin" in
  let p := DemodPlug.set_base p0 (PluginBase.enable (DemodPlug.base p0)) in
  let call :=
    {| PluginBase.call_data :=
         {| PluginBase.iq_samples := Some (replicate 2500 (1, 0)%R);
            PluginBase.spectrum_db := None; PluginBase.demod_config := None |};
       PluginBase.start_time := 0%R; PluginBase.end_time := 1%R |} in
  concat (DemodPlug.run Demod.scipy_stub [call; call] p).1
    ++ DemodPlug.audio_buffer (DemodPlug.run Demod.scipy_stub [call; call] p).2
  = DemodPlug.audio_buffer p ++ DemodPlug.demodulated Demod.scipy_stub [call; call] p.
Proof.
  intros p0 p call.
  refine (proj1 (audio_stream_conserved Demod.scipy_stub [call; call] p _)).
  discriminate.
Defined.

Lemma plugin_counters_witness :
  let p0 := DemodPlug.DemodulatorPlugin_init (Demod.AudioDemodulators_init 48000)
              2400000 48000 "DemodulatorPlugin" in
  let p := DemodPlug.set_base p0 (PluginBase.enable (DemodPlug.base p0)) in
  let no_samples :=
    {| PluginBase.call_data :=
         {| PluginBase.iq_samples := None;
            PluginBase.spectrum_db := None; PluginBase.demod_config := None |};
       PluginBase.start_time := 0%R; PluginBase.end_time := 1%R |} in
  DemodPlug.run Demod.scipy_stub [no_samples] p0 = ([], p0) /\
  PluginBase.call_count
    (DemodPlug.base (DemodPlug.run Demod.scipy_stub [no_samples; no_samples] p).2)
  = 2%nat /\
  PluginBase.failure_count
    (DemodPlug.base (DemodPlug.run Demod.scipy_stub [no_samples; no_samples] p).2)
  = 2%nat.
Proof.
  cbn zeta. split.
  - match goal with
    | |- DemodPlug.run _ ?calls ?p = _ =>
        destruct (plugin_counters Demod.scipy_stub calls p) as (H & _)
    end.
    by apply H.
  - match goal with
    | |- PluginBase.call_count (DemodPlug.base (DemodPlug.run _ ?calls ?p).2) = _ /\ _ =>
        destruct (plugin_counters Demod.scipy_stub calls p) as (_ & H)
    end.
    destruct (H eq_refl) as (Hcalls & _ & Hfail). split; [exact Hcalls | exact Hfail].
Defined.

(** ** The spectrum and waterfall plugins *)

Section PluginWindows.
Import Np Spectrum PluginBase.
Local Open Scope R_scope.

(** Keeping the last [cap] items, one item at a time. *)
Lemma last_cap_step {A} (cap : nat) (l : list A) (x : A) (rest : list A) :
  (length l <= cap)%nat ->
  let l1 := drop (length (l ++ [x]) - cap) (l ++ [x]) in
  drop (length (l1 ++ rest) - cap) (l1 ++ rest)
  = drop (length (l ++ x :: rest) - cap) (l ++ x :: rest).
Proof.
  intros Hlen. cbn zeta. set (L := l ++ [x]).
  assert (length L = S (length l)) as HL by (unfold L; rewrite length_app; cbn; lia).
  rewrite <- drop_app_le by lia. rewrite drop_drop.
  replace (l ++ x :: rest) with (L ++ rest) by (unfold L; by rewrite <- app_assoc).
  f_equal. rewrite length_drop, !length_app. lia.
Qed.

Lemma last_cap_length {A} (cap : nat) (l : list A) :
  (length (drop (length l - cap) l) <= cap)%nat.
Proof. rewrite length_drop. lia. Qed.

Lemma append_capped_spec (times : list R) (t : R) :
  (length times <= 100)%nat ->
  append_capped times t = drop (length (times ++ [t]) - 100) (times ++ [t]).
Proof.
  intros Hlen. unfold append_capped.
  assert (length (times ++ [t]) = S (length times)) as HL
    by (rewrite length_app; cbn; lia).
  destruct (Nat.ltb_spec 100 (length (times ++ [t]))).
  - by replace (length (times ++ [t]) - 100)%nat with 1%nat by lia.
  - by replace (length (times ++ [t]) - 100)%nat with 0%nat by lia.
Qed.

End PluginWindows.

Section SpectrumPluginFacts.
Import Np Spectrum PluginBase SpectrumPlug.
Local Open Scope R_scope.

Lemma spectrum_process_step (p : SpectrumPlugin) (processor : SpectrumProcessor)
    (call : Call) :
  enabled (base p) = true ->
  match iq_samples (call_data call) with
  | None =>
      process p processor call
      = (Raise (ValueError "No IQ samples in data"),
         set_base p (count_failure (count_call (base p))), processor)
  | Some iq =>
      let out := process_samples processor iq in
      let t := end_time call - start_time call in
      exists peak,
        process p processor call
        = (Ok (Success out.1.1 out.1.2
                 {| meta_fft_size := length out.1.2;
                    meta_processing_time_ms := t * 1000;
                    meta_peak_power_db := peak;
                    meta_mean_power_db :=
                      if (0 <? length out.1.2)%nat then mean out.1.2 else 0 |}),
           {| base := count_success (add_processing_time (count_call (base p)) t);
              latest_spectrum := Some out.1.2;
              latest_frequencies := Some out.1.1;
              processing_times := append_capped (processing_times p) t |},
           out.2) /\
        (out.1.2 = [] -> peak = 0)
  end.
Proof.
  intros Hen. unfold process. rewrite Hen. cbn [negb].
  destruct (iq_samples (call_data call)) as [iq|]; [|done].
  cbn zeta. destruct (process_samples processor iq) as [[fs db] processor'].
  cbn [fst snd set_base base processing_times].
  destruct db as [|x db].
  - exists 0. by cbn.
  - cbn [length Nat.ltb Nat.leb Demod.np_max res_bind]. eexists. split; [done|done].
Qed.

(** X17. The spectrum plugin does not see a failed spectrum.  For an
    enabled plugin and a call that carries samples, [process] returns status
    ['success'] with exactly what [process_samples] returned, the plugin's
    success counter goes up, and the processor is left as [process_samples]
    leaves it.  When [process_samples] failed and returned empty arrays, the
    result is still a success, with [fft_size] 0 and peak and mean power 0. *)
Theorem spectrum_plugin_reports_success (p : SpectrumPlugin)
    (processor : SpectrumProcessor) (call : Call) (iq : list C) :
  enabled (base p) = true ->
  iq_samples (call_data call) = Some iq ->
  let out := process_samples processor iq in
  exists metadata p',
    process p processor call = (Ok (Success out.1.1 out.1.2 metadata), p', out.2) /\
    meta_fft_size metadata = length out.1.2 /\
    (out.1.2 = [] ->
     meta_peak_power_db metadata = 0 /\ meta_mean_power_db metadata = 0) /\
    get_latest_spectrum p' = (Some out.1.1, Some out.1.2) /\
    success_count (base p') = S (success_count (base p)) /\
    failure_count (base p') = failure_count (base p).
Proof.
  intros Hen Hiq. cbn zeta.
  pose proof (spectrum_process_step p processor call Hen) as Hstep.
  rewrite Hiq in Hstep. cbn zeta in Hstep. destruct Hstep as (peak & -> & Hpeak).
  eexists _, _. split; [reflexivity|]. cbn. split; [done|]. split; [|done].
  intros Hempty. split; [by apply Hpeak|]. by rewrite Hempty.
Qed.

(** X18. The spectrum plugin's bookkeeping.  Over any sequence of calls
    to an enabled plugin, every call is counted once in [call_count] and once
    in [success_count] (it carries samples) or [failure_count] (it does not);
    [processing_times] holds the durations of the last 100 successful calls,
    in order, and [get_average_processing_time] does not divide by zero. *)
Theorem spectrum_plugin_window (calls : list Call) (p : SpectrumPlugin)
    (processor : SpectrumProcessor) :
  enabled (base p) = true ->
  (length (processing_times p) <= 100)%nat ->
  let p' := (run calls p processor).1 in
  let times := processing_times p ++ durations calls in
  call_count (base p') = (call_count (base p) + length calls)%nat /\
  success_count (base p')
  = (success_count (base p) + length (durations calls))%nat /\
  (success_count (base p') + failure_count (base p')
   = success_count (base p) + failure_count (base p) + length calls)%nat /\
  processing_times p' = drop (length times - 100) times /\
  exists average, get_average_processing_time p' = Ok average.
Proof.
  cbn zeta. revert p processor.
  induction calls as [|call calls IH]; intros p processor Hen Hlen.
  - cbn [run fst durations List.filter map length]. rewrite app_nil_r.
    replace (length (processing_times p) - 100)%nat with 0%nat by lia.
    rewrite drop_0. repeat split; try lia.
    unfold get_average_processing_time.
    destruct (processing_times p) as [|t ts] eqn:Ht; [by eexists|].
    unfold py_div. destruct (Req_dec_T _ 0) as [Hz|_]; [|by eexists].
    exfalso. revert Hz. apply not_0_INR. cbn [length]. lia.
  - cbn [run]. pose proof (spectrum_process_step p processor call Hen) as Hstep.
    unfold durations. cbn [List.filter].
    destruct (iq_samples (call_data call)) as [iq|] eqn:Hiq.
    + cbn zeta in Hstep. destruct Hstep as (peak & -> & _).
      set (t := end_time call - start_time call).
      set (p1 := {| base := _ |}).
      destruct (IH p1 (process_samples processor iq).2) as (Hc & Hs & Hsum & Ht & Havg).
      { cbn. exact Hen. }
      { cbn [p1 processing_times]. rewrite append_capped_spec by done.
        apply last_cap_length. }
      rewrite bool_decide_true by (by eexists). cbn [map length].
      rewrite Hc, Hs, Ht. cbn [p1 base processing_times call_count success_count
                               failure_count count_success add_processing_time
                               count_call] in *.
      unfold durations in *.
      split; [lia|]. split; [lia|]. split; [lia|]. split; [|done].
      rewrite append_capped_spec by done. apply last_cap_step. done.
    + rewrite Hstep.
      destruct (IH (set_base p (count_failure (count_call (base p)))) processor)
        as (Hc & Hs & Hsum & Ht & Havg); [done | done |].
      rewrite bool_decide_false by (intros [? ?]; done).
      rewrite Hc, Hs, Ht.
      cbn [set_base base processing_times call_count success_count failure_count
           count_failure count_call] in *.
      unfold durations in *. cbn [length].
      split; [lia|]. split; [lia|]. split; [lia|]. split; done.
Qed.

End SpectrumPluginFacts.

Section WaterfallPluginFacts.
Import Np Spectrum PluginBase WaterfallPlug.
Local Open Scope R_scope.
Variable percentile : list R -> R -> R.

Lemma normalize_spec (lo hi x : R) :
  (lo < hi ->
   (0 <= normalize lo hi x <= 255)%Z /\
   (x <= lo -> normalize lo hi x = 0%Z) /\
   (hi <= x -> normalize lo hi x = 255%Z) /\
   (forall y, x <= y -> (normalize lo hi x <= normalize lo hi y)%Z)) /\
  (hi < lo -> normalize lo hi x = 255%Z).
Proof.
  assert (forall z, hi < lo -> Demod.clip lo hi z = hi) as Hinv.
  { intros z H. unfold Demod.clip. apply Rmin_right.
    pose proof (Rmax_r z lo). lra. }
  split.
  - intros Hspan.
    assert (forall z, lo <= Demod.clip lo hi z <= hi) as Hclip
      by (intros z; apply clip_bounds; lra).
    assert (forall z w, z <= w -> Demod.clip lo hi z <= Demod.clip lo hi w) as Hmono.
    { intros z w Hzw. unfold Demod.clip.
      apply Rle_min_compat_r. by apply Rle_max_compat_r. }
    unfold normalize.
    split; [|split; [|split]].
    + destruct (waterfall_scale lo (hi - lo) (Demod.clip lo hi x) (Demod.clip lo hi x))
        as [[? ?] ?]; try lra; [apply Hclip | pose proof (Hclip x); lra | lia].
    + intros Hx.
      assert (Demod.clip lo hi x = lo) as ->.
      { unfold Demod.clip. rewrite Rmax_right by done. apply Rmin_left. lra. }
      rewrite Rminus_diag. unfold Rdiv. rewrite !Rmult_0_l.
      unfold SpectrumViews.astype_uint8. apply (py_int_IZR 0). lia.
    + intros Hx.
      assert (Demod.clip lo hi x = hi) as ->.
      { unfold Demod.clip. apply Rmin_right. pose proof (Rmax_l x lo). lra. }
      replace ((hi - lo) / (hi - lo) * 255) with 255 by (field; lra).
      unfold SpectrumViews.astype_uint8. apply (py_int_IZR 255). lia.
    + intros y Hxy.
      destruct (waterfall_scale lo (hi - lo) (Demod.clip lo hi x) (Demod.clip lo hi y))
        as [[? ?] ?]; try lra;
        [apply Hclip | by apply Hmono | pose proof (Hclip y); lra | lia].
  - intros Hspan. unfold normalize. rewrite Hinv by done.
    replace ((hi - lo) / (hi - lo) * 255) with 255 by (field; lra).
    unfold SpectrumViews.astype_uint8. apply (py_int_IZR 255). lia.
Qed.

(** The spectrum that a call brings or has computed. *)
Lemma waterfall_process_step (p : WaterfallPlugin) (processor : SpectrumProcessor)
    (call : Call) :
  let r := (process percentile p processor call).1.1 in
  let p' := (process percentile p processor call).1.2 in
  max_lines p' = max_lines p /\
  enabled (base p') = enabled (base p) /\
  match r with
  | Ok (Success line metadata) =>
      waterfall_buffer p' = deque_append (max_lines p) (waterfall_buffer p) line /\
      meta_buffer_size metadata = length (waterfall_buffer p') /\
      exists db,
        match spectrum_db (call_data call), iq_samples (call_data call) with
        | Some s, _ => db = s
        | None, Some iq => db = (process_samples processor iq).1.2
        | None, None => False
        end /\
        line = map (normalize (min_db p') (max_db p')) db
  | _ => waterfall_buffer p' = waterfall_buffer p
  end.
Proof.
  cbn zeta. unfold process.
  destruct (enabled (base p)) eqn:Hen; cbn [negb]; [|done].
  assert (forall (lo hi : R) (db : list R),
            (if (0 <? length db)%nat then map (normalize lo hi) db else [])
            = map (normalize lo hi) db) as Hline
    by (by intros lo hi [|d db]).
  cbn [set_base auto_scale min_db max_db max_lines waterfall_buffer base].
  destruct (spectrum_db (call_data call)) as [s|].
  - destruct (if _ && _ then _ else _) as [lo hi].
    cbn [fst snd set_base base max_lines waterfall_buffer min_db max_db enabled
         count_success add_processing_time count_call meta_buffer_size].
    rewrite Hline, Hen. repeat split; try done. by exists s.
  - destruct (iq_samples (call_data call)) as [iq|].
    + destruct (process_samples processor iq) as [[fs db] processor'].
      destruct (if _ && _ then _ else _) as [lo hi].
      cbn [fst snd set_base base max_lines waterfall_buffer min_db max_db enabled
           count_success add_processing_time count_call meta_buffer_size].
      rewrite Hline, Hen. repeat split; try done. by exists db.
    + cbn. by rewrite Hen.
Qed.

(** X19. The waterfall line.  [process] scales the spectrum with the
    range that the plugin holds after the call (the 5th and 95th percentile
    under auto-scale, the manual range otherwise).  With the lower end below
    the upper end, every value of the line lies in 0..255, values at or below
    the lower end give 0, values at or above the upper end give 255, and the
    line is ordered like the spectrum.  With the ends swapped, as after
    [set_scale_range(0, -80)], every value is 255. *)
Theorem waterfall_line_values (p : WaterfallPlugin) (processor : SpectrumProcessor)
    (call : Call) (line : list Z) (metadata : WaterfallMetadata) :
  (process percentile p processor call).1.1 = Ok (Success line metadata) ->
  let p' := (process percentile p processor call).1.2 in
  let lo := min_db p' in
  let hi := max_db p' in
  exists db,
    match spectrum_db (call_data call), iq_samples (call_data call) with
    | Some s, _ => db = s
    | None, Some iq => db = (process_samples processor iq).1.2
    | None, None => False
    end /\
    line = map (normalize lo hi) db /\
    (lo < hi ->
     Forall (fun v => (0 <= v <= 255)%Z) line /\
     (forall i x, db !! i = Some x -> x <= lo -> line !! i = Some 0%Z) /\
     (forall i x, db !! i = Some x -> hi <= x -> line !! i = Some 255%Z) /\
     (forall i j x y u v,
        db !! i = Some x -> db !! j = Some y ->
        line !! i = Some u -> line !! j = Some v -> x <= y -> (u <= v)%Z)) /\
    (hi < lo -> Forall (fun v => v = 255%Z) line).
Proof.
  intros Hr. cbn zeta.
  pose proof (waterfall_process_step p processor call) as (_ & _ & Hstep).
  cbn zeta in Hstep. rewrite Hr in Hstep.
  destruct Hstep as (_ & _ & db & Hdb & ->).
  exists db. split; [done|]. split; [done|].
  set (lo := min_db _). set (hi := max_db _). split.
  - intros Hspan. split; [|split; [|split]].
    + apply Forall_forall. intros v Hv.
      apply list_elem_of_fmap in Hv as (x & -> & _).
      by destruct (normalize_spec lo hi x) as [H _]; destruct (H Hspan).
    + intros i x Hi Hx. rewrite list_lookup_fmap, Hi. cbn. f_equal.
      destruct (normalize_spec lo hi x) as [H _].
      destruct (H Hspan) as (_ & H0 & _). by apply H0.
    + intros i x Hi Hx. rewrite list_lookup_fmap, Hi. cbn. f_equal.
      destruct (normalize_spec lo hi x) as [H _].
      destruct (H Hspan) as (_ & _ & H1 & _). by apply H1.
    + intros i j x y u v Hi Hj Hu Hv Hxy.
      rewrite list_lookup_fmap, Hi in Hu. rewrite list_lookup_fmap, Hj in Hv.
      injection Hu as <-. injection Hv as <-.
      destruct (normalize_spec lo hi x) as [H _].
      destruct (H Hspan) as (_ & _ & _ & Hm). by apply Hm.
  - intros Hswap. apply Forall_forall. intros v Hv.
    apply list_elem_of_fmap in Hv as (x & -> & _).
    by destruct (normalize_spec lo hi x) as [_ H]; apply H.
Qed.

Lemma deque_append_spec {A} (maxlen : Z) (q : list A) (x : A) :
  (0 <= maxlen)%Z -> (length q <= Z.to_nat maxlen)%nat ->
  deque_append maxlen q x
  = drop (length (q ++ [x]) - Z.to_nat maxlen) (q ++ [x]).
Proof.
  intros Hmax Hlen. unfold deque_append.
  assert (length (q ++ [x]) = S (length q)) as HL by (rewrite length_app; cbn; lia).
  destruct (Z.ltb_spec maxlen (Z.of_nat (length (q ++ [x])))).
  - by replace (length (q ++ [x]) - Z.to_nat maxlen)%nat with 1%nat by lia.
  - by replace (length (q ++ [x]) - Z.to_nat maxlen)%nat with 0%nat by lia.
Qed.

(** X20. The waterfall history is a rolling buffer.  Over any sequence of
    calls, the buffer holds the last [max_lines] of the lines it held before
    followed by the lines produced, in order; a call that is refused
    (plugin disabled, no data) adds nothing.  With [max_lines = 0] the buffer
    stays empty. *)
Theorem waterfall_buffer_rolls (calls : list Call) (p : WaterfallPlugin)
    (processor : SpectrumProcessor) :
  (0 <= max_lines p)%Z ->
  (length (waterfall_buffer p) <= Z.to_nat (max_lines p))%nat ->
  let lines := (run percentile calls p processor).1.1 in
  let p' := (run percentile calls p processor).1.2 in
  let history := waterfall_buffer p ++ lines in
  waterfall_buffer p' = drop (length history - Z.to_nat (max_lines p)) history /\
  (length (waterfall_buffer p') <= Z.to_nat (max_lines p))%nat.
Proof.
  cbn zeta. revert p processor.
  induction calls as [|call calls IH]; intros p processor Hmax Hlen.
  - cbn [run fst snd]. rewrite app_nil_r.
    replace (length (waterfall_buffer p) - Z.to_nat (max_lines p))%nat with 0%nat by lia.
    by rewrite drop_0.
  - cbn [run].
    pose proof (waterfall_process_step p processor call) as (Hml & _ & Hstep).
    cbn zeta in Hstep, Hml.
    destruct (process percentile p processor call) as [[r p1] processor1].
    cbn [fst snd] in *.
    specialize (IH p1 processor1). rewrite Hml in IH.
    destruct (run percentile calls p1 processor1) as [[lines p2] processor2].
    cbn [fst snd] in *.
    destruct r as [[|line metadata]|e].
    + rewrite Hstep in IH. by apply IH.
    + destruct Hstep as (Hbuf & _).
      rewrite Hbuf, deque_append_spec in IH by done.
      destruct IH as [IHbuf IHlen]; [done | apply last_cap_length |].
      split; [|done]. rewrite IHbuf. by apply last_cap_step.
    + rewrite Hstep in IH. by apply IH.
Qed.

End WaterfallPluginFacts.
(** ** The controller: statistics, read size, tuning, demodulation settings *)

Section ControllerFacts.
Import Np Spectrum Controller ControllerOps.
Local Open Scope R_scope.

Lemma append_capped_length (times : list R) (t : R) :
  (length times <= 100)%nat ->
  (length (PluginBase.append_capped times t) <= 100)%nat /\
  (1 <= length (PluginBase.append_capped times t))%nat.
Proof.
  intros Hlen. unfold PluginBase.append_capped.
  assert (length (times ++ [t]) = S (length times)) as HL
    by (rewrite length_app; cbn; lia).
  destruct (Nat.ltb_spec 100 (length (times ++ [t]))); rewrite ?length_drop; lia.
Qed.

Lemma update_performance_step (s : PerformanceStats) (t now : R) :
  0 <= fps s <= 100 -> (length (processing_times s) <= 100)%nat ->
  0 <= fps (_update_performance_stats s t now) <= 100 /\
  (length (processing_times (_update_performance_stats s t now)) <= 100)%nat.
Proof.
  intros Hfps Hlen. unfold _update_performance_stats.
  destruct (append_capped_length (processing_times s) t Hlen) as [Hcap Hone].
  destruct (Rle_dec 1 (now - last_fps_time s)) as [Hsec|Hsec];
    cbn [fps processing_times length]; [|done].
  split; [|lia].
  destruct (Rlt_dec 0 (now - last_fps_time s)) as [_|Hn]; [|lra].
  set (n := length (PluginBase.append_capped (processing_times s) t)) in *.
  assert (0 <= INR n <= 100) as Hn.
  { split; [apply pos_INR|]. replace 100 with (INR 100)
      by (rewrite INR_IZR_INZ; by change (Z.of_nat 100) with 100%Z).
    by apply le_INR. }
  assert (0 < / (now - last_fps_time s) <= 1) as Hinv.
  { split; [apply Rinv_0_lt_compat; lra|].
    rewrite <- Rinv_1. apply Rinv_le_contravar; lra. }
  unfold Rdiv. split; [apply Rmult_le_pos; lra|]. nra.
Qed.

(** X21. The frame rate that the controller reports never exceeds 100.
    [_update_performance_stats] computes it at most once per second, as the
    number of stored processing times over the elapsed time, and stores at
    most 100 processing times: from the initial statistics, after any
    sequence of updates with any processing times and clock readings, [fps]
    lies in [0, 100] and at most 100 times are stored.  The division is by an
    elapsed time of at least one second, never by zero. *)
Theorem fps_bounded (now : R) (updates : list (R * R)) :
  let s := update_all (PerformanceStats_init now) updates in
  0 <= fps s <= 100 /\ (length (processing_times s) <= 100)%nat.
Proof.
  cbn zeta. unfold update_all.
  assert (forall s,
            0 <= fps s <= 100 -> (length (processing_times s) <= 100)%nat ->
            0 <= fps (fold_left (fun s u => _update_performance_stats s u.1 u.2)
                        updates s) <= 100 /\
            (length (processing_times
                       (fold_left (fun s u => _update_performance_stats s u.1 u.2)
                          updates s)) <= 100)%nat) as Hall.
  { induction updates as [|u updates IH]; intros s Hfps Hlen; [done|].
    cbn [fold_left].
    destruct (update_performance_step s u.1 u.2 Hfps Hlen). by apply IH. }
  apply Hall; cbn; [lra | lia].
Qed.

(** X22. The read size of the acquisition loop, for a sample rate that is
    not negative: a multiple of 1024 samples, at most 100 ms of samples and
    less than 1024 samples short of that; it is 0 for sample rates below
    10240 Hz. *)
Theorem read_size_aligned (sample_rate : R) :
  0 <= sample_rate ->
  (0 <= read_size sample_rate)%Z /\
  (read_size sample_rate mod 1024 = 0)%Z /\
  IZR (read_size sample_rate) <= sample_rate * 0.1 < IZR (read_size sample_rate) + 1024 /\
  (sample_rate < 10240 -> read_size sample_rate = 0%Z).
Proof.
  intros Hsr. unfold read_size.
  rewrite py_int_nonneg by lra.
  pose proof (Zfloor_bound (sample_rate * 0.1)) as [Hlo Hhi].
  set (r0 := Zfloor (sample_rate * 0.1)) in *.
  assert (0 <= r0)%Z as Hr0 by (apply Zfloor_lub; simpl; lra).
  pose proof (Z.mul_div_le r0 1024 ltac:(lia)) as Hle.
  pose proof (Z.mul_succ_div_gt r0 1024 ltac:(lia)) as Hgt.
  assert (0 <= r0 / 1024)%Z as Hq by (apply Z.div_pos; lia).
  split; [lia|]. split; [apply Z.mod_mul; lia|]. split; [split|].
  - apply IZR_le in Hle. rewrite Z.mul_comm in Hle. lra.
  - assert (r0 + 1 <= r0 / 1024 * 1024 + 1024)%Z as Hz by lia.
    apply IZR_le in Hz. rewrite !plus_IZR in Hz. lra.
  - intros Hsmall. assert (r0 < 1024)%Z as Hlt by (apply lt_IZR; lra).
    rewrite Z.div_small by lia. done.
Qed.

Section Tuning.
Context {Device DeviceExn : Type}.
Variable set_center_freq : Device -> R -> res DeviceExn Device.
Variable set_gain : Device -> R -> res DeviceExn Device.
Variable i0 : R -> R.
Local Abbreviation Tuner := (@ControllerOps.Tuner Device).
Local Abbreviation tune := (ControllerOps.tune set_center_freq set_gain i0).

(** X23. [tune] validates before it touches anything: on a controller
    that is not connected, or for a frequency outside 24..1766 MHz, it raises
    and leaves the controller and the device as they were.  When the device
    accepts the frequency (and the gain, if one is given), the controller's
    frequency and gain are updated and the spectrum processor is re-centred:
    it stays consistent, keeps its sample rate, FFT size and stored spectrum,
    and its frequency axis is centred on the new frequency.  When the device
    accepts the frequency but refuses the gain, the exception leaves the
    controller with the new centre frequency while the spectrum processor
    still has the old axis. *)
Theorem tune_validates (c : Tuner) (frequency : R) (gain : option R) :
  (is_connected c = false -> tune c frequency gain = (Raise NotConnected, c)) /\
  (is_connected c = true -> ~ (24e6 <= frequency <= 1766e6) ->
   tune c frequency gain = (Raise OutOfRange, c)) /\
  (is_connected c = true -> 24e6 <= frequency <= 1766e6 ->
   consistent (spectrum_processor c) ->
   forall dev dev',
     set_center_freq (sdr c) frequency = Ok dev ->
     match gain with
     | Some g => set_gain dev g = Ok dev'
     | None => dev' = dev
     end ->
     exists c',
       tune c frequency gain
       = (Ok {| reply_frequency := frequency;
                reply_gain := default (config_gain c) gain |}, c') /\
       sdr c' = dev' /\ is_connected c' = true /\
       config_center_frequency c' = frequency /\
       config_gain c' = default (config_gain c) gain /\
       consistent (spectrum_processor c') /\
       center_frequency (spectrum_processor c') = frequency /\
       sample_rate (spectrum_processor c') = sample_rate (spectrum_processor c) /\
       fft_size (spectrum_processor c') = fft_size (spectrum_processor c) /\
       previous_spectrum (spectrum_processor c')
       = previous_spectrum (spectrum_processor c)) /\
  (is_connected c = true -> 24e6 <= frequency <= 1766e6 ->
   forall dev g e,
     gain = Some g ->
     set_center_freq (sdr c) frequency = Ok dev ->
     set_gain dev g = Raise e ->
     exists c',
       tune c frequency gain = (Raise (DeviceError e), c') /\
       sdr c' = dev /\
       config_center_frequency c' = frequency /\
       config_gain c' = config_gain c /\
       spectrum_processor c' = spectrum_processor c).
Proof.
  split; [|split; [|split]].
  - intros Hcon. unfold ControllerOps.tune. by rewrite Hcon.
  - intros Hcon Hout. unfold ControllerOps.tune. rewrite Hcon. cbn [negb].
    destruct (Rle_dec 24e6 frequency); destruct (Rle_dec frequency 1766e6);
      cbn [andb negb]; try done. exfalso. apply Hout. lra.
  - intros Hcon [Hlo Hhi] Hc dev dev' Hdev Hgain.
    unfold ControllerOps.tune. rewrite Hcon. cbn [negb].
    destruct (Rle_dec 24e6 frequency); [|lra].
    destruct (Rle_dec frequency 1766e6); [|lra]. cbn [andb negb]. rewrite Hdev.
    destruct (update_config_ok i0 (spectrum_processor c) None (Some frequency) None Hc)
      as (st' & Hupd & Hc' & Hsr & Hcf & Hfs & _); [done | done |].
    pose proof (update_config_smoothing_state i0 (spectrum_processor c)
                  None (Some frequency) None) as Hsm.
    rewrite Hupd in Hsm. cbn [snd] in Hsm. destruct Hsm as (Hprev & _).
    cbn in Hsr, Hcf, Hfs.
    destruct gain as [g|].
    + cbn [sdr]. rewrite Hgain. cbn [spectrum_processor]. rewrite Hupd.
      eexists. split; [reflexivity|]. cbn. split_and!; done.
    + subst dev'. cbn [spectrum_processor]. rewrite Hupd.
      eexists. split; [reflexivity|]. cbn. split_and!; done.
  - intros Hcon [Hlo Hhi] dev g e -> Hdev Hgain.
    unfold ControllerOps.tune. rewrite Hcon. cbn [negb].
    destruct (Rle_dec 24e6 frequency); [|lra].
    destruct (Rle_dec frequency 1766e6); [|lra]. cbn [andb negb]. rewrite Hdev.
    cbn [sdr]. rewrite Hgain. eexists. split; [reflexivity|]. done.
Qed.

End Tuning.

Lemma demod_modes_cases (m : string) (cfg : ModeConfig) :
  DEMOD_MODES !! m = Some cfg ->
  (bandwidth_min cfg <= bandwidth_default cfg <= bandwidth_max cfg)%Z /\
  (m = "SPECTRUM"%string \/
   m ∈ ["AM"%string; "FM"%string; "USB"%string; "LSB"%string; "CW"%string]).
Proof.
  unfold DEMOD_MODES. rewrite !lookup_insert_Some, lookup_empty.
  intros [[<- <-]|[_ [[<- <-]|[_ [[<- <-]|[_ [[<- <-]|[_ [[<- <-]|[_ [[<- <-]|[_ ?]]]]]]]]]]]];
    try done; cbn; (split; [lia|]); [right..|left]; try done.
  - left.
  - right; left.
  - do 2 right; left.
  - do 3 right; left.
  - do 4 right; left.
Qed.

(** X24. The controller's demodulation settings and the demodulator
    plugin stay in step.  From the initial controller, after any sequence of
    [set_demodulation] requests, accepted or refused: the mode is a key of
    [DEMOD_MODES] and the bandwidth lies in that mode's range; the plugin is
    enabled exactly when the mode is not ['SPECTRUM']; and an enabled plugin
    has the controller's mode and bandwidth, the mode being one of AM, FM,
    USB, LSB and CW. *)
Theorem demod_settings_kept (Chunk : Type) :
  (forall (c : WebSDRControllerV2 Chunk) m bw,
     demod_settings_agree c -> demod_settings_agree (set_demodulation c m bw).2) /\
  (forall requests,
     let c := set_demodulations (WebSDRControllerV2_init Chunk) requests in
     demod_settings_agree c /\
     (enabled (demod_plugin c) = true ->
      mode (demod_plugin c)
        ∈ ["AM"%string; "FM"%string; "USB"%string; "LSB"%string; "CW"%string])).
Proof.
  assert (forall (c : WebSDRControllerV2 Chunk) m bw,
            demod_settings_agree c -> demod_settings_agree (set_demodulation c m bw).2)
    as Hstep.
  { intros c m bw Hc. unfold set_demodulation.
    destruct (DEMOD_MODES !! m) as [cfg|] eqn:Hm; [|done].
    destruct (demod_modes_cases m cfg Hm) as [Hdefault _].
    assert (forall b,
              (bandwidth_min cfg <= b <= bandwidth_max cfg)%Z ->
              demod_settings_agree
                {| demod_config_mode := m; demod_config_bandwidth := b;
                   demod_plugin :=
                     if String.eqb m "SPECTRUM"
                     then {| enabled := false; mode := mode (demod_plugin c);
                             bandwidth := bandwidth (demod_plugin c) |}
                     else set_mode {| enabled := true; mode := mode (demod_plugin c);
                                      bandwidth := bandwidth (demod_plugin c) |}
                            m (Some b);
                   data_queue := data_queue c;
                   samples_processed := samples_processed c |}) as Hok.
    { intros b Hb. unfold demod_settings_agree.
      cbn [demod_config_mode demod_config_bandwidth demod_plugin].
      split; [by exists cfg|].
      destruct (String.eqb m "SPECTRUM"); cbn; by repeat split. }
    destruct bw as [b|]; [|by apply Hok].
    destruct (Z.leb_spec (bandwidth_min cfg) b);
      destruct (Z.leb_spec b (bandwidth_max cfg)); cbn [andb negb snd]; try done.
    apply Hok. lia. }
  split; [exact Hstep|].
  intros requests. cbn zeta.
  assert (demod_settings_agree
            (set_demodulations (WebSDRControllerV2_init Chunk) requests)) as Hall.
  { unfold set_demodulations.
    assert (demod_settings_agree (WebSDRControllerV2_init Chunk)) as Hinit.
    { unfold demod_settings_agree. cbn. split; [|done].
      eexists. split; [reflexivity|]. cbn. lia. }
    revert Hinit. generalize (WebSDRControllerV2_init Chunk).
    induction requests as [|request requests IH]; intros c Hc; [done|].
    cbn [fold_left]. apply IH. by apply Hstep. }
  split; [exact Hall|]. intros Hen.
  destruct Hall as ((cfg & Hm & _) & Hspec & Hsame).
  destruct (Hsame Hen) as [-> _].
  destruct (demod_modes_cases _ _ Hm) as [_ [Hs|Hin]]; [|done].
  rewrite Hen, Hs in Hspec. done.
Qed.

End ControllerFacts.

(** ** Instances of the plugin and controller properties *)

Lemma spectrum_plugin_reports_success_witness :
  exists st metadata p',
    Spectrum.SpectrumProcessor_init Spectrum.i0_unused 4 2400000 0.5 "hann" false = Ok st /\
    SpectrumPlug.process (SpectrumPlug.SpectrumPlugin_init "SpectrumPlugin") st
      {| PluginBase.call_data :=
           {| PluginBase.iq_samples := Some (Spectrum.silence 4);
              PluginBase.spectrum_db := None; PluginBase.demod_config := None |};
         PluginBase.start_time := 0%R; PluginBase.end_time := 1%R |}
    = (Ok (SpectrumPlug.Success
             (Spectrum.process_samples st (Spectrum.silence 4)).1.1
             (Spectrum.process_samples st (Spectrum.silence 4)).1.2 metadata),
       p', (Spectrum.process_samples st (Spectrum.silence 4)).2) /\
    PluginBase.success_count (SpectrumPlug.base p') = 1%nat.
Proof.
  destruct (init_ok Spectrum.i0_unused 4 2400000 0.5 "hann" false)
    as (st & Hinit & _); [lia | lra | lra |].
  destruct (spectrum_plugin_reports_success
              (SpectrumPlug.SpectrumPlugin_init "SpectrumPlugin") st
              {| PluginBase.call_data :=
                   {| PluginBase.iq_samples := Some (Spectrum.silence 4);
                      PluginBase.spectrum_db := None;
                      PluginBase.demod_config := None |};
                 PluginBase.start_time := 0%R; PluginBase.end_time := 1%R |}
              (Spectrum.silence 4) eq_refl eq_refl)
    as (metadata & p' & Hproc & _ & _ & _ & Hs & _).
  exists st, metadata, p'. split; [exact Hinit|]. split; [exact Hproc | exact Hs].
Defined.

Lemma spectrum_plugin_window_witness :
  exists st,
    Spectrum.SpectrumProcessor_init Spectrum.i0_unused 4 2400000 0.5 "hann" false = Ok st /\
    let with_samples :=
      {| PluginBase.call_data :=
           {| PluginBase.iq_samples := Some (Spectrum.silence 4);
              PluginBase.spectrum_db := None; PluginBase.demod_config := None |};
         PluginBase.start_time := 0%R; PluginBase.end_time := 1%R |} in
    let no_samples :=
      {| PluginBase.call_data :=
           {| PluginBase.iq_samples := None;
              PluginBase.spectrum_db := None; PluginBase.demod_config := None |};
         PluginBase.start_time := 1%R; PluginBase.end_time := 2%R |} in
    let p := SpectrumPlug.SpectrumPlugin_init "SpectrumPlugin" in
    let p' := (SpectrumPlug.run [with_samples; no_samples] p st).1 in
    PluginBase.call_count (SpectrumPlug.base p') = 2%nat /\
    PluginBase.success_count (SpectrumPlug.base p') = 1%nat /\
    SpectrumPlug.processing_times p' = [(1 - 0)%R].
Proof.
  destruct (init_ok Spectrum.i0_unused 4 2400000 0.5 "hann" false)
    as (st & Hinit & _); [lia | lra | lra |].
  exists st. split; [exact Hinit|]. intros with_samples no_samples p p'.
  destruct (spectrum_plugin_window [with_samples; no_samples] p st eq_refl)
    as (Hc & Hs & _ & Ht & _); [cbn; lia|].
  split; [exact Hc|]. split; [exact Hs | exact Ht].
Defined.

Lemma waterfall_line_values_witness :
  let line := map (WaterfallPlug.normalize (-80) 0) [-100; -40; 10]%R in
  Forall (fun v => (0 <= v <= 255)%Z) line /\
  line !! 0%nat = Some 0%Z /\ line !! 2%nat = Some 255%Z.
Proof.
  destruct (init_ok Spectrum.i0_unused 4 2400000 0.5 "hann" false)
    as (st & _); [lia | lra | lra |].
  pose (p := WaterfallPlug.set_scale_range
               {| WaterfallPlug.base := PluginBase.BasePlugin_init "WaterfallPlugin" true;
                  WaterfallPlug.max_lines := 100;
                  WaterfallPlug.waterfall_buffer := [];
                  WaterfallPlug.min_db := (-80)%R; WaterfallPlug.max_db := 0%R;
                  WaterfallPlug.auto_scale := true |} (-80) 0).
  pose (call := {| PluginBase.call_data :=
                     {| PluginBase.iq_samples := None;
                        PluginBase.spectrum_db := Some [-100; -40; 10]%R;
                        PluginBase.demod_config := None |};
                   PluginBase.start_time := 0%R; PluginBase.end_time := 1%R |}).
  destruct (waterfall_line_values (fun _ _ => 0%R) p st call _ _ eq_refl)
    as (db & Hdb & _ & Hspan & _).
  cbn in Hdb. subst db.
  destruct Hspan as (Hall & Hlow & Hhigh & _); [cbn; lra|].
  intros line. split; [exact Hall|]. split.
  - apply (Hlow 0%nat (-100)%R eq_refl). cbn. lra.
  - apply (Hhigh 2%nat 10%R eq_refl). cbn. lra.
Defined.

Lemma waterfall_buffer_rolls_witness :
  exists st p,
    Spectrum.SpectrumProcessor_init Spectrum.i0_unused 4 2400000 0.5 "hann" false = Ok st /\
    WaterfallPlug.WaterfallPlugin_init 2 "WaterfallPlugin" = Ok p /\
    let call :=
      {| PluginBase.call_data :=
           {| PluginBase.iq_samples := None;
              PluginBase.spectrum_db := Some [-100; -40; 10]%R;
              PluginBase.demod_config := None |};
         PluginBase.start_time := 0%R; PluginBase.end_time := 1%R |} in
    (length (WaterfallPlug.waterfall_buffer
               (WaterfallPlug.run (fun _ _ => 0%R) [call; call; call] p st).1.2)
     <= Z.to_nat (WaterfallPlug.max_lines p))%nat.
Proof.
  destruct (init_ok Spectrum.i0_unused 4 2400000 0.5 "hann" false)
    as (st & Hinit & _); [lia | lra | lra |].
  exists st. eexists. split; [exact Hinit|]. split; [reflexivity|].
  intros call.
  refine (proj2 (waterfall_buffer_rolls (fun _ _ => 0%R) [call; call; call] _ st _ _)).
  - cbn. lia.
  - cbn. lia.
Defined.

Lemma read_size_aligned_witness :
  (ControllerOps.read_size 2400000 mod 1024 = 0)%Z /\
  (IZR (ControllerOps.read_size 2400000) <= 2400000 * 0.1)%R.
Proof.
  destruct (read_size_aligned 2400000) as (_ & Hmod & [Hle _] & _); [lra|].
  split; [exact Hmod | exact Hle].
Defined.

Lemma tune_validates_witness :
  exists st c',
    Spectrum.SpectrumProcessor_init Spectrum.i0_unused 4 2400000 0.5 "hann" false = Ok st /\
    ControllerOps.tune (fun (d : unit) (_ : R) => @Ok unit unit d)
      (fun (d : unit) (_ : R) => @Ok unit unit d) Spectrum.i0_unused
      {| ControllerOps.sdr := tt; ControllerOps.is_connected := true;
         ControllerOps.config_center_frequency := 100e6%R;
         ControllerOps.config_gain := 40%R;
         ControllerOps.spectrum_processor := st |}
      1420e6%R (Some 30%R)
    = (Ok {| ControllerOps.reply_frequency := 1420e6%R;
             ControllerOps.reply_gain := 30%R |}, c') /\
    Spectrum.center_frequency (ControllerOps.spectrum_processor c') = 1420e6%R.
Proof.
  destruct (init_ok Spectrum.i0_unused 4 2400000 0.5 "hann" false)
    as (st & Hinit & Hc & _); [lia | lra | lra |].
  destruct (tune_validates (fun (d : unit) (_ : R) => @Ok unit unit d)
              (fun (d : unit) (_ : R) => @Ok unit unit d) Spectrum.i0_unused
              {| ControllerOps.sdr := tt; ControllerOps.is_connected := true;
                 ControllerOps.config_center_frequency := 100e6%R;
                 ControllerOps.config_gain := 40%R;
                 ControllerOps.spectrum_processor := st |}
              1420e6%R (Some 30%R)) as (_ & _ & Hok & _).
  destruct (Hok eq_refl ltac:(split; lra) Hc tt tt eq_refl eq_refl)
    as (c' & Htune & _ & _ & _ & _ & _ & Hcf & _).
  exists st, c'. split; [exact Hinit|]. split; [exact Htune | exact Hcf].
Defined.
